(** * LAFVIN PICO development kit: touch, display and input drivers

    A shallow embedding of the peripheral layer of the firmware:
    - [gt911.c]: the GT911 capacitive touch controller on the I2C bus,
    - [st7796.c]: the ST7796 panel controller on the SPI bus,
    - [lv_port_disp.c]: the flush callback handed to the graphics engine,
    - [main.c]: the joystick dead-zone mapping and the button interrupt.

    Hardware effects are explicit: every driver function is a state
    transformer over a world that records the transactions it issued, and
    the answers of the I2C bus come from an oracle that sees the whole
    history of transactions. *)

From Stdlib Require Import ZArith Zbitwise List Bool Lia.
Import ListNotations.
Local Open Scope Z_scope.

(** ** Machine integers *)

Definition UINT32_MAX : Z := 4294967295.
Definition INT_MAX : Z := 2147483647.
Definition INT_MIN : Z := -2147483648.

(** Conversion to [uint8_t], [uint16_t], [uint32_t]: reduction modulo 2^w. *)
Definition uint8 (z : Z) : Z := z mod 256.
Definition uint16 (z : Z) : Z := z mod 65536.
Definition uint32 (z : Z) : Z := z mod 4294967296.

(** Conversion to [int] (32 bits, two's complement). *)
Definition int32 (z : Z) : Z := (z + 2147483648) mod 4294967296 - 2147483648.

(** ** The I2C bus seen from the driver *)

(** One blocking transaction of the SDK: [i2c_write_blocking] or
    [i2c_read_blocking] with the 7-bit address, the payload (or the number
    of bytes wanted) and the [nostop] flag. *)
Inductive i2c_call : Type :=
| I2cWrite (addr : Z) (src : list Z) (nostop : bool)
| I2cRead (addr : Z) (len : Z) (nostop : bool).

(** What the bus answers: the SDK's return value (negative on error) and,
    for a read, the bytes stored in the destination buffer. *)
Record i2c_resp : Type := { i2c_ret : Z; i2c_rx : list Z }.

(** The bus and the peripheral behind it: an oracle from the transactions
    issued so far and the current one to its answer. *)
Definition i2c_bus : Type := list i2c_call -> i2c_call -> i2c_resp.

(** ** gt911.h *)

Definition GT911_I2C_ADDR : Z := 0x5D.
Definition GT911_PRODUCT_ID_LEN : Z := 4.

Definition GT911_REG_PRODUCT_ID1 : Z := 0x8140.
Definition GT911_REG_X_RES_L : Z := 0x8146.
Definition GT911_REG_X_RES_H : Z := 0x8147.
Definition GT911_REG_Y_RES_L : Z := 0x8148.
Definition GT911_REG_Y_RES_H : Z := 0x8149.
Definition GT911_REG_VENDOR_ID : Z := 0x814A.
Definition GT911_REG_STATUS : Z := 0x814E.
Definition GT911_REG_PT1_X_L : Z := 0x8150.
Definition GT911_REG_PT1_X_H : Z := 0x8151.
Definition GT911_REG_PT1_Y_L : Z := 0x8152.
Definition GT911_REG_PT1_Y_H : Z := 0x8153.

Definition GT911_STATUS_BUF_READY : Z := 0x80.
Definition GT911_STATUS_PT_MASK : Z := 0x0F.

(** [gt911_dev_t] *)
Record gt911_dev_t : Type := {
  initialized : bool;
  product_id : list Z;
  max_x : Z;
  max_y : Z;
  i2c_addr : Z
}.

(** The driver's whole state: the static [gt911_dev], the two static locals
    [last_x] and [last_y] of [gt911_read_touch], and the transactions issued
    on the bus so far (oldest first). *)
Record gt911_world : Type := {
  gt911_dev : gt911_dev_t;
  last_x : Z;
  last_y : Z;
  i2c_log : list i2c_call
}.

(** The static initialiser of [gt911_dev] and of the two locals. *)
Definition gt911_boot : gt911_world :=
  {| gt911_dev := {| initialized := false; product_id := [0; 0; 0; 0; 0];
                     max_x := 0; max_y := 0; i2c_addr := GT911_I2C_ADDR |};
     last_x := 0; last_y := 0; i2c_log := [] |}.

(** What [gt911_read_touch] stores through its three output pointers. *)
Record touch_sample : Type := { ts_x : Z; ts_y : Z; ts_pressed : bool }.

(** ** State passing

    A C function that has side effects is a state transformer that returns
    its result next to the new state. *)

Definition State (S A : Type) : Type := S -> A * S.

Definition ret {S A} (a : A) : State S A := fun w => (a, w).
Definition bind {S A B} (m : State S A) (k : A -> State S B) : State S B :=
  fun w => let (a, w1) := m w in k a w1.

Notation "x <- m ;; k" := (bind m (fun x => k))
  (at level 61, m at next level, right associativity).
Notation "m ;; k" := (bind m (fun _ => k))
  (at level 61, right associativity).
(** A register read that failed makes the caller [return false]. *)
Notation "'try' x <- m ;; k" :=
  (bind m (fun r => match r with Some x => k | None => ret None end))
  (at level 61, x name, m at next level, right associativity).

(** The touch driver's functions run over its world. *)
Definition M (A : Type) : Type := State gt911_world A.

Definition get_dev : M gt911_dev_t := fun w => (gt911_dev w, w).
Definition set_dev (d : gt911_dev_t) : M unit := fun w =>
  (tt, {| gt911_dev := d; last_x := last_x w; last_y := last_y w;
          i2c_log := i2c_log w |}).
Definition get_last_x : M Z := fun w => (last_x w, w).
Definition get_last_y : M Z := fun w => (last_y w, w).
Definition set_last_x (v : Z) : M unit := fun w =>
  (tt, {| gt911_dev := gt911_dev w; last_x := v; last_y := last_y w;
          i2c_log := i2c_log w |}).
Definition set_last_y (v : Z) : M unit := fun w =>
  (tt, {| gt911_dev := gt911_dev w; last_x := last_x w; last_y := v;
          i2c_log := i2c_log w |}).

Definition set_initialized (b : bool) (d : gt911_dev_t) : gt911_dev_t :=
  {| initialized := b; product_id := product_id d; max_x := max_x d;
     max_y := max_y d; i2c_addr := i2c_addr d |}.
Definition set_product_id (p : list Z) (d : gt911_dev_t) : gt911_dev_t :=
  {| initialized := initialized d; product_id := p; max_x := max_x d;
     max_y := max_y d; i2c_addr := i2c_addr d |}.
Definition set_max_x (v : Z) (d : gt911_dev_t) : gt911_dev_t :=
  {| initialized := initialized d; product_id := product_id d; max_x := v;
     max_y := max_y d; i2c_addr := i2c_addr d |}.
Definition set_max_y (v : Z) (d : gt911_dev_t) : gt911_dev_t :=
  {| initialized := initialized d; product_id := product_id d; max_x := max_x d;
     max_y := v; i2c_addr := i2c_addr d |}.

(** ** gt911.c *)

(** [l[i] = v] on an array held as a list. *)
Fixpoint list_set {A} (i : nat) (v : A) (l : list A) : list A :=
  match l, i with
  | [], _ => []
  | _ :: tl, O => v :: tl
  | x :: tl, S i' => x :: list_set i' v tl
  end.

Section GT911.

(** The bus the driver talks to. *)
Variable bus : i2c_bus.

(** The transaction is appended to the log and answered by the oracle. *)
Definition i2c_transact (c : i2c_call) : M i2c_resp := fun w =>
  (bus (i2c_log w) c,
   {| gt911_dev := gt911_dev w; last_x := last_x w; last_y := last_y w;
      i2c_log := i2c_log w ++ [c] |}).

Definition i2c_write_blocking (addr : Z) (src : list Z) (nostop : bool) : M Z :=
  r <- i2c_transact (I2cWrite addr src nostop) ;;
  ret (i2c_ret r).

(** The bytes of a read, each an [uint8_t]; a byte the oracle leaves out
    reads as 0. *)
Definition rx_bytes (len : Z) (rx : list Z) : list Z :=
  map (fun i => uint8 (nth i rx 0)) (seq 0 (Z.to_nat len)).

Definition i2c_read_blocking (addr : Z) (len : Z) (nostop : bool)
  : M (Z * list Z) :=
  r <- i2c_transact (I2cRead addr len nostop) ;;
  ret (i2c_ret r, rx_bytes len (i2c_rx r)).

(** [gt911_i2c_read_reg(reg, data, len)]: [None] is [return false], [Some] the
    bytes left in [data]. Every caller passes the address of a local, so the
    [data == NULL] half of the guard is never taken; [len == 0] is kept. *)
Definition gt911_i2c_read_reg (reg : Z) (len : Z) : M (option (list Z)) :=
  if len =? 0 then ret None else
  d <- get_dev ;;
  let reg_addr := [Z.land (Z.shiftr reg 8) 0xFF; Z.land reg 0xFF] in
  r1 <- i2c_write_blocking (i2c_addr d) reg_addr true ;;
  if r1 <? 0 then ret None else
  r2 <- i2c_read_blocking (i2c_addr d) len false ;;
  if fst r2 <? 0 then ret None else
  ret (Some (snd r2)).

(** The single byte of a one-byte read. *)
Definition gt911_read_byte (reg : Z) : M (option Z) :=
  r <- gt911_i2c_read_reg reg 1 ;;
  ret (option_map (fun bytes => hd 0 bytes) r).

(** [gt911_clear_status]: one three-byte write, its result dropped. *)
Definition gt911_clear_status : M unit :=
  d <- get_dev ;;
  let buffer := [0x81; 0x4E; 0x00] in
  i2c_write_blocking (i2c_addr d) buffer false ;;
  ret tt.

(** [gt911_read_touch]: [None] is [return false] (nothing stored through the
    output pointers), [Some s] is [return true] with [s] stored. *)
Definition gt911_read_touch : M (option touch_sample) :=
  d <- get_dev ;;
  if negb (initialized d) then ret None else
  try status_reg <- gt911_read_byte GT911_REG_STATUS ;;
  let touch_count := Z.land status_reg GT911_STATUS_PT_MASK in
  (if negb (Z.land status_reg GT911_STATUS_BUF_READY =? 0) || (touch_count <? 6)
   then gt911_clear_status else ret tt) ;;
  if touch_count =? 1 then
    try data <- gt911_read_byte GT911_REG_PT1_X_L ;;
    set_last_x data ;;
    try data <- gt911_read_byte GT911_REG_PT1_X_H ;;
    lx <- get_last_x ;;
    set_last_x (uint16 (Z.lor lx (Z.shiftl (uint16 data) 8))) ;;
    try data <- gt911_read_byte GT911_REG_PT1_Y_L ;;
    set_last_y data ;;
    try data <- gt911_read_byte GT911_REG_PT1_Y_H ;;
    ly <- get_last_y ;;
    set_last_y (uint16 (Z.lor ly (Z.shiftl (uint16 data) 8))) ;;
    x <- get_last_x ;;
    y <- get_last_y ;;
    ret (Some {| ts_x := x; ts_y := y; ts_pressed := true |})
  else
    x <- get_last_x ;;
    y <- get_last_y ;;
    ret (Some {| ts_x := x; ts_y := y; ts_pressed := false |}).

(** A failing step of [gt911_init] makes it [return false]. *)
Notation "'expect' x <- m ;; k" :=
  (bind m (fun r => match r with Some x => k | None => ret false end))
  (at level 61, x name, m at next level, right associativity).

(** What [i2c_init] reports as the actual baud rate (0: the bus could not be
    set up). *)
Variable actual_baudrate : Z.

(** [gt911_i2c_init]; the pin multiplexing, the pull-ups and the 10 ms
    settle delay leave no trace in this world. *)
Definition gt911_i2c_init : M bool :=
  if actual_baudrate =? 0 then ret false else ret true.

(** The loop [for (i = 0; i < GT911_PRODUCT_ID_LEN; i++)] of [gt911_init],
    with [n] iterations left. *)
Fixpoint read_product_id (n : nat) (i : Z) : M bool :=
  match n with
  | O => ret true
  | S n' =>
      expect data <- gt911_read_byte (GT911_REG_PRODUCT_ID1 + i) ;;
      d <- get_dev ;;
      set_dev (set_product_id (list_set (Z.to_nat i) data (product_id d)) d) ;;
      read_product_id n' (i + 1)
  end.

(** [gt911_init] *)
Definition gt911_init : M bool :=
  d <- get_dev ;;
  if initialized d then ret true else
  ok <- gt911_i2c_init ;;
  if negb ok then ret false else
  expect data <- gt911_read_byte GT911_REG_PRODUCT_ID1 ;;
  ok <- read_product_id (Z.to_nat GT911_PRODUCT_ID_LEN) 0 ;;
  if negb ok then ret false else
  d <- get_dev ;;
  set_dev (set_product_id
             (list_set (Z.to_nat GT911_PRODUCT_ID_LEN) 0 (product_id d)) d) ;;
  expect data <- gt911_read_byte GT911_REG_VENDOR_ID ;;
  expect data <- gt911_read_byte GT911_REG_X_RES_L ;;
  d <- get_dev ;;
  set_dev (set_max_x data d) ;;
  expect data <- gt911_read_byte GT911_REG_X_RES_H ;;
  d <- get_dev ;;
  set_dev (set_max_x (uint16 (Z.lor (max_x d) (Z.shiftl (uint16 data) 8))) d) ;;
  expect data <- gt911_read_byte GT911_REG_Y_RES_L ;;
  d <- get_dev ;;
  set_dev (set_max_y data d) ;;
  expect data <- gt911_read_byte GT911_REG_Y_RES_H ;;
  d <- get_dev ;;
  set_dev (set_max_y (uint16 (Z.lor (max_y d) (Z.shiftl (uint16 data) 8))) d) ;;
  d <- get_dev ;;
  set_dev (set_initialized true d) ;;
  ret true.

End GT911.

(** ** Reading the log *)

(** The transactions issued between two worlds. *)
Definition new_calls (w w' : gt911_world) : list i2c_call :=
  skipn (length (i2c_log w)) (i2c_log w').

(** A status-clear write: a write of the single byte 0 to register 0x814E. *)
Definition is_status_clear (c : i2c_call) : bool :=
  match c with
  | I2cWrite _ [hi; lo; v] _ => (hi =? 0x81) && (lo =? 0x4E) && (v =? 0)
  | _ => false
  end.

Definition status_clear_writes (calls : list i2c_call) : nat :=
  length (filter is_status_clear calls).

(** The two transactions of a one-byte register read. *)
Definition reg_read_calls (addr reg : Z) : list i2c_call :=
  [I2cWrite addr [Z.land (Z.shiftr reg 8) 0xFF; Z.land reg 0xFF] true;
   I2cRead addr 1 false].

(** The fields of the status byte, in the words of the register map. *)
Definition status_bit7 (status_reg : Z) : bool := Z.testbit status_reg 7.
Definition status_point_count (status_reg : Z) : Z := Z.land status_reg 0x0F.

(** ** A controller for concrete runs *)

(** The register addressed by the last transaction of the history. *)
Definition addressed_reg (hist : list i2c_call) : Z :=
  match last hist (I2cRead 0 0 false) with
  | I2cWrite _ [hi; lo] _ => Z.lor (Z.shiftl hi 8) lo
  | _ => 0
  end.

(** A controller whose registers hold [regs]: it acknowledges every address
    write, answers a read with the registers from the addressed one on, and
    answers a status-clear write with [clear_ret]. *)
Definition gt911_device (regs : Z -> Z) (clear_ret : Z) : i2c_bus :=
  fun hist c =>
    match c with
    | I2cWrite _ src _ =>
        {| i2c_ret := if is_status_clear c then clear_ret
                      else Z.of_nat (length src);
           i2c_rx := [] |}
    | I2cRead _ len _ =>
        {| i2c_ret := len;
           i2c_rx := map (fun i => regs (addressed_reg hist + Z.of_nat i))
                         (seq 0 (Z.to_nat len)) |}
    end.

(** A register file given by an association list; other registers read 0. *)
Fixpoint regs_of (l : list (Z * Z)) (reg : Z) : Z :=
  match l with
  | [] => 0
  | (r, v) :: tl => if r =? reg then v else regs_of tl reg
  end.

(** The registers of a GT911 behind a 320x480 panel. *)
Definition id_regs : list (Z * Z) :=
  [(GT911_REG_PRODUCT_ID1, 57); (GT911_REG_PRODUCT_ID1 + 1, 49);
   (GT911_REG_PRODUCT_ID1 + 2, 49); (GT911_REG_X_RES_L, 0x40);
   (GT911_REG_X_RES_H, 0x01); (GT911_REG_Y_RES_L, 0xE0);
   (GT911_REG_Y_RES_H, 0x01)].

(** The driver after a successful [gt911_init], its log emptied. *)
Definition gt911_ready : gt911_world :=
  let w := snd (gt911_init (gt911_device (regs_of id_regs) 3) 100000
                           gt911_boot) in
  {| gt911_dev := gt911_dev w; last_x := last_x w; last_y := last_y w;
     i2c_log := [] |}.

(** A controller that reports one point at (100,200), ready flag set. *)
Definition touch_regs : Z -> Z :=
  regs_of [(GT911_REG_STATUS, 0x81); (GT911_REG_PT1_X_L, 0x64);
           (GT911_REG_PT1_X_H, 0x00); (GT911_REG_PT1_Y_L, 0xC8);
           (GT911_REG_PT1_Y_H, 0x00)].

(** ** st7796.h, st7796.c *)

Definition ST7796_PIN_CS : Z := 5.
Definition ST7796_PIN_DC : Z := 6.
Definition ST7796_PIN_RST : Z := 7.

Definition ST7796_CMD_CASET : Z := 0x2A.
Definition ST7796_CMD_RASET : Z := 0x2B.
Definition ST7796_CMD_RAMWR : Z := 0x2C.

(** What the display side does to the outside, in order: a GPIO level
    driven, a burst on the SPI bus (with the levels of the chip-select and
    data-select lines while it runs), a delay, and the completion signal
    [lv_disp_flush_ready] given to the graphics engine. *)
Inductive lcd_event : Type :=
| GpioPut (pin : Z) (value : bool)
| SpiWrite (cs dc : bool) (bytes : list Z)
| SleepUs (us : Z)
| FlushReady.

(** The display side's state: the GPIO output levels, the static
    [disp_flush_enabled] of lv_port_disp.c and the events so far. *)
Record lcd_world : Type := {
  gpio_level : Z -> bool;
  disp_flush_enabled : bool;
  lcd_trace : list lcd_event
}.

Definition L (A : Type) : Type := State lcd_world A.

Definition emit (e : lcd_event) : L unit := fun w =>
  (tt, {| gpio_level := gpio_level w;
          disp_flush_enabled := disp_flush_enabled w;
          lcd_trace := lcd_trace w ++ [e] |}).

Definition gpio_put (pin : Z) (value : bool) : L unit := fun w =>
  (tt, {| gpio_level := fun p => if p =? pin then value else gpio_level w p;
          disp_flush_enabled := disp_flush_enabled w;
          lcd_trace := lcd_trace w ++ [GpioPut pin value] |}).

Definition sleep_us (us : Z) : L unit := emit (SleepUs us).

(** [spi_write_blocking(ST7796_SPI_PORT, src, len)]: the first [len] bytes
    of the memory at [src] go out in one burst. *)
Definition spi_write_blocking (src : list Z) (len : Z) : L unit := fun w =>
  emit (SpiWrite (gpio_level w ST7796_PIN_CS) (gpio_level w ST7796_PIN_DC)
                 (firstn (Z.to_nat len) src)) w.

Definition LCD_CS_LOW : L unit := gpio_put ST7796_PIN_CS false.
Definition LCD_CS_HIGH : L unit := gpio_put ST7796_PIN_CS true.
Definition LCD_DC_CMD : L unit := gpio_put ST7796_PIN_DC false.
Definition LCD_DC_DATA : L unit := gpio_put ST7796_PIN_DC true.

(** [st7796_write_cmd] *)
Definition st7796_write_cmd (cmd : Z) : L unit :=
  LCD_CS_LOW ;;
  LCD_DC_CMD ;;
  sleep_us 1 ;;
  spi_write_blocking [cmd] 1 ;;
  sleep_us 1 ;;
  LCD_CS_HIGH.

(** [st7796_write_data]; a pointer is [None] when it is [NULL], else the
    bytes of the memory it points to. *)
Definition st7796_write_data (data : option (list Z)) (len : Z) : L unit :=
  match data with
  | None => ret tt
  | Some bytes =>
      if len =? 0 then ret tt else
      LCD_CS_LOW ;;
      LCD_DC_DATA ;;
      sleep_us 1 ;;
      spi_write_blocking bytes len ;;
      sleep_us 1 ;;
      LCD_CS_HIGH
  end.

(** [st7796_set_window] *)
Definition st7796_set_window (x1 y1 x2 y2 : Z) : L unit :=
  st7796_write_cmd ST7796_CMD_CASET ;;
  st7796_write_data
    (Some [Z.land (Z.shiftr x1 8) 0xFF; Z.land x1 0xFF;
           Z.land (Z.shiftr x2 8) 0xFF; Z.land x2 0xFF]) 4 ;;
  st7796_write_cmd ST7796_CMD_RASET ;;
  st7796_write_data
    (Some [Z.land (Z.shiftr y1 8) 0xFF; Z.land y1 0xFF;
           Z.land (Z.shiftr y2 8) 0xFF; Z.land y2 0xFF]) 4 ;;
  st7796_write_cmd ST7796_CMD_RAMWR.

(** [st7796_write_color(color, len)]: [len] is an [uint32_t], and so is
    [len * 2]. *)
Definition st7796_write_color (color : option (list Z)) (len : Z) : L unit :=
  match color with
  | None => ret tt
  | Some bytes =>
      if len =? 0 then ret tt else
      LCD_CS_LOW ;;
      LCD_DC_DATA ;;
      spi_write_blocking bytes (uint32 (len * 2)) ;;
      LCD_CS_HIGH
  end.

(** ** lv_port_disp.c *)

(** [lv_area_t] *)
Record lv_area_t : Type := { x1 : Z; y1 : Z; x2 : Z; y2 : Z }.

Definition disp_enable_update : L unit := fun w =>
  (tt, {| gpio_level := gpio_level w; disp_flush_enabled := true;
          lcd_trace := lcd_trace w |}).

Definition disp_disable_update : L unit := fun w =>
  (tt, {| gpio_level := gpio_level w; disp_flush_enabled := false;
          lcd_trace := lcd_trace w |}).

Definition lv_disp_flush_ready : L unit := emit FlushReady.

Section LvPortDisp.

(** The graphics engine's [lv_area_get_width] and [lv_area_get_height]. *)
Variables lv_area_get_width lv_area_get_height : lv_area_t -> Z.

(** [disp_flush] *)
Definition disp_flush (area : lv_area_t) (color_p : option (list Z)) : L unit :=
  fun w =>
  if negb (disp_flush_enabled w) then
    lv_disp_flush_ready w
  else
    (st7796_set_window (uint16 (x1 area)) (uint16 (y1 area))
                       (uint16 (x2 area)) (uint16 (y2 area)) ;;
     let size := uint32 (lv_area_get_width area * lv_area_get_height area) in
     st7796_write_color color_p size ;;
     lv_disp_flush_ready) w.

End LvPortDisp.

(** The events issued between two worlds. *)
Definition new_events (w w' : lcd_world) : list lcd_event :=
  skipn (length (lcd_trace w)) (lcd_trace w').

Definition is_flush_ready (e : lcd_event) : bool :=
  match e with FlushReady => true | _ => false end.

(** A display-bus operation: a level driven on a control line or a burst. *)
Definition is_bus_op (e : lcd_event) : bool :=
  match e with GpioPut _ _ | SpiWrite _ _ _ => true | _ => false end.

Definition is_spi_write (e : lcd_event) : bool :=
  match e with SpiWrite _ _ _ => true | _ => false end.

(** The display side after [st7796_gpio_init]: the three control lines
    high, output enabled, nothing sent yet. *)
Definition lcd_boot : lcd_world :=
  {| gpio_level := fun _ => true; disp_flush_enabled := true;
     lcd_trace := [] |}.

(** ** main.c *)

Definition GPIO_BUTTON_1 : Z := 15.
Definition GPIO_BUTTON_2 : Z := 14.
Definition GPIO_BUTTON_RESET : Z := 22.
Definition GPIO_LED_1 : Z := 16.
Definition GPIO_LED_2 : Z := 17.
Definition BTN_DEBOUNCE_MS : Z := 50.
Definition ADC_MAX_VALUE : Z := 4095.
Definition ADC_CENTER : Z := 2048.
Definition ADC_DEADZONE : Z := 150.

(** The SDK's event bits of a GPIO interrupt (hardware/gpio.h). *)
Definition GPIO_IRQ_EDGE_FALL : Z := 0x4.
Definition GPIO_IRQ_EDGE_RISE : Z := 0x8.

(** [map_adc_with_deadzone]: [int] arithmetic, division truncating toward
    zero. *)
Definition map_adc_with_deadzone (adc_raw max_pos : Z) (invert : bool) : Z :=
  let offset := int32 (int32 adc_raw - ADC_CENTER) in
  if Z.abs offset <? ADC_DEADZONE then max_pos ÷ 2 else
  let mapped :=
    if offset >? 0 then
      let range := ADC_CENTER - ADC_DEADZONE in
      let scaled := int32 ((offset - ADC_DEADZONE) * (max_pos ÷ 2)) ÷ range in
      int32 (max_pos ÷ 2 + scaled)
    else
      let range := ADC_CENTER - ADC_DEADZONE in
      let scaled := int32 ((offset + ADC_DEADZONE) * (max_pos ÷ 2)) ÷ range in
      int32 (max_pos ÷ 2 + scaled) in
  let mapped := if mapped <? 0 then 0 else mapped in
  let mapped := if mapped >? max_pos then max_pos else mapped in
  if invert then int32 (max_pos - mapped) else mapped.

(** What the button interrupt reads and writes: the two debounce time
    stamps, the two on-screen indicators [led1] and [led2] (lit or not) and
    the GPIO output levels. *)
Record button_world : Type := {
  btn1_last_time : Z;
  btn2_last_time : Z;
  led1 : bool;
  led2 : bool;
  gpio_out : Z -> bool
}.

(** The statics at boot, the LED pins driven low by [create_hardware_ui]. *)
Definition button_boot : button_world :=
  {| btn1_last_time := 0; btn2_last_time := 0; led1 := false; led2 := false;
     gpio_out := fun _ => false |}.

(** [on_button_interrupt]; [now] is what
    [to_ms_since_boot(get_absolute_time())] returns, an [uint32_t], and
    [lv_led_toggle] switches an indicator between lit and dark. *)
Definition on_button_interrupt (now : Z) (gpio_pin events : Z)
  (w : button_world) : button_world :=
  if Z.land events GPIO_IRQ_EDGE_RISE =? 0 then w else
  if gpio_pin =? GPIO_BUTTON_1 then
    if uint32 (now - btn1_last_time w) >? BTN_DEBOUNCE_MS then
      {| btn1_last_time := now;
         btn2_last_time := btn2_last_time w;
         led1 := negb (led1 w);
         led2 := led2 w;
         gpio_out := fun p => if p =? GPIO_LED_1
                              then negb (gpio_out w GPIO_LED_1)
                              else gpio_out w p |}
    else w
  else if gpio_pin =? GPIO_BUTTON_2 then
    if uint32 (now - btn2_last_time w) >? BTN_DEBOUNCE_MS then
      {| btn1_last_time := btn1_last_time w;
         btn2_last_time := now;
         led1 := led1 w;
         led2 := negb (led2 w);
         gpio_out := fun p => if p =? GPIO_LED_2
                              then negb (gpio_out w GPIO_LED_2)
                              else gpio_out w p |}
    else w
  else w.

(** ** Reasoning about runs *)

(** The world with more transactions logged. *)
Definition log_calls (w : gt911_world) (calls : list i2c_call) : gt911_world :=
  {| gt911_dev := gt911_dev w; last_x := last_x w; last_y := last_y w;
     i2c_log := i2c_log w ++ calls |}.

(** [wp m Q w]: running [m] from [w] ends with a result and a world that
    satisfy [Q]. *)
Definition wp {A} (m : M A) (Q : A -> gt911_world -> Prop) (w : gt911_world)
  : Prop :=
  Q (fst (m w)) (snd (m w)).

(** The world [w1] is reached from a world with device record [d] and log
    [l] by transactions that leave the device record alone and never write
    the status register. *)
Definition quiet (d : gt911_dev_t) (l : list i2c_call) (w1 : gt911_world)
  : Prop :=
  gt911_dev w1 = d /\
  exists calls, i2c_log w1 = l ++ calls /\ status_clear_writes calls = 0%nat.

(** ** Buses described by what they answer *)

(** Reading register [reg] succeeds and yields the byte [v], whatever went
    on before and whatever device address is used. *)
Definition reads_as (bus : i2c_bus) (reg v : Z) : Prop :=
  forall (hist : list i2c_call) (addr : Z),
    let c1 := I2cWrite addr [Z.land (Z.shiftr reg 8) 0xFF; Z.land reg 0xFF]
                       true in
    let c2 := I2cRead addr 1 false in
    0 <= i2c_ret (bus hist c1) /\
    0 <= i2c_ret (bus (hist ++ [c1]) c2) /\
    rx_bytes 1 (i2c_rx (bus (hist ++ [c1]) c2)) = [v].

(** The controller reports no touch or several: a status byte whose point
    count is not 1. *)
Definition idle_bus (bus : i2c_bus) : Prop :=
  exists s, reads_as bus GT911_REG_STATUS s /\ status_point_count s <> 1.

(** Every transaction other than a status-clear write is acknowledged. *)
Definition reads_succeed (bus : i2c_bus) : Prop :=
  forall hist c, is_status_clear c = false -> 0 <= i2c_ret (bus hist c).

(** Two buses that answer alike except, possibly, to a status-clear write. *)
Definition agree_except_clear (bus1 bus2 : i2c_bus) : Prop :=
  forall hist c, is_status_clear c = false -> bus1 hist c = bus2 hist c.

(** Polling the driver once per bus behaviour, oldest first. *)
Fixpoint gt911_poll (buses : list i2c_bus) (w : gt911_world)
  : list (option touch_sample) * gt911_world :=
  match buses with
  | [] => ([], w)
  | b :: tl =>
      let (r, w1) := gt911_read_touch b w in
      let (rs, w2) := gt911_poll tl w1 in
      (r :: rs, w2)
  end.

(** A controller that reports six points with the ready flag clear. *)
Definition six_points_regs : Z -> Z := regs_of [(GT911_REG_STATUS, 0x06)].

(** A controller that reports one point at the panel's origin. *)
Definition origin_touch_regs : Z -> Z := regs_of [(GT911_REG_STATUS, 0x81)].

(** A controller that reports no point, ready flag clear. *)
Definition no_touch_regs : Z -> Z := regs_of [(GT911_REG_STATUS, 0x00)].

(** A controller that reports one point at (356,200). *)
Definition far_touch_regs : Z -> Z :=
  regs_of [(GT911_REG_STATUS, 0x81); (GT911_REG_PT1_X_L, 0x64);
           (GT911_REG_PT1_X_H, 0x01); (GT911_REG_PT1_Y_L, 0xC8);
           (GT911_REG_PT1_Y_H, 0x00)].

(** A controller that reports one point whose X low byte is 5. *)
Definition near_touch_regs : Z -> Z :=
  regs_of [(GT911_REG_STATUS, 0x81); (GT911_REG_PT1_X_L, 0x05);
           (GT911_REG_PT1_X_H, 0x00); (GT911_REG_PT1_Y_L, 0xC8);
           (GT911_REG_PT1_Y_H, 0x00)].

(** The bus [bus], except that addressing register [reg] is not
    acknowledged. *)
Definition nack_on (reg : Z) (bus : i2c_bus) : i2c_bus :=
  fun hist c =>
    match c with
    | I2cWrite _ [hi; lo] _ =>
        if Z.lor (Z.shiftl hi 8) lo =? reg
        then {| i2c_ret := -1; i2c_rx := [] |}
        else bus hist c
    | _ => bus hist c
    end.

(** ** The joystick mapping in unbounded integers *)

(** No product of [map_adc_with_deadzone] leaves the range of [int]. *)
Definition adc_product_fits (max_pos : Z) : Prop :=
  INT_MIN <= max_pos <= INT_MAX /\
  (ADC_CENTER - ADC_DEADZONE) * Z.abs (max_pos ÷ 2) <= INT_MAX.

(** A raw value outside the closed band around the centre. *)
Definition outside_dead_band (raw : Z) : Prop :=
  raw < ADC_CENTER - ADC_DEADZONE \/ ADC_CENTER + ADC_DEADZONE < raw.

(** The linear part of the mapping. *)
Definition rescale (offset half : Z) : Z :=
  if offset >? 0
  then half + ((offset - ADC_DEADZONE) * half) ÷ (ADC_CENTER - ADC_DEADZONE)
  else half + ((offset + ADC_DEADZONE) * half) ÷ (ADC_CENTER - ADC_DEADZONE).

(** The two clamping statements. *)
Definition clamp (max_pos mapped : Z) : Z :=
  let mapped := if mapped <? 0 then 0 else mapped in
  if mapped >? max_pos then max_pos else mapped.

(** ** Expected event sequences of the display driver *)

(** The events of one [st7796_write_cmd]. *)
Definition write_cmd_events (cmd : Z) : list lcd_event :=
  [GpioPut ST7796_PIN_CS false; GpioPut ST7796_PIN_DC false; SleepUs 1;
   SpiWrite false false [cmd]; SleepUs 1; GpioPut ST7796_PIN_CS true].

(** The events of one [st7796_write_data] that sends [payload]. *)
Definition write_data_events (payload : list Z) : list lcd_event :=
  [GpioPut ST7796_PIN_CS false; GpioPut ST7796_PIN_DC true; SleepUs 1;
   SpiWrite false true payload; SleepUs 1; GpioPut ST7796_PIN_CS true].

(** The events of [st7796_set_window]: three commands, two of them followed
    by their four parameter bytes, high byte first. *)
Definition set_window_events (wx1 wy1 wx2 wy2 : Z) : list lcd_event :=
  write_cmd_events ST7796_CMD_CASET
  ++ write_data_events [Z.land (Z.shiftr wx1 8) 0xFF; Z.land wx1 0xFF;
                        Z.land (Z.shiftr wx2 8) 0xFF; Z.land wx2 0xFF]
  ++ write_cmd_events ST7796_CMD_RASET
  ++ write_data_events [Z.land (Z.shiftr wy1 8) 0xFF; Z.land wy1 0xFF;
                        Z.land (Z.shiftr wy2 8) 0xFF; Z.land wy2 0xFF]
  ++ write_cmd_events ST7796_CMD_RAMWR.

(** The events of a [st7796_write_color] that sends [payload]. *)
Definition write_color_events (payload : list Z) : list lcd_event :=
  [GpioPut ST7796_PIN_CS false; GpioPut ST7796_PIN_DC true;
   SpiWrite false true payload; GpioPut ST7796_PIN_CS true].

(** * The rest of the drivers *)

(** Conversion to [int16_t]. *)
Definition int16 (z : Z) : Z := (z + 32768) mod 65536 - 32768.

(** ** gt911.c: the register write and the device record *)

Section GT911Write.

Variable bus : i2c_bus.

(** [gt911_i2c_write_reg(reg, data, len)]; [data] is [None] for [NULL],
    else the bytes it points to. The 32-byte [buffer] takes the two address
    bytes and [len] bytes of [data]. *)
Definition gt911_i2c_write_reg (reg : Z) (data : option (list Z)) (len : Z)
  : M bool :=
  match data with
  | None => ret false
  | Some bytes =>
      if len =? 0 then ret false else
      if len + 2 >? 32 then ret false else
      d <- get_dev ;;
      let buffer := [Z.land (Z.shiftr reg 8) 0xFF; Z.land reg 0xFF]
                      ++ firstn (Z.to_nat len) bytes in
      r <- i2c_write_blocking bus (i2c_addr d) buffer false ;;
      ret (r >? 0)
  end.

End GT911Write.

(** [gt911_get_dev_info]: the device record, read without any bus access. *)
Definition gt911_get_dev_info : M gt911_dev_t := get_dev.

(** ** lv_port_indev.c *)

(** [lv_indev_state_t] *)
Inductive lv_indev_state_t : Type := LV_INDEV_STATE_REL | LV_INDEV_STATE_PR.

(** What [touchpad_read] stores in [lv_indev_data_t]; coordinates are
    [lv_coord_t], 16 bits signed. *)
Record lv_indev_data_t : Type := {
  point_x : Z;
  point_y : Z;
  indev_state : lv_indev_state_t;
  continue_reading : bool
}.

(** The bridge's state: the touch driver's world and the file's own statics
    [last_x] and [last_y] (both [int16_t]). *)
Record indev_world : Type := {
  indev_gt911 : gt911_world;
  indev_last_x : Z;
  indev_last_y : Z
}.

Definition indev_boot : indev_world :=
  {| indev_gt911 := gt911_boot; indev_last_x := 0; indev_last_y := 0 |}.

Section LvPortIndev.

Variable bus : i2c_bus.
Variable actual_baudrate : Z.

(** [touchpad_init]: the result of [gt911_init] is not looked at. *)
Definition touchpad_init : State indev_world unit := fun w =>
  let (_, g) := gt911_init bus actual_baudrate (indev_gt911 w) in
  (tt, {| indev_gt911 := g; indev_last_x := indev_last_x w;
          indev_last_y := indev_last_y w |}).

(** [touchpad_read] *)
Definition touchpad_read : State indev_world lv_indev_data_t := fun w =>
  let (r, g) := gt911_read_touch bus (indev_gt911 w) in
  match r with
  | Some s =>
      if ts_pressed s then
        ({| point_x := int16 (ts_x s); point_y := int16 (ts_y s);
            indev_state := LV_INDEV_STATE_PR; continue_reading := false |},
         {| indev_gt911 := g; indev_last_x := int16 (ts_x s);
            indev_last_y := int16 (ts_y s) |})
      else
        ({| point_x := indev_last_x w; point_y := indev_last_y w;
            indev_state := LV_INDEV_STATE_REL; continue_reading := false |},
         {| indev_gt911 := g; indev_last_x := indev_last_x w;
            indev_last_y := indev_last_y w |})
  | None =>
      ({| point_x := indev_last_x w; point_y := indev_last_y w;
          indev_state := LV_INDEV_STATE_REL; continue_reading := false |},
       {| indev_gt911 := g; indev_last_x := indev_last_x w;
          indev_last_y := indev_last_y w |})
  end.

End LvPortIndev.

(** Polling the bridge once per bus behaviour, oldest first. *)
Fixpoint touchpad_poll (buses : list i2c_bus) (w : indev_world)
  : list lv_indev_data_t * indev_world :=
  match buses with
  | [] => ([], w)
  | b :: tl =>
      let (d, w1) := touchpad_read b w in
      let (ds, w2) := touchpad_poll tl w1 in
      (d :: ds, w2)
  end.

(** The point of the last sample reported as pressed, [start] when there is
    none. *)
Fixpoint last_pressed (start : Z * Z) (samples : list lv_indev_data_t)
  : Z * Z :=
  match samples with
  | [] => start
  | d :: tl =>
      match indev_state d with
      | LV_INDEV_STATE_PR => last_pressed (point_x d, point_y d) tl
      | LV_INDEV_STATE_REL => last_pressed start tl
      end
  end.

(** ** st7796.c: orientation, reset and the initialisation sequence *)

Definition ST7796_CMD_INVON : Z := 0x21.
Definition ST7796_CMD_MADCTL : Z := 0x36.

(** [st7796_orientation_t]; an [enum] is an integer and the [switch] has a
    [default]. *)
Definition ST7796_PORTRAIT : Z := 0.
Definition ST7796_LANDSCAPE : Z := 1.
Definition ST7796_PORTRAIT_INV : Z := 2.
Definition ST7796_LANDSCAPE_INV : Z := 3.

(** The display driver's state: the display side and the static
    [current_orientation]. *)
Record st7796_world : Type := {
  st_lcd : lcd_world;
  current_orientation : Z
}.

Definition D (A : Type) : Type := State st7796_world A.

(** A function of the display side run inside the driver's state. *)
Definition on_lcd {A} (m : L A) : D A := fun s =>
  let (a, w) := m (st_lcd s) in
  (a, {| st_lcd := w; current_orientation := current_orientation s |}).

Definition set_current_orientation (o : Z) : D unit := fun s =>
  (tt, {| st_lcd := st_lcd s; current_orientation := o |}).

(** [sleep_ms(ms)] is the SDK's [sleep_us(ms * 1000)]. *)
Definition sleep_ms (ms : Z) : L unit := sleep_us (ms * 1000).

Definition LCD_RST_LOW : L unit := gpio_put ST7796_PIN_RST false.
Definition LCD_RST_HIGH : L unit := gpio_put ST7796_PIN_RST true.

(** The [switch] of [st7796_set_orientation]. *)
Definition madctl_value (orientation : Z) : Z :=
  if orientation =? ST7796_PORTRAIT then 0x48
  else if orientation =? ST7796_LANDSCAPE then 0x28
  else if orientation =? ST7796_PORTRAIT_INV then 0x88
  else if orientation =? ST7796_LANDSCAPE_INV then 0xE8
  else 0x48.

(** [st7796_set_orientation] *)
Definition st7796_set_orientation (orientation : Z) : D unit :=
  set_current_orientation orientation ;;
  on_lcd (st7796_write_cmd ST7796_CMD_MADCTL) ;;
  on_lcd (LCD_CS_LOW ;;
          LCD_DC_DATA ;;
          spi_write_blocking [madctl_value orientation] 1 ;;
          LCD_CS_HIGH).

(** [st7796_hw_reset] *)
Definition st7796_hw_reset : L unit :=
  LCD_RST_HIGH ;;
  sleep_ms 100 ;;
  LCD_RST_LOW ;;
  sleep_ms 100 ;;
  LCD_RST_HIGH ;;
  sleep_ms 100.

(** [st7796_gpio_init]: [gpio_init] and [gpio_set_dir] leave no event; the
    three lines are driven high. *)
Definition st7796_gpio_init : L unit :=
  gpio_put ST7796_PIN_CS true ;;
  gpio_put ST7796_PIN_DC true ;;
  gpio_put ST7796_PIN_RST true.

(** [st7796_spi_init]: bus set-up only, no event. *)
Definition st7796_spi_init : L unit := ret tt.

(** [lcd_init_cmd_t]: [cmd], [data] (16 bytes) and [databytes]. *)
Record lcd_init_cmd_t : Type := {
  init_cmd : Z;
  init_data : list Z;
  init_databytes : Z
}.

(** A 16-byte array from its initialiser list: the rest is zero. *)
Definition data16 (l : list Z) : list Z := firstn 16 (l ++ repeat 0 16).

Definition init_entry (c : Z) (l : list Z) (n : Z) : lcd_init_cmd_t :=
  {| init_cmd := c; init_data := data16 l; init_databytes := n |}.

(** [init_cmds] of [st7796_init], end marker included. *)
Definition init_cmds : list lcd_init_cmd_t :=
  [init_entry 0xCF [0x00; 0x83; 0x30] 3;
   init_entry 0xED [0x64; 0x03; 0x12; 0x81] 4;
   init_entry 0xE8 [0x85; 0x01; 0x79] 3;
   init_entry 0xCB [0x39; 0x2C; 0x00; 0x34; 0x02] 5;
   init_entry 0xF7 [0x20] 1;
   init_entry 0xEA [0x00; 0x00] 2;
   init_entry 0xC0 [0x26] 1;
   init_entry 0xC1 [0x11] 1;
   init_entry 0xC5 [0x35; 0x3E] 2;
   init_entry 0xC7 [0xBE] 1;
   init_entry 0x36 [0x28] 1;
   init_entry 0x3A [0x05] 1;
   init_entry 0xB1 [0x00; 0x1B] 2;
   init_entry 0xF2 [0x08] 1;
   init_entry 0x26 [0x01] 1;
   init_entry 0xE0 [0x1F; 0x1A; 0x18; 0x0A; 0x0F; 0x06; 0x45; 0x87;
                    0x32; 0x0A; 0x07; 0x02; 0x07; 0x05; 0x00] 15;
   init_entry 0xE1 [0x00; 0x25; 0x27; 0x05; 0x10; 0x09; 0x3A; 0x78;
                    0x4D; 0x05; 0x18; 0x0D; 0x38; 0x3A; 0x1F] 15;
   init_entry 0x2A [0x00; 0x00; 0x00; 0xEF] 4;
   init_entry 0x2B [0x00; 0x00; 0x01; 0x3F] 4;
   init_entry 0x2C [0] 0;
   init_entry 0xB7 [0x07] 1;
   init_entry 0xB6 [0x0A; 0x82; 0x27; 0x00] 4;
   init_entry 0x11 [0] 0x80;
   init_entry 0x29 [0] 0x80;
   init_entry 0 [0] 0xFF].

(** Step 5 of [st7796_init]: the [while] loop over the table, which stops at
    the entry whose [databytes] is 0xFF (or where the table ends). *)
Fixpoint send_init_cmds (table : list lcd_init_cmd_t) : L unit :=
  match table with
  | [] => ret tt
  | e :: rest =>
      if init_databytes e =? 0xFF then ret tt else
      st7796_write_cmd (init_cmd e) ;;
      let data_len := Z.land (init_databytes e) 0x1F in
      (if data_len >? 0
       then st7796_write_data (Some (init_data e)) data_len
       else ret tt) ;;
      (if negb (Z.land (init_databytes e) 0x80 =? 0)
       then sleep_ms 100
       else ret tt) ;;
      send_init_cmds rest
  end.

(** [st7796_init] *)
Definition st7796_init : D unit :=
  on_lcd st7796_spi_init ;;
  on_lcd st7796_gpio_init ;;
  on_lcd st7796_hw_reset ;;
  on_lcd (send_init_cmds init_cmds) ;;
  st7796_set_orientation ST7796_PORTRAIT ;;
  on_lcd (st7796_write_cmd ST7796_CMD_INVON).

(** ** Reading the display trace *)

(** The bursts of a trace, in order: the level of the data-select line
    (false: command) and the bytes. *)
Fixpoint bursts (events : list lcd_event) : list (bool * list Z) :=
  match events with
  | [] => []
  | SpiWrite _ dc bytes :: tl => (dc, bytes) :: bursts tl
  | _ :: tl => bursts tl
  end.

(** The command bytes of a trace, in order. *)
Fixpoint commands (events : list lcd_event) : list Z :=
  match events with
  | [] => []
  | SpiWrite _ false [c] :: tl => c :: commands tl
  | _ :: tl => commands tl
  end.

(** The 16-bit value of two bytes, high byte first. *)
Definition be16 (hi lo : Z) : Z := hi * 256 + lo.

(** ** main.c: the RGB LED, the colour conversion and the buzzer *)

(** [ws2812_write]: the word handed to [pio_sm_put_blocking]. *)
Definition ws2812_write (r g b : Z) : Z :=
  let grb := Z.lor (Z.lor (uint32 (Z.shiftl g 16)) (uint32 (Z.shiftl r 8))) b in
  uint32 (Z.shiftl grb 8).

(** [lv_color_t] with 16-bit colour and swapped bytes: the fields of
    [color.ch]. *)
Record lv_color_t : Type := {
  ch_green_h : Z;
  ch_red : Z;
  ch_blue : Z;
  ch_green_l : Z
}.

(** The fields fit their bit widths (3, 5, 5, 3). *)
Definition lv_color_ok (c : lv_color_t) : Prop :=
  0 <= ch_green_h c < 8 /\ 0 <= ch_red c < 32 /\
  0 <= ch_blue c < 32 /\ 0 <= ch_green_l c < 8.

(** [lvgl_color_to_rgb]: the three bytes stored through [r], [g], [b]. *)
Definition lvgl_color_to_rgb (color : lv_color_t) : Z * Z * Z :=
  let r := uint8 ((ch_red color * 255) ÷ 31) in
  let green_full := uint8 (Z.lor (Z.shiftl (ch_green_h color) 3)
                                 (ch_green_l color)) in
  let g := uint8 ((green_full * 255) ÷ 63) in
  let b := uint8 ((ch_blue color * 255) ÷ 31) in
  (r, g, b).

(** A run of button interrupts, each with the time it is served at, the
    pin and the event mask. *)
Definition button_run (irqs : list (Z * Z * Z)) (w : button_world)
  : button_world :=
  fold_left (fun w irq =>
               let '(now, gpio_pin, events) := irq in
               on_button_interrupt now gpio_pin events w)
            irqs w.

(** The indicators show what the LED pins drive. *)
Definition leds_in_sync (w : button_world) : Prop :=
  gpio_out w GPIO_LED_1 = led1 w /\ gpio_out w GPIO_LED_2 = led2 w.

(** A run of flush calls, each with its area and buffer. *)
Section FlushRun.

Variables lv_area_get_width lv_area_get_height : lv_area_t -> Z.

Fixpoint flush_run (calls : list (lv_area_t * option (list Z)))
  : L unit :=
  match calls with
  | [] => ret tt
  | (area, color_p) :: tl =>
      disp_flush lv_area_get_width lv_area_get_height area color_p ;;
      flush_run tl
  end.

End FlushRun.

(** ** Frames for the proofs *)

(** A transaction of a register read: the two address bytes without STOP,
    or the read itself. *)
Definition is_reg_read (c : i2c_call) : bool :=
  match c with
  | I2cWrite _ [_; _] true => true
  | I2cRead _ _ false => true
  | _ => false
  end.

(** The registers [gt911_init] reads, in the order it reads them: the
    first identification byte as a probe, the four identification bytes
    (the first one again), the vendor byte and the two resolutions, low
    byte first. *)
Definition gt911_init_registers : list Z :=
  [GT911_REG_PRODUCT_ID1;
   GT911_REG_PRODUCT_ID1; GT911_REG_PRODUCT_ID1 + 1;
   GT911_REG_PRODUCT_ID1 + 2; GT911_REG_PRODUCT_ID1 + 3;
   GT911_REG_VENDOR_ID;
   GT911_REG_X_RES_L; GT911_REG_X_RES_H;
   GT911_REG_Y_RES_L; GT911_REG_Y_RES_H].

(** The transactions of a complete [gt911_init] on the device at [addr]:
    one register read, of one byte, per entry of [gt911_init_registers]. *)
Definition gt911_init_reads (addr : Z) : list i2c_call :=
  flat_map (reg_read_calls addr) gt911_init_registers.

(** How a run of [gt911_init] from [w0] can end, with result [ok] in [w]:
    the transactions it issued are the first ones of the complete
    sequence, all of them when it succeeds, and the flag is the result. *)
Definition init_outcome (w0 : gt911_world) (ok : bool) (w : gt911_world)
  : Prop :=
  initialized (gt911_dev w) = ok /\
  exists calls,
    i2c_log w = i2c_log w0 ++ calls /\
    calls = firstn (length calls)
              (gt911_init_reads (i2c_addr (gt911_dev w0))) /\
    (ok = true -> calls = gt911_init_reads (i2c_addr (gt911_dev w0))).

(** What [gt911_init] never touches between [w0] and [w]: the persisted
    position and the bus address; and all it does on the bus is read
    registers. *)
Definition init_frame (w0 w : gt911_world) : Prop :=
  last_x w = last_x w0 /\ last_y w = last_y w0 /\
  i2c_addr (gt911_dev w) = i2c_addr (gt911_dev w0) /\
  exists calls, i2c_log w = i2c_log w0 ++ calls /\
                Forall (fun c => is_reg_read c = true) calls.

(** The persisted position is a pair of [uint16_t]. *)
Definition position_in_range (w : gt911_world) : Prop :=
  0 <= last_x w < 65536 /\ 0 <= last_y w < 65536.

(** [gt911_init] under way from [w0]: the frame holds and the driver is not
    marked initialised yet. *)
Definition init_pending (w0 w : gt911_world) : Prop :=
  init_frame w0 w /\ initialized (gt911_dev w) = false.

(** ** Expected event sequences of the display driver, continued *)

Definition gpio_init_events : list lcd_event :=
  [GpioPut ST7796_PIN_CS true; GpioPut ST7796_PIN_DC true;
   GpioPut ST7796_PIN_RST true].

Definition hw_reset_events : list lcd_event :=
  [GpioPut ST7796_PIN_RST true; SleepUs 100000;
   GpioPut ST7796_PIN_RST false; SleepUs 100000;
   GpioPut ST7796_PIN_RST true; SleepUs 100000].

(** The events of one table entry: the command, its parameter bytes when
    the low five bits of [databytes] are not zero, and the 100 ms delay when
    bit 7 is set. *)
Definition entry_events (e : lcd_init_cmd_t) : list lcd_event :=
  let data_len := Z.land (init_databytes e) 0x1F in
  write_cmd_events (init_cmd e)
  ++ (if data_len >? 0
      then write_data_events (firstn (Z.to_nat data_len) (init_data e))
      else [])
  ++ (if negb (Z.land (init_databytes e) 0x80 =? 0)
      then [SleepUs 100000] else []).

(** The entries of a table before its end marker. *)
Fixpoint before_marker (table : list lcd_init_cmd_t) : list lcd_init_cmd_t :=
  match table with
  | [] => []
  | e :: rest =>
      if init_databytes e =? 0xFF then [] else e :: before_marker rest
  end.

(** The bursts of one table entry. *)
Definition entry_bursts (e : lcd_init_cmd_t) : list (bool * list Z) :=
  let data_len := Z.land (init_databytes e) 0x1F in
  (false, [init_cmd e])
  :: (if data_len >? 0
      then [(true, firstn (Z.to_nat data_len) (init_data e))]
      else []).

(** The events of [st7796_set_orientation]. *)
Definition orientation_events (orientation : Z) : list lcd_event :=
  write_cmd_events ST7796_CMD_MADCTL
  ++ [GpioPut ST7796_PIN_CS false; GpioPut ST7796_PIN_DC true;
      SpiWrite false true [madctl_value orientation];
      GpioPut ST7796_PIN_CS true].

(** The framing discipline, checked along a trace: a burst runs only while
    chip-select is asserted, one burst per assertion; the data-select line
    is not switched between the burst and the release; chip-select is
    asserted only when released and is released at the end. [cs_low] says
    that chip-select is asserted, [sent] that the burst of this assertion
    has gone out. *)
Fixpoint framed_from (cs_low sent : bool) (events : list lcd_event) : bool :=
  match events with
  | [] => negb cs_low
  | GpioPut pin value :: tl =>
      if pin =? ST7796_PIN_CS then
        if value
        then (if cs_low then sent else true) && framed_from false false tl
        else negb cs_low && framed_from true false tl
      else if pin =? ST7796_PIN_DC then
        negb sent && framed_from cs_low sent tl
      else framed_from cs_low sent tl
  | SpiWrite cs _ _ :: tl =>
      cs_low && negb cs && negb sent && framed_from cs_low true tl
  | _ :: tl => framed_from cs_low sent tl
  end.

Definition framed (events : list lcd_event) : bool :=
  framed_from false false events.

(** The delays of a millisecond or more in a trace, each with the last
    command byte sent before it ([None] before the first command). *)
Fixpoint pauses_from (last : option Z) (events : list lcd_event)
  : list (option Z * Z) :=
  match events with
  | [] => []
  | SpiWrite _ false [c] :: tl => pauses_from (Some c) tl
  | SleepUs us :: tl =>
      if 1000 <=? us then (last, us) :: pauses_from last tl
      else pauses_from last tl
  | _ :: tl => pauses_from last tl
  end.

Definition pauses (events : list lcd_event) : list (option Z * Z) :=
  pauses_from None events.

(** A function of the display side that adds [events] to the trace and
    leaves the output switch alone. *)
Definition emits {A} (m : L A) (w : lcd_world) (events : list lcd_event)
  : Prop :=
  lcd_trace (snd (m w)) = lcd_trace w ++ events /\
  disp_flush_enabled (snd (m w)) = disp_flush_enabled w.

(** The window that a sequence of bursts selects: column range, then row
    range, then the memory-write command. *)
Definition window_of_bursts (l : list (bool * list Z))
  : option (Z * Z * Z * Z) :=
  match l with
  | [(false, [c1]); (true, [xh1; xl1; xh2; xl2]);
     (false, [c2]); (true, [yh1; yl1; yh2; yl2]); (false, [c3])] =>
      if (c1 =? ST7796_CMD_CASET) && (c2 =? ST7796_CMD_RASET)
         && (c3 =? ST7796_CMD_RAMWR)
      then Some (be16 xh1 xl1, be16 yh1 yl1, be16 xh2 xl2, be16 yh2 yl2)
      else None
  | _ => None
  end.

(** An entry whose delay bit is set. *)
Definition init_delayed (e : lcd_init_cmd_t) : bool :=
  negb (Z.land (init_databytes e) 0x80 =? 0).

(** No entry before the end marker asks for more parameter bytes than its
    [data] array holds. *)
Definition table_fits (table : list lcd_init_cmd_t) : Prop :=
  Forall (fun e => Z.land (init_databytes e) 0x1F
                   <= Z.of_nat (length (init_data e)))
         (before_marker table).

(** The sizes of the parameter bursts of a trace. *)
Definition data_sizes (events : list lcd_event) : list Z :=
  map (fun b => Z.of_nat (length (snd b))) (filter fst (bursts events)).

(** The events of [st7796_init]. *)
Definition init_events : list lcd_event :=
  gpio_init_events ++ hw_reset_events
  ++ flat_map entry_events (before_marker init_cmds)
  ++ orientation_events ST7796_PORTRAIT
  ++ write_cmd_events ST7796_CMD_INVON.

(** The parameter bursts that directly follow the command [cmd]. *)
Fixpoint params_of (cmd : Z) (l : list (bool * list Z)) : list (list Z) :=
  match l with
  | [] => []
  | (false, [c]) :: (((true, bytes) :: _) as tl) =>
      if c =? cmd then bytes :: params_of cmd tl else params_of cmd tl
  | _ :: tl => params_of cmd tl
  end.

(** The events of the pixel transfer of one flush. *)
Definition pixel_events (color_p : option (list Z)) (size : Z)
  : list lcd_event :=
  match color_p with
  | Some bytes =>
      if size =? 0 then []
      else write_color_events (firstn (Z.to_nat (uint32 (size * 2))) bytes)
  | None => []
  end.

(** The events of one [disp_flush], by the state of the output switch. *)
Definition flush_events (width height : lv_area_t -> Z) (enabled : bool)
  (call : lv_area_t * option (list Z)) : list lcd_event :=
  let (area, color_p) := call in
  if enabled then
    set_window_events (uint16 (x1 area)) (uint16 (y1 area))
                      (uint16 (x2 area)) (uint16 (y2 area))
    ++ pixel_events color_p (uint32 (width area * height area))
    ++ [FlushReady]
  else [FlushReady].

(** The six-bit green of a colour. *)
Definition green6 (c : lv_color_t) : Z := ch_green_h c * 8 + ch_green_l c.

(** * Properties *)

(** ** Bits of the status byte *)

Lemma land_128_testbit (s : Z) :
  (Z.land s 128 =? 0) = negb (Z.testbit s 7).
Proof.
  destruct (Z.testbit s 7) eqn:E; simpl.
  - apply Z.eqb_neq. intro H.
    assert (Hb : Z.testbit (Z.land s 128) 7 = false)
      by (rewrite H; apply Z.bits_0).
    rewrite Z.land_spec, E in Hb. discriminate Hb.
  - apply Z.eqb_eq. apply Z.bits_inj'. intros n Hn.
    rewrite Z.land_spec, Z.bits_0.
    destruct (Z.eq_dec n 7) as [-> | Hne].
    + rewrite E. reflexivity.
    + change 128 with (2 ^ 7). rewrite Z.pow2_bits_false by lia.
      apply andb_false_r.
Qed.

(** The guard of [gt911_read_touch] in the words of the register map. *)
Lemma clear_guard_spec (s : Z) :
  negb (Z.land s GT911_STATUS_BUF_READY =? 0)
  || (Z.land s GT911_STATUS_PT_MASK <? 6)
  = status_bit7 s || (status_point_count s <? 6).
Proof.
  unfold GT911_STATUS_BUF_READY, GT911_STATUS_PT_MASK, status_bit7,
    status_point_count.
  rewrite land_128_testbit, negb_involutive. reflexivity.
Qed.

Lemma clear_guard_true (s : Z) :
  status_bit7 s = true \/ status_point_count s < 6 ->
  status_bit7 s || (status_point_count s <? 6) = true.
Proof.
  intros [H | H].
  - rewrite H. reflexivity.
  - apply orb_true_iff. right. apply Z.ltb_lt. exact H.
Qed.

Lemma clear_guard_false (s : Z) :
  status_bit7 s = false /\ 6 <= status_point_count s ->
  status_bit7 s || (status_point_count s <? 6) = false.
Proof.
  intros [H1 H2]. rewrite H1. cbn [orb]. apply Z.ltb_ge. exact H2.
Qed.

(** ** Runs of the register read *)

Lemma gt911_read_byte_eq (bus : i2c_bus) (reg : Z) (w : gt911_world) :
  gt911_read_byte bus reg w =
  let a := i2c_addr (gt911_dev w) in
  let c1 := I2cWrite a [Z.land (Z.shiftr reg 8) 0xFF; Z.land reg 0xFF] true in
  let c2 := I2cRead a 1 false in
  if i2c_ret (bus (i2c_log w) c1) <? 0 then (None, log_calls w [c1])
  else if i2c_ret (bus (i2c_log w ++ [c1]) c2) <? 0
       then (None, log_calls w [c1; c2])
       else (Some (uint8 (nth 0 (i2c_rx (bus (i2c_log w ++ [c1]) c2)) 0)),
             log_calls w [c1; c2]).
Proof.
  unfold gt911_read_byte, gt911_i2c_read_reg, i2c_write_blocking,
    i2c_read_blocking, i2c_transact, get_dev, bind, ret, log_calls.
  cbn [Z.eqb fst snd gt911_dev i2c_log last_x last_y].
  destruct (i2c_ret _ <? 0); [reflexivity |].
  cbn [fst snd gt911_dev i2c_log last_x last_y].
  rewrite <- app_assoc. cbn [app].
  destruct (i2c_ret _ <? 0); reflexivity.
Qed.

Lemma gt911_read_byte_some (bus : i2c_bus) (reg v : Z) (w w1 : gt911_world) :
  gt911_read_byte bus reg w = (Some v, w1) ->
  w1 = log_calls w (reg_read_calls (i2c_addr (gt911_dev w)) reg).
Proof.
  rewrite gt911_read_byte_eq. cbv zeta.
  destruct (i2c_ret _ <? 0); [discriminate |].
  destruct (i2c_ret _ <? 0); [discriminate |].
  intros H. inversion H. reflexivity.
Qed.

Lemma gt911_clear_status_eq (bus : i2c_bus) (w : gt911_world) :
  gt911_clear_status bus w =
  (tt, log_calls w
         [I2cWrite (i2c_addr (gt911_dev w)) [0x81; 0x4E; 0x00] false]).
Proof. reflexivity. Qed.

Lemma new_calls_log_calls (w w' : gt911_world) (calls : list i2c_call) :
  i2c_log w' = i2c_log w ++ calls -> new_calls w w' = calls.
Proof.
  intros H. unfold new_calls. rewrite H.
  rewrite skipn_app, skipn_all, Nat.sub_diag. reflexivity.
Qed.

(** ** Quiet steps *)

Lemma status_clear_writes_app (l1 l2 : list i2c_call) :
  status_clear_writes (l1 ++ l2)
  = (status_clear_writes l1 + status_clear_writes l2)%nat.
Proof.
  unfold status_clear_writes. rewrite filter_app, length_app. reflexivity.
Qed.

Lemma quiet_refl (w : gt911_world) : quiet (gt911_dev w) (i2c_log w) w.
Proof.
  split; [reflexivity |]. exists []. rewrite app_nil_r. split; reflexivity.
Qed.

Lemma quiet_trans (d : gt911_dev_t) (l : list i2c_call) (w1 w2 : gt911_world) :
  quiet d l w1 -> quiet (gt911_dev w1) (i2c_log w1) w2 -> quiet d l w2.
Proof.
  intros [Hd1 [c1 [Hl1 Hn1]]] [Hd2 [c2 [Hl2 Hn2]]]. split.
  - congruence.
  - exists (c1 ++ c2). split.
    + rewrite Hl2, Hl1, app_assoc. reflexivity.
    + rewrite status_clear_writes_app, Hn1, Hn2. reflexivity.
Qed.

(** ** Rules for [wp] *)

Lemma wp_ret {A} (a : A) (Q : A -> gt911_world -> Prop) (w : gt911_world) :
  Q a w -> wp (ret a) Q w.
Proof. intros H. exact H. Qed.

Lemma wp_bind {A B} (m : M A) (k : A -> M B)
  (Q : B -> gt911_world -> Prop) (w : gt911_world) :
  wp m (fun a w1 => wp (k a) Q w1) w -> wp (bind m k) Q w.
Proof. unfold wp, bind. destruct (m w). intros H. exact H. Qed.

(** A register read, failed or not, is a quiet step that keeps the
    persisted position. *)
Lemma wp_read_byte (bus : i2c_bus) (reg : Z)
  (Q : option Z -> gt911_world -> Prop) (w : gt911_world) :
  (forall r w1,
      quiet (gt911_dev w) (i2c_log w) w1 ->
      last_x w1 = last_x w -> last_y w1 = last_y w -> Q r w1) ->
  wp (gt911_read_byte bus reg) Q w.
Proof.
  intros H. unfold wp. rewrite gt911_read_byte_eq. cbv zeta.
  destruct (i2c_ret _ <? 0); [| destruct (i2c_ret _ <? 0)];
    cbn [fst snd]; apply H; try reflexivity;
    (split; [reflexivity | eexists; split; reflexivity]).
Qed.

(** One step of a run: an access to the driver's own state, or a register
    read. *)
Ltac wp_simple :=
  apply wp_bind; unfold wp at 1;
  cbn [get_dev get_last_x get_last_y set_last_x set_last_y fst snd].

Ltac wp_read :=
  apply wp_bind, wp_read_byte.

(** ** What [gt911_read_touch] logs and stores *)

(** The log of a [gt911_read_touch] that got its status byte: the status
    read, the clear when the guard holds, then coordinate reads, none of
    which writes the status register. *)
Lemma gt911_read_touch_log (bus : i2c_bus) (w w1 : gt911_world) (s : Z) :
  initialized (gt911_dev w) = true ->
  gt911_read_byte bus GT911_REG_STATUS w = (Some s, w1) ->
  let addr := i2c_addr (gt911_dev w) in
  exists coords,
    i2c_log (snd (gt911_read_touch bus w)) =
      i2c_log w ++ reg_read_calls addr GT911_REG_STATUS
        ++ (if status_bit7 s || (status_point_count s <? 6)
            then [I2cWrite addr [0x81; 0x4E; 0x00] false] else [])
        ++ coords
    /\ status_clear_writes coords = 0%nat.
Proof.
  intros Hinit Hst addr. subst addr.
  pose proof (gt911_read_byte_some _ _ _ _ _ Hst) as Hw1.
  unfold gt911_read_touch.
  unfold bind at 1. unfold get_dev at 1. rewrite Hinit. cbn [negb].
  unfold bind at 1. rewrite Hst.
  rewrite clear_guard_spec.
  match goal with
  | |- context [if _ =? 1 then ?f else ?g] =>
      assert (Hbranch : forall wa,
                 wp (if Z.land s GT911_STATUS_PT_MASK =? 1 then f else g)
                    (fun _ w' => quiet (gt911_dev wa) (i2c_log wa) w') wa)
  end.
  { intros wa. destruct (_ =? 1).
    - wp_read. intros [data |] wb Hb _ _; [| exact Hb].
      wp_simple.
      wp_read. intros [data0 |] wc Hc _ _;
        [| exact (quiet_trans _ _ _ _ Hb Hc)].
      pose proof (quiet_trans _ _ _ _ Hb Hc) as Hbc.
      wp_simple. wp_simple.
      wp_read. intros [data1 |] wd Hd _ _;
        [| exact (quiet_trans _ _ _ _ Hbc Hd)].
      pose proof (quiet_trans _ _ _ _ Hbc Hd) as Hbd.
      wp_simple.
      wp_read. intros [data2 |] we He _ _;
        [| exact (quiet_trans _ _ _ _ Hbd He)].
      pose proof (quiet_trans _ _ _ _ Hbd He) as Hbe.
      wp_simple. wp_simple. wp_simple. wp_simple.
      exact Hbe.
    - apply quiet_refl. }
  unfold bind at 1.
  destruct (status_bit7 s || (status_point_count s <? 6)).
  - rewrite gt911_clear_status_eq.
    destruct (Hbranch (log_calls w1
                [I2cWrite (i2c_addr (gt911_dev w1)) [0x81; 0x4E; 0x00] false]))
      as [_ [coords [Hlog Hnone]]].
    exists coords. split; [| exact Hnone].
    etransitivity; [exact Hlog |]. rewrite Hw1.
    cbn [log_calls i2c_log gt911_dev].
    rewrite <- !app_assoc. reflexivity.
  - destruct (Hbranch w1) as [_ [coords [Hlog Hnone]]].
    exists coords. split; [| exact Hnone].
    unfold ret at 1. etransitivity; [exact Hlog |]. rewrite Hw1.
    cbn [log_calls i2c_log gt911_dev].
    rewrite <- !app_assoc. reflexivity.
Qed.

Lemma wp_clear_guard (bus : i2c_bus) (b : bool)
  (Q : unit -> gt911_world -> Prop) (w : gt911_world) :
  (forall w2,
      gt911_dev w2 = gt911_dev w ->
      last_x w2 = last_x w -> last_y w2 = last_y w -> Q tt w2) ->
  wp (if b then gt911_clear_status bus else ret tt) Q w.
Proof.
  intros H. destruct b; unfold wp; [rewrite gt911_clear_status_eq |];
    cbn [fst snd ret]; apply H; reflexivity.
Qed.

(** The device record is the same along a chain of quiet steps. *)
Ltac dev_chain :=
  repeat match goal with
         | H : quiet _ _ _ |- _ => destruct H as [? _]
         end;
  cbn [gt911_dev] in *; congruence.

(** A call that reports a press has stored the reported position, was
    made on an initialised driver, and leaves the device record alone. *)
Lemma gt911_read_touch_pressed (bus : i2c_bus) (w : gt911_world) (x y : Z) :
  fst (gt911_read_touch bus w)
    = Some {| ts_x := x; ts_y := y; ts_pressed := true |} ->
  last_x (snd (gt911_read_touch bus w)) = x /\
  last_y (snd (gt911_read_touch bus w)) = y /\
  gt911_dev (snd (gt911_read_touch bus w)) = gt911_dev w /\
  initialized (gt911_dev w) = true.
Proof.
  assert (H : wp (gt911_read_touch bus)
                (fun r w' =>
                   gt911_dev w' = gt911_dev w /\
                   (r = Some {| ts_x := x; ts_y := y; ts_pressed := true |} ->
                    last_x w' = x /\ last_y w' = y /\
                    initialized (gt911_dev w) = true)) w).
  { unfold gt911_read_touch. wp_simple.
    destruct (initialized (gt911_dev w)) eqn:Hinit; cbn [negb];
      [| apply wp_ret; split; [reflexivity | discriminate]].
    wp_read. intros [s |] w1 H1 _ _;
      [| apply wp_ret; split; [dev_chain | discriminate]].
    apply wp_bind, wp_clear_guard. intros w2 H2 _ _.
    destruct (_ =? 1).
    - wp_read. intros [d1 |] w3 H3 _ _;
        [| apply wp_ret; split; [dev_chain | discriminate]].
      wp_simple.
      wp_read. intros [d2 |] w4 H4 _ _;
        [| apply wp_ret; split; [dev_chain | discriminate]].
      wp_simple. wp_simple.
      wp_read. intros [d3 |] w5 H5 _ _;
        [| apply wp_ret; split; [dev_chain | discriminate]].
      wp_simple.
      wp_read. intros [d4 |] w6 H6 _ _;
        [| apply wp_ret; split; [dev_chain | discriminate]].
      wp_simple. wp_simple. wp_simple. wp_simple.
      apply wp_ret. cbn [gt911_dev last_x last_y].
      split; [dev_chain |].
      intros E. inversion E. auto.
    - wp_simple. wp_simple. apply wp_ret.
      split; [dev_chain | discriminate]. }
  unfold wp in H. destruct H as [Hdev H]. intros E.
  destruct (H E) as [Hx [Hy Hinit]]. auto.
Qed.

Lemma reads_as_read_byte (bus : i2c_bus) (reg v : Z) (w : gt911_world) :
  reads_as bus reg v ->
  gt911_read_byte bus reg w =
  (Some v, log_calls w (reg_read_calls (i2c_addr (gt911_dev w)) reg)).
Proof.
  intros H. rewrite gt911_read_byte_eq. cbv zeta.
  destruct (H (i2c_log w) (i2c_addr (gt911_dev w))) as [H1 [H2 H3]].
  cbv zeta in H1, H2, H3.
  destruct (Z.ltb_spec (i2c_ret (bus (i2c_log w)
    (I2cWrite (i2c_addr (gt911_dev w))
       [Z.land (Z.shiftr reg 8) 0xFF; Z.land reg 0xFF] true))) 0); [lia |].
  destruct (Z.ltb_spec (i2c_ret (bus (i2c_log w ++
    [I2cWrite (i2c_addr (gt911_dev w))
       [Z.land (Z.shiftr reg 8) 0xFF; Z.land reg 0xFF] true])
    (I2cRead (i2c_addr (gt911_dev w)) 1 false))) 0); [lia |].
  unfold rx_bytes in H3. change (Z.to_nat 1) with 1%nat in H3.
  cbn [seq map] in H3. injection H3 as H3. rewrite H3. reflexivity.
Qed.

(** A call that finds a point count other than 1: the sample is the
    persisted position, released, and only the log changes. *)
Lemma gt911_read_touch_idle (bus : i2c_bus) (w w1 : gt911_world) (s : Z) :
  initialized (gt911_dev w) = true ->
  gt911_read_byte bus GT911_REG_STATUS w = (Some s, w1) ->
  status_point_count s <> 1 ->
  gt911_read_touch bus w =
  (Some {| ts_x := last_x w; ts_y := last_y w; ts_pressed := false |},
   log_calls w
     (reg_read_calls (i2c_addr (gt911_dev w)) GT911_REG_STATUS
      ++ (if status_bit7 s || (status_point_count s <? 6)
          then [I2cWrite (i2c_addr (gt911_dev w)) [0x81; 0x4E; 0x00] false]
          else []))).
Proof.
  intros Hinit Hst Hcount.
  pose proof (gt911_read_byte_some _ _ _ _ _ Hst) as Hw1.
  unfold gt911_read_touch.
  unfold bind at 1. unfold get_dev at 1. rewrite Hinit. cbn [negb].
  unfold bind at 1. rewrite Hst. rewrite clear_guard_spec.
  change (Z.land s GT911_STATUS_PT_MASK) with (status_point_count s).
  destruct (Z.eqb_spec (status_point_count s) 1) as [E | _]; [contradiction |].
  unfold bind at 1.
  destruct (status_bit7 s || (status_point_count s <? 6)).
  - rewrite gt911_clear_status_eq. subst w1.
    cbn [bind ret get_last_x get_last_y].
    unfold log_calls. cbn [i2c_log gt911_dev last_x last_y].
    rewrite <- app_assoc. reflexivity.
  - subst w1.
    cbn [bind ret get_last_x get_last_y log_calls i2c_log gt911_dev
         last_x last_y].
    rewrite app_nil_r. reflexivity.
Qed.

(** A single touch read in full: status with point count 1, then the four
    coordinate bytes, low byte first. *)
Lemma gt911_read_touch_single (bus : i2c_bus) (w : gt911_world)
  (s xl xh yl yh : Z) :
  initialized (gt911_dev w) = true ->
  reads_as bus GT911_REG_STATUS s ->
  status_point_count s = 1 ->
  reads_as bus GT911_REG_PT1_X_L xl ->
  reads_as bus GT911_REG_PT1_X_H xh ->
  reads_as bus GT911_REG_PT1_Y_L yl ->
  reads_as bus GT911_REG_PT1_Y_H yh ->
  let a := i2c_addr (gt911_dev w) in
  let x := uint16 (Z.lor xl (Z.shiftl (uint16 xh) 8)) in
  let y := uint16 (Z.lor yl (Z.shiftl (uint16 yh) 8)) in
  gt911_read_touch bus w =
  (Some {| ts_x := x; ts_y := y; ts_pressed := true |},
   {| gt911_dev := gt911_dev w; last_x := x; last_y := y;
      i2c_log := i2c_log w
        ++ reg_read_calls a GT911_REG_STATUS
        ++ [I2cWrite a [0x81; 0x4E; 0x00] false]
        ++ reg_read_calls a GT911_REG_PT1_X_L
        ++ reg_read_calls a GT911_REG_PT1_X_H
        ++ reg_read_calls a GT911_REG_PT1_Y_L
        ++ reg_read_calls a GT911_REG_PT1_Y_H |}).
Proof.
  intros Hinit Hs Hcount Hxl Hxh Hyl Hyh a x y. subst a x y.
  unfold gt911_read_touch.
  unfold bind at 1. unfold get_dev at 1. rewrite Hinit. cbn [negb].
  unfold bind at 1. rewrite (reads_as_read_byte _ _ _ _ Hs).
  rewrite clear_guard_spec.
  change (Z.land s GT911_STATUS_PT_MASK) with (status_point_count s).
  rewrite Hcount. change (1 <? 6) with true. rewrite orb_true_r.
  change (1 =? 1) with true. cbv iota.
  unfold bind at 1. rewrite gt911_clear_status_eq.
  unfold bind at 1. rewrite (reads_as_read_byte _ _ _ _ Hxl).
  unfold bind at 1. cbn [set_last_x].
  unfold bind at 1. rewrite (reads_as_read_byte _ _ _ _ Hxh).
  unfold bind at 1. cbn [get_last_x].
  unfold bind at 1. cbn [set_last_x].
  unfold bind at 1. rewrite (reads_as_read_byte _ _ _ _ Hyl).
  unfold bind at 1. cbn [set_last_y].
  unfold bind at 1. rewrite (reads_as_read_byte _ _ _ _ Hyh).
  cbn [snd fst ret bind set_last_x set_last_y get_last_x get_last_y
       log_calls i2c_log gt911_dev last_x last_y].
  rewrite <- !app_assoc. reflexivity.
Qed.

(** The two address bytes put together again give the register. *)
Lemma reg_addr_bytes (reg : Z) :
  0 <= reg < 65536 ->
  Z.lor (Z.shiftl (Z.land (Z.shiftr reg 8) 255) 8) (Z.land reg 255) = reg.
Proof.
  intros Hreg. apply Z.bits_inj'. intros n Hn.
  rewrite Z.lor_spec, Z.shiftl_spec, !Z.land_spec by lia.
  change 255 with (Z.ones 8).
  destruct (Z.lt_ge_cases n 8) as [Hlt | Hge].
  - rewrite !(Z.testbit_neg_r _ (n - 8)) by lia. cbn [andb orb].
    rewrite (Z.ones_spec_low 8 n) by lia. apply andb_true_r.
  - rewrite Z.shiftr_spec by lia. replace (n - 8 + 8) with n by lia.
    rewrite (Z.ones_spec_high 8 n) by lia. rewrite andb_false_r, orb_false_r.
    destruct (Z.lt_ge_cases n 16) as [Hlt | Hge'].
    + rewrite (Z.ones_spec_low 8 (n - 8)) by lia. apply andb_true_r.
    + rewrite (Z.ones_spec_high 8 (n - 8)) by lia. rewrite andb_false_r.
      symmetry. destruct (Z.eq_dec reg 0) as [-> | Hnz].
      * apply Z.bits_0.
      * apply Z.bits_above_log2; [lia |].
        apply Z.lt_le_trans with 16; [| lia].
        apply Z.log2_lt_pow2; lia.
Qed.

(** The test controller reads as its register file says. *)
Lemma gt911_device_reads_as (regs : Z -> Z) (clear_ret reg : Z) :
  0 <= reg < 65536 ->
  reads_as (gt911_device regs clear_ret) reg (uint8 (regs reg)).
Proof.
  intros Hreg hist addr c1 c2. subst c1 c2.
  unfold gt911_device. cbn [is_status_clear i2c_ret i2c_rx length].
  split; [lia |]. split; [lia |].
  unfold rx_bytes. change (Z.to_nat 1) with 1%nat. cbn [seq map nth].
  unfold addressed_reg. rewrite last_last.
  rewrite Z.add_0_r, reg_addr_bytes by exact Hreg. reflexivity.
Qed.

(** ** The status-clear handshake *)

(** C1. Once [gt911_read_touch] has read a status byte, its transactions
    start with the status read; when bit 7 is set or the point count is
    below 6 it writes zero to the status register exactly once, as the very
    next transaction, before any coordinate register is accessed; when bit 7
    is clear and the point count is 6 or more it never writes the status
    register. This holds on every path, failed coordinate reads included. *)
Theorem gt911_status_clear_handshake :
  forall (bus : i2c_bus) (w w1 : gt911_world) (status_reg : Z),
    initialized (gt911_dev w) = true ->
    gt911_read_byte bus GT911_REG_STATUS w = (Some status_reg, w1) ->
    let calls := new_calls w (snd (gt911_read_touch bus w)) in
    let addr := i2c_addr (gt911_dev w) in
    firstn 2 calls = reg_read_calls addr GT911_REG_STATUS /\
    (status_bit7 status_reg = true \/ status_point_count status_reg < 6 ->
     status_clear_writes calls = 1%nat /\
     nth_error calls 2 = Some (I2cWrite addr [0x81; 0x4E; 0x00] false)) /\
    (status_bit7 status_reg = false /\ 6 <= status_point_count status_reg ->
     status_clear_writes calls = 0%nat).
Proof.
  intros bus w w1 s Hinit Hst calls addr.
  destruct (gt911_read_touch_log bus w w1 s Hinit Hst) as [coords [Hlog Hnone]].
  fold addr in Hlog.
  assert (Hcalls : calls = reg_read_calls addr GT911_REG_STATUS
            ++ (if status_bit7 s || (status_point_count s <? 6)
                then [I2cWrite addr [0x81; 0x4E; 0x00] false] else [])
            ++ coords)
    by (apply new_calls_log_calls; exact Hlog).
  rewrite Hcalls. split; [reflexivity |]. split.
  - intros Hguard. rewrite (clear_guard_true s Hguard).
    unfold status_clear_writes in *. cbn. rewrite Hnone. split; reflexivity.
  - intros Hguard. rewrite (clear_guard_false s Hguard).
    unfold status_clear_writes in *. cbn. exact Hnone.
Qed.

(** C1 on two controllers: status 0x81 gets one clear, status 0x06 none. *)
Lemma gt911_status_clear_handshake_witness :
  status_clear_writes
    (new_calls gt911_ready
       (snd (gt911_read_touch (gt911_device touch_regs 3) gt911_ready)))
    = 1%nat /\
  status_clear_writes
    (new_calls gt911_ready
       (snd (gt911_read_touch (gt911_device six_points_regs 3) gt911_ready)))
    = 0%nat.
Proof.
  split.
  - apply (gt911_status_clear_handshake (gt911_device touch_regs 3) gt911_ready
             (snd (gt911_read_byte (gt911_device touch_regs 3)
                     GT911_REG_STATUS gt911_ready))
             0x81 eq_refl eq_refl).
    left. reflexivity.
  - apply (gt911_status_clear_handshake (gt911_device six_points_regs 3)
             gt911_ready
             (snd (gt911_read_byte (gt911_device six_points_regs 3)
                     GT911_REG_STATUS gt911_ready))
             0x06 eq_refl eq_refl).
    split; [reflexivity | vm_compute; discriminate].
Defined.

(** ** Release samples *)

Lemma gt911_poll_idle (buses : list i2c_bus) :
  Forall idle_bus buses ->
  forall w : gt911_world,
    initialized (gt911_dev w) = true ->
    fst (gt911_poll buses w)
      = map (fun _ => Some {| ts_x := last_x w; ts_y := last_y w;
                              ts_pressed := false |}) buses /\
    last_x (snd (gt911_poll buses w)) = last_x w /\
    last_y (snd (gt911_poll buses w)) = last_y w.
Proof.
  induction 1 as [| b tl [s [Hs Hcount]] _ IH]; intros w Hinit.
  - cbn. auto.
  - cbn [gt911_poll map].
    rewrite (gt911_read_touch_idle b w _ s Hinit
               (reads_as_read_byte b _ s w Hs) Hcount).
    match goal with
    | |- context [gt911_poll tl ?w1] =>
        destruct (IH w1 Hinit) as [IH1 [IH2 IH3]];
        destruct (gt911_poll tl w1) as [rs w2]
    end.
    cbn [fst snd] in *. cbn [log_calls last_x last_y] in IH1, IH2, IH3.
    rewrite IH1. auto.
Qed.

(** The origin is a position like any other: a single touch at (0,0) is
    read and reported, and the next call, which finds point count 0, returns
    (0,0), the last pressed point, with pressed=false. *)
Lemma gt911_release_at_origin :
  let r1 := gt911_read_touch (gt911_device origin_touch_regs 3) gt911_ready in
  let r2 := gt911_read_touch (gt911_device no_touch_regs 3) (snd r1) in
  fst r1 = Some {| ts_x := 0; ts_y := 0; ts_pressed := true |} /\
  fst r2 = Some {| ts_x := 0; ts_y := 0; ts_pressed := false |}.
Proof. split; reflexivity. Qed.

(** X21. As long as no read fails in between, releases do report the last
    pressed point: a run of calls that each find a point count other than 1
    returns, every time, the position persisted in the driver with
    pressed=false, and leaves that position unchanged; when the run starts
    right after a call that reported a press at (x,y), every sample of the
    run is (x,y) released, whatever (x,y) is. *)
Theorem gt911_release_reports_last_position :
  forall (buses : list i2c_bus) (w : gt911_world),
    initialized (gt911_dev w) = true ->
    Forall idle_bus buses ->
    (fst (gt911_poll buses w)
       = map (fun _ => Some {| ts_x := last_x w; ts_y := last_y w;
                               ts_pressed := false |}) buses /\
     last_x (snd (gt911_poll buses w)) = last_x w /\
     last_y (snd (gt911_poll buses w)) = last_y w) /\
    (forall (bus0 : i2c_bus) (w0 : gt911_world) (x y : Z),
        fst (gt911_read_touch bus0 w0)
          = Some {| ts_x := x; ts_y := y; ts_pressed := true |} ->
        w = snd (gt911_read_touch bus0 w0) ->
        fst (gt911_poll buses w)
          = map (fun _ => Some {| ts_x := x; ts_y := y;
                                  ts_pressed := false |}) buses).
Proof.
  intros buses w Hinit Hidle.
  pose proof (gt911_poll_idle buses Hidle w Hinit) as Hpoll.
  split; [exact Hpoll |].
  intros bus0 w0 x y Hpressed Hw.
  destruct (gt911_read_touch_pressed bus0 w0 x y Hpressed) as [Hx [Hy _]].
  destruct Hpoll as [Hpoll _]. rewrite Hpoll.
  rewrite Hw, Hx, Hy. reflexivity.
Qed.

(** C2 does not hold of the code: a release can report a point that was
    never pressed. A single-touch read stores each coordinate byte in the
    persisted position as soon as it has it, so a read that fails half way
    has already overwritten the persisted X with the low byte it got, and
    the next release sample carries that value: after a press at (356,200),
    a single-touch read that gets the X low byte 5 and whose X high byte is
    not acknowledged (the call returns false), then a call that finds no
    touch, the sample is (5,200) released, not the last pressed point
    (356,200). *)
Lemma gt911_failed_read_keeps_low_byte :
  let r1 := gt911_read_touch (gt911_device far_touch_regs 3) gt911_ready in
  let r2 := gt911_read_touch
              (nack_on GT911_REG_PT1_X_H (gt911_device near_touch_regs 3))
              (snd r1) in
  let r3 := gt911_read_touch (gt911_device no_touch_regs 3) (snd r2) in
  fst r1 = Some {| ts_x := 356; ts_y := 200; ts_pressed := true |} /\
  fst r2 = None /\
  fst r3 = Some {| ts_x := 5; ts_y := 200; ts_pressed := false |}.
Proof. repeat split; reflexivity. Qed.

Lemma no_touch_idle (clear_ret : Z) :
  idle_bus (gt911_device no_touch_regs clear_ret).
Proof.
  exists 0. split.
  - apply (gt911_device_reads_as no_touch_regs clear_ret GT911_REG_STATUS).
    unfold GT911_REG_STATUS. lia.
  - vm_compute. discriminate.
Qed.

(** X21 on a press at (100,200) followed by two polls without touch. *)
Lemma gt911_release_reports_last_position_witness :
  fst (gt911_poll [gt911_device no_touch_regs 3; gt911_device no_touch_regs 3]
         (snd (gt911_read_touch (gt911_device touch_regs 3) gt911_ready)))
  = [Some {| ts_x := 100; ts_y := 200; ts_pressed := false |};
     Some {| ts_x := 100; ts_y := 200; ts_pressed := false |}].
Proof.
  apply (proj2 (gt911_release_reports_last_position
                  [gt911_device no_touch_regs 3; gt911_device no_touch_regs 3]
                  (snd (gt911_read_touch (gt911_device touch_regs 3)
                          gt911_ready))
                  eq_refl
                  (Forall_cons _ (no_touch_idle 3)
                     (Forall_cons _ (no_touch_idle 3) (Forall_nil _))))
           (gt911_device touch_regs 3) gt911_ready 100 200 eq_refl eq_refl).
Defined.

(** ** The two scenarios *)

(** C3. With status byte 0x81 and the point-1 registers holding
    0x64, 0x00, 0xC8, 0x00, [gt911_read_touch] returns x=100, y=200,
    pressed=true; it writes zero to the status register exactly once, right
    after the status read and before the coordinate reads. *)
Theorem gt911_single_touch_scenario :
  forall (bus : i2c_bus) (w : gt911_world),
    initialized (gt911_dev w) = true ->
    reads_as bus GT911_REG_STATUS 0x81 ->
    reads_as bus GT911_REG_PT1_X_L 0x64 ->
    reads_as bus GT911_REG_PT1_X_H 0x00 ->
    reads_as bus GT911_REG_PT1_Y_L 0xC8 ->
    reads_as bus GT911_REG_PT1_Y_H 0x00 ->
    let r := gt911_read_touch bus w in
    let calls := new_calls w (snd r) in
    fst r = Some {| ts_x := 100; ts_y := 200; ts_pressed := true |} /\
    status_clear_writes calls = 1%nat /\
    nth_error calls 2
      = Some (I2cWrite (i2c_addr (gt911_dev w)) [0x81; 0x4E; 0x00] false) /\
    skipn 3 calls
      = reg_read_calls (i2c_addr (gt911_dev w)) GT911_REG_PT1_X_L
        ++ reg_read_calls (i2c_addr (gt911_dev w)) GT911_REG_PT1_X_H
        ++ reg_read_calls (i2c_addr (gt911_dev w)) GT911_REG_PT1_Y_L
        ++ reg_read_calls (i2c_addr (gt911_dev w)) GT911_REG_PT1_Y_H.
Proof.
  intros bus w Hinit Hs Hxl Hxh Hyl Hyh r calls. subst r calls.
  rewrite (gt911_read_touch_single bus w 0x81 0x64 0x00 0xC8 0x00
             Hinit Hs eq_refl Hxl Hxh Hyl Hyh).
  cbn [fst snd]. split; [reflexivity |].
  erewrite new_calls_log_calls by (cbn [i2c_log]; reflexivity).
  repeat split; reflexivity.
Qed.

(** A register address given by a numeral lies in the 16-bit range. *)
Ltac in_range := vm_compute; intuition discriminate.

Lemma touch_regs_reads_as (reg : Z) :
  0 <= reg < 65536 ->
  reads_as (gt911_device touch_regs 3) reg (uint8 (touch_regs reg)).
Proof. apply gt911_device_reads_as. Qed.

(** C3 on the controller whose registers hold the scenario's bytes. *)
Lemma gt911_single_touch_scenario_witness :
  fst (gt911_read_touch (gt911_device touch_regs 3) gt911_ready)
  = Some {| ts_x := 100; ts_y := 200; ts_pressed := true |}.
Proof.
  apply (gt911_single_touch_scenario (gt911_device touch_regs 3) gt911_ready
           eq_refl
           (touch_regs_reads_as GT911_REG_STATUS ltac:(in_range))
           (touch_regs_reads_as GT911_REG_PT1_X_L ltac:(in_range))
           (touch_regs_reads_as GT911_REG_PT1_X_H ltac:(in_range))
           (touch_regs_reads_as GT911_REG_PT1_Y_L ltac:(in_range))
           (touch_regs_reads_as GT911_REG_PT1_Y_H ltac:(in_range))).
Defined.

(** C4, as stated, fails: after a read that returned (100,200,true), the
    call that reads status 0x00 does return (100,200,false), but it issues a
    status-clear write: the point count 0 is below 6. *)
Lemma gt911_release_scenario_clears :
  let r1 := gt911_read_touch (gt911_device touch_regs 3) gt911_ready in
  let r2 := gt911_read_touch (gt911_device no_touch_regs 3) (snd r1) in
  fst r1 = Some {| ts_x := 100; ts_y := 200; ts_pressed := true |} /\
  fst r2 = Some {| ts_x := 100; ts_y := 200; ts_pressed := false |} /\
  new_calls (snd r1) (snd r2)
    = [I2cWrite GT911_I2C_ADDR [0x81; 0x4E] true;
       I2cRead GT911_I2C_ADDR 1 false;
       I2cWrite GT911_I2C_ADDR [0x81; 0x4E; 0x00] false] /\
  status_clear_writes (new_calls (snd r1) (snd r2)) = 1%nat.
Proof. repeat split; reflexivity. Qed.

(** C4, amended. After a read that returned (100,200,true), a call that
    reads status byte 0x00 returns (100,200,false) and performs exactly one
    status-clear write, right after the status read; it accesses no
    coordinate register. *)
Theorem gt911_release_scenario :
  forall (bus1 bus2 : i2c_bus) (w : gt911_world),
    fst (gt911_read_touch bus1 w)
      = Some {| ts_x := 100; ts_y := 200; ts_pressed := true |} ->
    reads_as bus2 GT911_REG_STATUS 0x00 ->
    let w1 := snd (gt911_read_touch bus1 w) in
    let r2 := gt911_read_touch bus2 w1 in
    fst r2 = Some {| ts_x := 100; ts_y := 200; ts_pressed := false |} /\
    new_calls w1 (snd r2)
      = reg_read_calls (i2c_addr (gt911_dev w1)) GT911_REG_STATUS
        ++ [I2cWrite (i2c_addr (gt911_dev w1)) [0x81; 0x4E; 0x00] false] /\
    status_clear_writes (new_calls w1 (snd r2)) = 1%nat.
Proof.
  intros bus1 bus2 w Hpressed Hs w1 r2.
  destruct (gt911_read_touch_pressed bus1 w 100 200 Hpressed)
    as [Hx [Hy [Hdev Hinit]]].
  fold w1 in Hx, Hy, Hdev.
  assert (Hinit1 : initialized (gt911_dev w1) = true)
    by (rewrite Hdev; exact Hinit).
  assert (Hcount : status_point_count 0 <> 1) by (vm_compute; discriminate).
  pose proof (gt911_read_touch_idle bus2 w1 _ 0 Hinit1
                (reads_as_read_byte bus2 _ 0 w1 Hs) Hcount) as Hrun.
  change (status_bit7 0 || (status_point_count 0 <? 6)) with true in Hrun.
  subst r2. rewrite Hrun. cbn [fst snd]. rewrite Hx, Hy.
  split; [reflexivity |].
  erewrite new_calls_log_calls by (cbn [log_calls i2c_log]; reflexivity).
  split; reflexivity.
Qed.

(** C4, amended, on the two controllers of the scenario. *)
Lemma gt911_release_scenario_witness :
  fst (gt911_read_touch (gt911_device no_touch_regs 3)
         (snd (gt911_read_touch (gt911_device touch_regs 3) gt911_ready)))
  = Some {| ts_x := 100; ts_y := 200; ts_pressed := false |}.
Proof.
  apply (gt911_release_scenario (gt911_device touch_regs 3)
           (gt911_device no_touch_regs 3) gt911_ready eq_refl
           (gt911_device_reads_as no_touch_regs 3 GT911_REG_STATUS
              ltac:(vm_compute; intuition discriminate))).
Defined.

(** ** The result of the clear write is dropped *)

Lemma bind_ext {S A B} (m1 m2 : State S A) (k1 k2 : A -> State S B) (w : S) :
  m1 w = m2 w ->
  (forall a w', k1 a w' = k2 a w') ->
  bind m1 k1 w = bind m2 k2 w.
Proof.
  unfold bind. intros -> Hk. destruct (m2 w). apply Hk.
Qed.

Lemma gt911_read_byte_agree (bus1 bus2 : i2c_bus) :
  agree_except_clear bus1 bus2 ->
  forall reg w, gt911_read_byte bus1 reg w = gt911_read_byte bus2 reg w.
Proof.
  intros H reg w. rewrite !gt911_read_byte_eq. cbv zeta.
  rewrite !(H _ (I2cWrite _ [_; _] true) eq_refl).
  rewrite !(H _ (I2cRead _ _ _) eq_refl). reflexivity.
Qed.

Ltac agree_steps H :=
  first
    [ reflexivity
    | apply bind_ext;
      [ first [apply (gt911_read_byte_agree _ _ H) | reflexivity]
      | let a := fresh "a" in
        let w := fresh "w" in
        intros a w;
        match type of a with
        | option _ => destruct a; [| reflexivity]
        | _ => idtac
        end;
        agree_steps H ] ].

Lemma gt911_read_touch_agree (bus1 bus2 : i2c_bus) :
  agree_except_clear bus1 bus2 ->
  forall w, gt911_read_touch bus1 w = gt911_read_touch bus2 w.
Proof.
  intros H w. unfold gt911_read_touch.
  apply bind_ext; [reflexivity |]. intros d w1.
  destruct (negb (initialized d)); [reflexivity |].
  apply bind_ext; [apply (gt911_read_byte_agree _ _ H) |].
  intros [s |] w2; [| reflexivity].
  apply bind_ext; [destruct (_ || _); reflexivity |].
  intros _ w3. destruct (_ =? 1); agree_steps H.
Qed.

Lemma gt911_read_byte_succeeds (bus : i2c_bus) :
  reads_succeed bus ->
  forall reg w, exists v,
    gt911_read_byte bus reg w =
    (Some v, log_calls w (reg_read_calls (i2c_addr (gt911_dev w)) reg)).
Proof.
  intros H reg w. rewrite gt911_read_byte_eq. cbv zeta.
  pose proof (H (i2c_log w) (I2cWrite (i2c_addr (gt911_dev w))
    [Z.land (Z.shiftr reg 8) 0xFF; Z.land reg 0xFF] true) eq_refl) as H1.
  pose proof (H (i2c_log w ++ [I2cWrite (i2c_addr (gt911_dev w))
    [Z.land (Z.shiftr reg 8) 0xFF; Z.land reg 0xFF] true])
    (I2cRead (i2c_addr (gt911_dev w)) 1 false) eq_refl) as H2.
  apply Z.ltb_ge in H1, H2. rewrite H1, H2.
  eexists. reflexivity.
Qed.

Ltac ok_read H :=
  unfold bind at 1;
  match goal with
  | |- context [gt911_read_byte ?b ?r ?w] =>
      let v := fresh "v" in
      let E := fresh "E" in
      destruct (gt911_read_byte_succeeds b H r w) as [v E]; rewrite E
  end.

Lemma gt911_read_touch_succeeds (bus : i2c_bus) (w : gt911_world) :
  initialized (gt911_dev w) = true ->
  reads_succeed bus ->
  exists sample, fst (gt911_read_touch bus w) = Some sample.
Proof.
  intros Hinit H. unfold gt911_read_touch.
  unfold bind at 1. unfold get_dev at 1. rewrite Hinit. cbn [negb].
  ok_read H. unfold bind at 1.
  destruct (_ || _); [rewrite gt911_clear_status_eq | unfold ret at 1];
    (destruct (_ =? 1); [| eexists; reflexivity]);
    (ok_read H; unfold bind at 1; cbn [set_last_x];
     ok_read H; unfold bind at 1; cbn [get_last_x];
     unfold bind at 1; cbn [set_last_x];
     ok_read H; unfold bind at 1; cbn [set_last_y];
     ok_read H; eexists; reflexivity).
Qed.

(** C10. Two buses that answer alike except to the status-clear write make
    [gt911_read_touch] return the same result and the same sample, persist
    the same position and issue the same transactions; and when every
    transaction other than the clear is acknowledged, an initialised driver
    returns true, whatever the clear write returned. *)
Theorem gt911_clear_result_ignored :
  forall (bus1 bus2 : i2c_bus) (w : gt911_world),
    agree_except_clear bus1 bus2 ->
    gt911_read_touch bus2 w = gt911_read_touch bus1 w /\
    (initialized (gt911_dev w) = true ->
     reads_succeed bus1 ->
     exists sample, fst (gt911_read_touch bus2 w) = Some sample).
Proof.
  intros bus1 bus2 w H. split.
  - symmetry. apply gt911_read_touch_agree. exact H.
  - intros Hinit Hok.
    rewrite <- (gt911_read_touch_agree bus1 bus2 H w).
    apply gt911_read_touch_succeeds; assumption.
Qed.

Lemma gt911_device_agree (regs : Z -> Z) (r1 r2 : Z) :
  agree_except_clear (gt911_device regs r1) (gt911_device regs r2).
Proof.
  intros hist c Hc. unfold gt911_device. destruct c; [| reflexivity].
  rewrite Hc. reflexivity.
Qed.

(** C10 on a controller that answers the clear write with an error code. *)
Lemma gt911_clear_result_ignored_witness :
  gt911_read_touch (gt911_device touch_regs (-1)) gt911_ready
  = gt911_read_touch (gt911_device touch_regs 3) gt911_ready /\
  i2c_ret (gt911_device touch_regs (-1) []
             (I2cWrite GT911_I2C_ADDR [0x81; 0x4E; 0x00] false)) < 0.
Proof.
  split.
  - apply (gt911_clear_result_ignored (gt911_device touch_regs 3)
             (gt911_device touch_regs (-1)) gt911_ready
             (gt911_device_agree touch_regs 3 (-1))).
  - reflexivity.
Defined.


(** ** The joystick mapping *)

Lemma int32_id (z : Z) : INT_MIN <= z <= INT_MAX -> int32 z = z.
Proof.
  unfold INT_MIN, INT_MAX, int32. intros H.
  rewrite Z.mod_small by lia. lia.
Qed.

Lemma quot_abs_le (a half : Z) :
  Z.abs a <= 1898 * Z.abs half -> Z.abs (a ÷ 1898) <= Z.abs half.
Proof.
  intros H. rewrite <- (Z.quot_abs a 1898) by lia.
  change (Z.abs 1898) with 1898.
  apply Z.quot_le_upper_bound; lia.
Qed.

Lemma scaled_bound (d half : Z) :
  -1898 <= d <= 1898 ->
  Z.abs (d * half) <= 1898 * Z.abs half.
Proof.
  intros H. rewrite Z.abs_mul.
  apply Z.mul_le_mono_nonneg_r; [apply Z.abs_nonneg | lia].
Qed.

Lemma clamp_mono (max_pos a b : Z) :
  a <= b -> clamp max_pos a <= clamp max_pos b.
Proof.
  intros H. unfold clamp. rewrite !Z.gtb_ltb.
  destruct (Z.ltb_spec a 0); destruct (Z.ltb_spec b 0);
    repeat match goal with
           | |- context [?x <? ?y] => destruct (Z.ltb_spec x y)
           end; lia.
Qed.

Lemma clamp_range (max_pos m : Z) :
  (0 <= max_pos -> 0 <= clamp max_pos m <= max_pos) /\
  (max_pos < 0 -> clamp max_pos m = max_pos).
Proof.
  unfold clamp. rewrite !Z.gtb_ltb.
  destruct (Z.ltb_spec m 0);
    repeat match goal with
           | |- context [?x <? ?y] => destruct (Z.ltb_spec x y)
           end; lia.
Qed.

Lemma rescale_mono (half o1 o2 : Z) :
  0 <= half -> o1 <= o2 ->
  (o1 < - ADC_DEADZONE \/ ADC_DEADZONE < o1) ->
  (o2 < - ADC_DEADZONE \/ ADC_DEADZONE < o2) ->
  rescale o1 half <= rescale o2 half.
Proof.
  unfold rescale, ADC_DEADZONE, ADC_CENTER. intros Hh Hle H1 H2.
  change (2048 - 150) with 1898. rewrite !Z.gtb_ltb.
  destruct (Z.ltb_spec 0 o1); destruct (Z.ltb_spec 0 o2); try lia.
  - apply Z.add_le_mono_l. apply Z.quot_le_mono; [lia |].
    apply Z.mul_le_mono_nonneg_r; lia.
  - apply Z.add_le_mono_l.
    apply Z.le_trans with (0 ÷ 1898).
    + apply Z.quot_le_mono; [lia | nia].
    + apply Z.quot_le_mono; [lia | nia].
  - apply Z.add_le_mono_l. apply Z.quot_le_mono; [lia |].
    apply Z.mul_le_mono_nonneg_r; lia.
Qed.

(** Outside the dead zone, and as long as no product overflows, the code
    computes the clamped rescaling, mirrored when [invert] is set. *)
Lemma map_adc_outside (raw max_pos : Z) (invert : bool) :
  adc_product_fits max_pos ->
  0 <= raw <= ADC_MAX_VALUE ->
  ADC_DEADZONE <= Z.abs (raw - ADC_CENTER) ->
  map_adc_with_deadzone raw max_pos invert =
  let m := clamp max_pos (rescale (raw - ADC_CENTER) (max_pos ÷ 2)) in
  if invert then max_pos - m else m.
Proof.
  unfold adc_product_fits, ADC_MAX_VALUE, ADC_DEADZONE, ADC_CENTER,
    INT_MIN, INT_MAX.
  intros [Hrange Hfits] Hraw Hout.
  change (2048 - 150) with 1898 in Hfits.
  unfold map_adc_with_deadzone, ADC_DEADZONE, ADC_CENTER.
  change (2048 - 150) with 1898.
  rewrite (int32_id raw) by (unfold INT_MIN, INT_MAX; lia).
  rewrite (int32_id (raw - 2048)) by (unfold INT_MIN, INT_MAX; lia).
  destruct (Z.ltb_spec (Z.abs (raw - 2048)) 150) as [Hin | _]; [lia |].
  set (off := raw - 2048) in *. set (half := max_pos ÷ 2) in *.
  assert (Hhalf : 2 * Z.abs half <= Z.abs max_pos).
  { subst half. rewrite <- (Z.quot_abs max_pos 2) by lia.
    change (Z.abs 2) with 2. apply Z.mul_quot_le; lia. }
  assert (Hsum : forall d, -1898 <= d <= 1898 ->
             int32 (half + int32 (d * half) ÷ 1898)
             = half + (d * half) ÷ 1898).
  { intros d Hd.
    pose proof (scaled_bound d half Hd) as Hb.
    pose proof (quot_abs_le (d * half) half Hb) as Hq.
    rewrite (int32_id (d * half)) by (unfold INT_MIN, INT_MAX; lia).
    apply int32_id. unfold INT_MIN, INT_MAX. lia. }
  unfold rescale, ADC_DEADZONE, ADC_CENTER. change (2048 - 150) with 1898.
  fold off.
  assert (Hpre : (if off >? 0
                  then int32 (half + int32 ((off - 150) * half) ÷ 1898)
                  else int32 (half + int32 ((off + 150) * half) ÷ 1898))
                 = (if off >? 0
                    then half + ((off - 150) * half) ÷ 1898
                    else half + ((off + 150) * half) ÷ 1898)).
  { rewrite Z.gtb_ltb. destruct (Z.ltb_spec 0 off).
    - apply Hsum. subst off. lia.
    - apply Hsum. subst off. lia. }
  rewrite Hpre. clear Hpre.
  set (pre := if off >? 0 then _ else _).
  change (let mapped := if pre <? 0 then 0 else pre in
          if mapped >? max_pos then max_pos else mapped)
    with (clamp max_pos pre).
  cbv zeta.
  change (if (if pre <? 0 then 0 else pre) >? max_pos then max_pos
          else if pre <? 0 then 0 else pre) with (clamp max_pos pre).
  destruct invert; [| reflexivity].
  apply int32_id. unfold INT_MIN, INT_MAX.
  destruct (clamp_range max_pos pre) as [Hnn Hneg].
  destruct (Z.lt_ge_cases max_pos 0) as [Hlt | Hge].
  - rewrite (Hneg Hlt). lia.
  - specialize (Hnn Hge). lia.
Qed.

(** C5. For raw values of the 12-bit range outside the closed dead band,
    [map_adc_with_deadzone] is non-decreasing in the raw value, and
    non-increasing when [invert] is set (for every [max_pos] whose products
    stay within [int]); and for a raw value strictly inside the dead band the
    result is exactly [max_pos / 2]. *)
Theorem map_adc_monotone_outside_dead_zone :
  forall (max_pos : Z) (invert : bool) (raw1 raw2 raw : Z),
    adc_product_fits max_pos ->
    0 <= raw1 -> raw1 <= raw2 -> raw2 <= ADC_MAX_VALUE ->
    outside_dead_band raw1 -> outside_dead_band raw2 ->
    Z.abs (raw - ADC_CENTER) < ADC_DEADZONE ->
    (if invert
     then map_adc_with_deadzone raw2 max_pos true
          <= map_adc_with_deadzone raw1 max_pos true
     else map_adc_with_deadzone raw1 max_pos false
          <= map_adc_with_deadzone raw2 max_pos false) /\
    map_adc_with_deadzone raw max_pos invert = max_pos ÷ 2.
Proof.
  intros max_pos invert raw1 raw2 raw Hfits H0 Hle Hmax Hout1 Hout2 Hin.
  split.
  - assert (Hm : clamp max_pos (rescale (raw1 - ADC_CENTER) (max_pos ÷ 2))
                 <= clamp max_pos (rescale (raw2 - ADC_CENTER) (max_pos ÷ 2))).
    { destruct (Z.lt_ge_cases max_pos 0) as [Hneg | Hnn].
      - rewrite !(proj2 (clamp_range max_pos _) Hneg). lia.
      - apply clamp_mono. apply rescale_mono.
        + apply Z.quot_pos; lia.
        + lia.
        + unfold outside_dead_band, ADC_CENTER, ADC_DEADZONE in *. lia.
        + unfold outside_dead_band, ADC_CENTER, ADC_DEADZONE in *. lia. }
    assert (Hr1 : 0 <= raw1 <= ADC_MAX_VALUE) by lia.
    assert (Hr2 : 0 <= raw2 <= ADC_MAX_VALUE) by lia.
    assert (Ho1 : ADC_DEADZONE <= Z.abs (raw1 - ADC_CENTER))
      by (unfold outside_dead_band, ADC_CENTER, ADC_DEADZONE in *; lia).
    assert (Ho2 : ADC_DEADZONE <= Z.abs (raw2 - ADC_CENTER))
      by (unfold outside_dead_band, ADC_CENTER, ADC_DEADZONE in *; lia).
    destruct invert;
      rewrite (map_adc_outside raw1 max_pos _ Hfits Hr1 Ho1),
              (map_adc_outside raw2 max_pos _ Hfits Hr2 Ho2);
      cbv zeta; lia.
  - unfold map_adc_with_deadzone.
    unfold ADC_CENTER, ADC_DEADZONE in *.
    rewrite (int32_id raw) by (unfold INT_MIN, INT_MAX; lia).
    rewrite (int32_id (raw - 2048)) by (unfold INT_MIN, INT_MAX; lia).
    destruct (Z.ltb_spec (Z.abs (raw - 2048)) 150); [reflexivity | lia].
Qed.

(** C5 at [max_pos] 88, the value [main.c] passes. *)
Lemma map_adc_monotone_outside_dead_zone_witness :
  map_adc_with_deadzone 100 88 false <= map_adc_with_deadzone 4000 88 false /\
  map_adc_with_deadzone 2100 88 false = 44.
Proof.
  apply (map_adc_monotone_outside_dead_zone 88 false 100 4000 2100);
    vm_compute; intuition discriminate.
Defined.

(** C6, as stated, fails: just past the lower edge of the dead zone the
    result is still the centre 44, not 0. *)
Lemma map_adc_below_dead_zone_is_centre :
  map_adc_with_deadzone (2048 - 151) 88 false = 44 /\
  map_adc_with_deadzone (2048 - 151) 88 false <> 0.
Proof. split; [reflexivity | discriminate]. Qed.

(** C6, amended. [map_adc_with_deadzone(2048, 88, false)] is 44;
    [map_adc_with_deadzone(2048-151, 88, false)] is 44; and
    [map_adc_with_deadzone(2048+151, 88, true)] is 88 minus
    [map_adc_with_deadzone(2048+151, 88, false)]. *)
Theorem map_adc_scenario :
  map_adc_with_deadzone 2048 88 false = 44 /\
  map_adc_with_deadzone (2048 - 151) 88 false = 44 /\
  map_adc_with_deadzone (2048 + 151) 88 true
    = 88 - map_adc_with_deadzone (2048 + 151) 88 false.
Proof. repeat split; reflexivity. Qed.

(** ** The button interrupt *)

(** C7, as stated, fails: a rising edge exactly 50 ms after the last
    accepted one is ignored. The edge at 100 ms is accepted and lights the
    indicator; the edge at 150 ms changes nothing. *)
Lemma button_edge_after_50ms_ignored :
  let w1 := on_button_interrupt 100 GPIO_BUTTON_1 GPIO_IRQ_EDGE_RISE
              button_boot in
  let w2 := on_button_interrupt 150 GPIO_BUTTON_1 GPIO_IRQ_EDGE_RISE w1 in
  led1 w1 = negb (led1 button_boot) /\
  btn1_last_time w1 = 100 /\
  led1 w2 = led1 w1 /\
  gpio_out w2 GPIO_LED_1 = gpio_out w1 GPIO_LED_1.
Proof. repeat split; reflexivity. Qed.

(** An interrupt that carries only a falling edge leaves everything as it
    was. *)
Lemma button_falling_edge_ignored (now gpio_pin : Z) (w : button_world) :
  on_button_interrupt now gpio_pin GPIO_IRQ_EDGE_FALL w = w.
Proof. reflexivity. Qed.

Lemma negb_fixpoint_free (b : bool) : b = negb b -> False.
Proof. destruct b; discriminate. Qed.

(** One branch of the interrupt handler against the two buttons' rules. *)
Ltac button_branch :=
  repeat split; intros;
  repeat match goal with H : _ /\ _ |- _ => destruct H end;
  repeat split;
  try solve
    [ reflexivity | assumption | lia | discriminate | congruence
    | exfalso; eapply negb_fixpoint_free; eassumption
    | exfalso; match goal with
               | H : ~ _ |- _ =>
                   apply H; repeat split;
                   solve [assumption | reflexivity | lia]
               end ].

(** C7, amended. For each of the two buttons independently, an interrupt
    toggles that button's indicator and its LED pin if and only if it carries
    a rising edge and strictly more than 50 ms (modulo 2^32) have passed
    since that button's last accepted edge; an accepted edge becomes the
    last accepted one; an interrupt without a rising edge changes nothing. *)
Theorem button_toggle_iff_debounced :
  forall (now gpio_pin events : Z) (w : button_world),
    let w' := on_button_interrupt now gpio_pin events w in
    let rising := Z.land events GPIO_IRQ_EDGE_RISE <> 0 in
    let accepted1 := rising /\ gpio_pin = GPIO_BUTTON_1 /\
                     BTN_DEBOUNCE_MS < uint32 (now - btn1_last_time w) in
    let accepted2 := rising /\ gpio_pin = GPIO_BUTTON_2 /\
                     BTN_DEBOUNCE_MS < uint32 (now - btn2_last_time w) in
    (led1 w' = negb (led1 w) <-> accepted1) /\
    (gpio_out w' GPIO_LED_1 = negb (gpio_out w GPIO_LED_1) <-> accepted1) /\
    (led2 w' = negb (led2 w) <-> accepted2) /\
    (gpio_out w' GPIO_LED_2 = negb (gpio_out w GPIO_LED_2) <-> accepted2) /\
    (accepted1 -> btn1_last_time w' = now) /\
    (accepted2 -> btn2_last_time w' = now) /\
    (~ accepted1 -> led1 w' = led1 w /\ btn1_last_time w' = btn1_last_time w
                    /\ gpio_out w' GPIO_LED_1 = gpio_out w GPIO_LED_1) /\
    (~ accepted2 -> led2 w' = led2 w /\ btn2_last_time w' = btn2_last_time w
                    /\ gpio_out w' GPIO_LED_2 = gpio_out w GPIO_LED_2) /\
    (~ rising -> w' = w).
Proof.
  intros now gpio_pin events w w' rising accepted1 accepted2.
  subst w' rising accepted1 accepted2. unfold on_button_interrupt.
  rewrite !Z.gtb_ltb.
  destruct (Z.eqb_spec (Z.land events GPIO_IRQ_EDGE_RISE) 0) as [Hr | Hr];
    [button_branch |].
  destruct (Z.eqb_spec gpio_pin GPIO_BUTTON_1) as [Hp1 | Hp1].
  { subst gpio_pin.
    destruct (Z.ltb_spec BTN_DEBOUNCE_MS (uint32 (now - btn1_last_time w)))
      as [Hd | Hd];
      cbn [led1 led2 gpio_out btn1_last_time btn2_last_time];
      change (GPIO_LED_1 =? GPIO_LED_1) with true;
      change (GPIO_LED_2 =? GPIO_LED_1) with false; cbv iota;
      button_branch. }
  destruct (Z.eqb_spec gpio_pin GPIO_BUTTON_2) as [Hp2 | Hp2].
  { subst gpio_pin.
    destruct (Z.ltb_spec BTN_DEBOUNCE_MS (uint32 (now - btn2_last_time w)))
      as [Hd | Hd];
      cbn [led1 led2 gpio_out btn1_last_time btn2_last_time];
      change (GPIO_LED_2 =? GPIO_LED_2) with true;
      change (GPIO_LED_1 =? GPIO_LED_2) with false; cbv iota;
      button_branch. }
  button_branch.
Qed.

(** C7, amended: an edge 51 ms after an accepted one toggles again. *)
Lemma button_toggle_iff_debounced_witness :
  let w1 := on_button_interrupt 100 GPIO_BUTTON_1 GPIO_IRQ_EDGE_RISE
              button_boot in
  led1 (on_button_interrupt 151 GPIO_BUTTON_1 GPIO_IRQ_EDGE_RISE w1)
  = negb (led1 w1).
Proof.
  intros w1.
  apply (proj1 (button_toggle_iff_debounced 151 GPIO_BUTTON_1
                  GPIO_IRQ_EDGE_RISE w1)).
  split; [vm_compute; discriminate |].
  split; [reflexivity | vm_compute; reflexivity].
Defined.

(** ** The display side *)

Lemma new_events_app (w w' : lcd_world) (evs : list lcd_event) :
  lcd_trace w' = lcd_trace w ++ evs -> new_events w w' = evs.
Proof.
  intros H. unfold new_events. rewrite H.
  rewrite skipn_app, skipn_all, Nat.sub_diag. reflexivity.
Qed.

Lemma snd_bind {S A B} (m : State S A) (k : A -> State S B) (w : S) :
  snd (bind m k w) = snd (k (fst (m w)) (snd (m w))).
Proof. unfold bind. destruct (m w). reflexivity. Qed.

(** Unfold one driver function down to its GPIO and SPI operations and
    evaluate the levels of the two control lines where a burst reads them. *)
Ltac run_lcd :=
  unfold LCD_CS_LOW, LCD_DC_CMD, LCD_DC_DATA, LCD_CS_HIGH, sleep_us,
    spi_write_blocking, emit, gpio_put, bind, ret;
  cbn [fst snd gpio_level disp_flush_enabled lcd_trace];
  change (ST7796_PIN_CS =? ST7796_PIN_DC) with false;
  change (ST7796_PIN_DC =? ST7796_PIN_CS) with false;
  change (ST7796_PIN_CS =? ST7796_PIN_CS) with true;
  change (ST7796_PIN_DC =? ST7796_PIN_DC) with true;
  cbv iota; rewrite <- ?app_assoc; cbn [app].

Lemma st7796_write_cmd_run (cmd : Z) (w : lcd_world) :
  lcd_trace (snd (st7796_write_cmd cmd w))
    = lcd_trace w ++ write_cmd_events cmd /\
  disp_flush_enabled (snd (st7796_write_cmd cmd w)) = disp_flush_enabled w.
Proof.
  unfold st7796_write_cmd, write_cmd_events. run_lcd.
  split; reflexivity.
Qed.

Lemma st7796_write_data_run (b0 b1 b2 b3 : Z) (w : lcd_world) :
  let data := Some [b0; b1; b2; b3] in
  lcd_trace (snd (st7796_write_data data 4 w))
    = lcd_trace w ++ write_data_events [b0; b1; b2; b3] /\
  disp_flush_enabled (snd (st7796_write_data data 4 w))
    = disp_flush_enabled w.
Proof.
  unfold st7796_write_data, write_data_events.
  change (4 =? 0) with false. cbv iota zeta. run_lcd.
  split; reflexivity.
Qed.

Lemma st7796_set_window_run (wx1 wy1 wx2 wy2 : Z) (w : lcd_world) :
  lcd_trace (snd (st7796_set_window wx1 wy1 wx2 wy2 w))
    = lcd_trace w ++ set_window_events wx1 wy1 wx2 wy2 /\
  disp_flush_enabled (snd (st7796_set_window wx1 wy1 wx2 wy2 w))
    = disp_flush_enabled w.
Proof.
  unfold st7796_set_window, set_window_events.
  rewrite !snd_bind. split.
  - rewrite (proj1 (st7796_write_cmd_run _ _)).
    rewrite (proj1 (st7796_write_data_run _ _ _ _ _)).
    rewrite (proj1 (st7796_write_cmd_run _ _)).
    rewrite (proj1 (st7796_write_data_run _ _ _ _ _)).
    rewrite (proj1 (st7796_write_cmd_run _ _)).
    rewrite <- !app_assoc. reflexivity.
  - rewrite (proj2 (st7796_write_cmd_run _ _)).
    rewrite (proj2 (st7796_write_data_run _ _ _ _ _)).
    rewrite (proj2 (st7796_write_cmd_run _ _)).
    rewrite (proj2 (st7796_write_data_run _ _ _ _ _)).
    rewrite (proj2 (st7796_write_cmd_run _ _)).
    reflexivity.
Qed.

(** [st7796_write_color] either does nothing at all or issues one burst of
    the first [len * 2] bytes (an [uint32_t] product), framed by the
    chip-select line, with the data-select line in data mode. *)
Lemma st7796_write_color_run (color : option (list Z)) (len : Z)
  (w : lcd_world) :
  let w' := snd (st7796_write_color color len w) in
  match color with
  | Some bytes =>
      if len =? 0 then w' = w
      else lcd_trace w' = lcd_trace w
             ++ write_color_events (firstn (Z.to_nat (uint32 (len * 2))) bytes)
           /\ gpio_level w' ST7796_PIN_CS = true
           /\ gpio_level w' ST7796_PIN_DC = true
           /\ disp_flush_enabled w' = disp_flush_enabled w
  | None => w' = w
  end.
Proof.
  unfold st7796_write_color, write_color_events.
  destruct color as [bytes |]; [| reflexivity].
  destruct (len =? 0); [reflexivity |].
  run_lcd. repeat split; reflexivity.
Qed.

(** C9. [st7796_write_color] is a no-op, leaving the whole state and so
    the chip-select and data-select lines as they were, when the pixel count
    is 0 or the buffer pointer is null. Otherwise, for a buffer that holds
    the [len] pixels, it asserts chip-select, selects data mode, sends the
    first [len * 2] bytes of the buffer unchanged in a single burst during
    which chip-select is asserted and data mode selected, and releases
    chip-select. *)
Theorem st7796_write_color_burst :
  forall (w : lcd_world) (color : option (list Z)) (len : Z),
    0 <= len <= UINT32_MAX ->
    (forall bytes, color = Some bytes ->
                   2 * len <= Z.of_nat (length bytes) <= UINT32_MAX) ->
    let w' := snd (st7796_write_color color len w) in
    (len = 0 \/ color = None -> w' = w) /\
    (forall bytes, color = Some bytes -> len <> 0 ->
       let payload := firstn (Z.to_nat (2 * len)) bytes in
       new_events w w'
         = [GpioPut ST7796_PIN_CS false; GpioPut ST7796_PIN_DC true;
            SpiWrite false true payload; GpioPut ST7796_PIN_CS true] /\
       Z.of_nat (length payload) = 2 * len /\
       gpio_level w' ST7796_PIN_CS = true /\
       gpio_level w' ST7796_PIN_DC = true).
Proof.
  intros w color len Hlen Hbuf w'.
  pose proof (st7796_write_color_run color len w) as Hrun.
  cbv zeta in Hrun. fold w' in Hrun. split.
  - intros [H0 | Hnull].
    + subst len. destruct color; exact Hrun.
    + subst color. exact Hrun.
  - intros bytes Hcolor Hnz payload. subst color.
    specialize (Hbuf bytes eq_refl). unfold UINT32_MAX in *.
    destruct (Z.eqb_spec len 0) as [H0 | _]; [contradiction |].
    destruct Hrun as [Htrace [Hcs [Hdc _]]].
    assert (Hu : uint32 (len * 2) = 2 * len)
      by (unfold uint32; rewrite Z.mod_small by lia; lia).
    rewrite Hu in Htrace. fold payload in Htrace.
    split; [exact (new_events_app _ _ _ Htrace) |].
    split; [| split; assumption].
    subst payload. rewrite firstn_length_le by lia. lia.
Qed.

(** C9 on two pixels out of a three-pixel buffer, and on a null buffer. *)
Lemma st7796_write_color_burst_witness :
  new_events lcd_boot
    (snd (st7796_write_color (Some [0xF8; 0x00; 0x07; 0xE0; 0x00; 0x1F]) 2
            lcd_boot))
  = [GpioPut ST7796_PIN_CS false; GpioPut ST7796_PIN_DC true;
     SpiWrite false true [0xF8; 0x00; 0x07; 0xE0];
     GpioPut ST7796_PIN_CS true] /\
  snd (st7796_write_color None 2 lcd_boot) = lcd_boot.
Proof.
  split.
  - apply (proj2 (st7796_write_color_burst lcd_boot
                    (Some [0xF8; 0x00; 0x07; 0xE0; 0x00; 0x1F]) 2
                    ltac:(vm_compute; intuition discriminate)
                    ltac:(intros bytes E; inversion E; vm_compute;
                          intuition discriminate))
             [0xF8; 0x00; 0x07; 0xE0; 0x00; 0x1F] eq_refl
             ltac:(discriminate)).
  - apply (proj1 (st7796_write_color_burst lcd_boot None 2
                    ltac:(vm_compute; intuition discriminate)
                    ltac:(intros bytes E; discriminate E))).
    right. reflexivity.
Defined.

(** C8. Every call of [disp_flush] signals flush-complete to the graphics
    engine exactly once, as the last thing it does, whether output is
    enabled or not and whatever the area and the buffer; and when output is
    disabled the signal is all it does: no level is driven, no burst is
    sent. *)
Theorem disp_flush_signals_ready_once :
  forall (lv_area_get_width lv_area_get_height : lv_area_t -> Z)
         (area : lv_area_t) (color_p : option (list Z)) (w : lcd_world),
    let w' := snd (disp_flush lv_area_get_width lv_area_get_height
                     area color_p w) in
    let events := new_events w w' in
    length (filter is_flush_ready events) = 1%nat /\
    last events (SleepUs 0) = FlushReady /\
    (disp_flush_enabled w = false ->
     events = [FlushReady] /\ gpio_level w' = gpio_level w).
Proof.
  intros gw gh area color_p w w' events. subst events w'.
  unfold disp_flush.
  destruct (disp_flush_enabled w) eqn:Hen; cbn [negb].
  - set (size := uint32 (gw area * gh area)).
    rewrite !snd_bind.
    set (w1 := snd (st7796_set_window _ _ _ _ w)).
    set (w2 := snd (st7796_write_color color_p size w1)).
    assert (H1 : lcd_trace w1 = lcd_trace w ++ set_window_events
                   (uint16 (x1 area)) (uint16 (y1 area))
                   (uint16 (x2 area)) (uint16 (y2 area)))
      by apply st7796_set_window_run.
    assert (H2 : exists pixels,
               lcd_trace w2 = lcd_trace w1 ++ pixels /\
               filter is_flush_ready pixels = []).
    { pose proof (st7796_write_color_run color_p size w1) as Hrun.
      cbv zeta in Hrun. fold w2 in Hrun.
      destruct color_p as [bytes |];
        [destruct (size =? 0) |];
        try (exists []; rewrite Hrun, app_nil_r; split; reflexivity).
      destruct Hrun as [Htrace _]. eexists. split; [exact Htrace |].
      reflexivity. }
    destruct H2 as [pixels [H2 Hpix]].
    assert (H3 : lcd_trace (snd (lv_disp_flush_ready w2))
                 = lcd_trace w
                   ++ (set_window_events
                         (uint16 (x1 area)) (uint16 (y1 area))
                         (uint16 (x2 area)) (uint16 (y2 area))
                       ++ pixels) ++ [FlushReady]).
    { cbn [lv_disp_flush_ready emit snd lcd_trace].
      rewrite H2, H1, <- !app_assoc. reflexivity. }
    rewrite (new_events_app _ _ _ H3).
    split; [| split; [apply last_last | discriminate]].
    rewrite !filter_app, Hpix, !length_app. reflexivity.
  - rewrite (new_events_app w (snd (lv_disp_flush_ready w)) [FlushReady]
               eq_refl).
    repeat split; reflexivity.
Qed.

(** C8 with output disabled: the completion signal and nothing else. *)
Lemma disp_flush_signals_ready_once_witness :
  let w := snd (disp_disable_update lcd_boot) in
  new_events w
    (snd (disp_flush (fun a => x2 a - x1 a + 1) (fun a => y2 a - y1 a + 1)
            {| x1 := 0; y1 := 0; x2 := 1; y2 := 0 |}
            (Some [0xF8; 0x00; 0x07; 0xE0]) w))
  = [FlushReady].
Proof.
  intros w.
  apply (proj2 (proj2 (disp_flush_signals_ready_once
                         (fun a => x2 a - x1 a + 1) (fun a => y2 a - y1 a + 1)
                         {| x1 := 0; y1 := 0; x2 := 1; y2 := 0 |}
                         (Some [0xF8; 0x00; 0x07; 0xE0]) w))
           eq_refl).
Defined.

(** * Further properties *)

(** ** Bytes and words *)

Lemma low_bits_only (a k n : Z) :
  0 <= k -> 0 <= a < 2 ^ k -> k <= n -> Z.testbit a n = false.
Proof.
  intros Hk Ha Hn. destruct (Z.eq_dec a 0) as [-> | Hnz].
  - apply Z.bits_0.
  - apply Z.bits_above_log2; [lia |].
    apply Z.lt_le_trans with k; [| exact Hn].
    apply Z.log2_lt_pow2; lia.
Qed.

(** Or-ing a value below [2^k] with one shifted left by [k] adds them. *)
Lemma lor_shiftl_add (lo hi k : Z) :
  0 <= k -> 0 <= lo < 2 ^ k ->
  Z.lor lo (Z.shiftl hi k) = lo + hi * 2 ^ k.
Proof.
  intros Hk Hlo.
  assert (Hland : Z.land lo (Z.shiftl hi k) = 0).
  { apply Z.bits_inj'. intros n Hn. rewrite Z.land_spec, Z.bits_0.
    destruct (Z.lt_ge_cases n k) as [Hlt | Hge].
    - rewrite Z.shiftl_spec_low by lia. apply andb_false_r.
    - rewrite (low_bits_only lo k n) by lia. reflexivity. }
  pose proof (Z.add_lor_land lo (Z.shiftl hi k)) as H.
  rewrite Hland in H. rewrite <- (Z.shiftl_mul_pow2 hi k) by lia. lia.
Qed.

Lemma uint8_range (z : Z) : 0 <= uint8 z < 256.
Proof. unfold uint8. apply Z.mod_pos_bound. lia. Qed.

Lemma uint16_range (z : Z) : 0 <= uint16 z < 65536.
Proof. unfold uint16. apply Z.mod_pos_bound. lia. Qed.

(** Two bytes, low one first, as the driver puts them together. *)
Lemma le16_bytes (lo hi : Z) :
  0 <= lo < 256 -> 0 <= hi < 256 ->
  uint16 (Z.lor lo (Z.shiftl (uint16 hi) 8)) = lo + 256 * hi.
Proof.
  intros Hlo Hhi. unfold uint16 at 2. rewrite (Z.mod_small hi) by lia.
  rewrite (lor_shiftl_add lo hi 8) by lia.
  unfold uint16. rewrite Z.mod_small; lia.
Qed.

(** A byte the bus model hands over is in range. *)
Lemma reads_as_byte (bus : i2c_bus) (reg v : Z) :
  reads_as bus reg v -> 0 <= v < 256.
Proof.
  intros H. destruct (H [] 0) as [_ [_ H3]]. cbv zeta in H3.
  unfold rx_bytes in H3. change (Z.to_nat 1) with 1%nat in H3.
  cbn [seq map] in H3. injection H3 as H3. rewrite <- H3.
  apply uint8_range.
Qed.

(** ** [gt911_init] *)

Lemma init_frame_refl (w : gt911_world) : init_frame w w.
Proof.
  repeat split. exists []. rewrite app_nil_r. split; [reflexivity | constructor].
Qed.

Lemma init_frame_trans (w0 w1 w2 : gt911_world) :
  init_frame w0 w1 -> init_frame w1 w2 -> init_frame w0 w2.
Proof.
  intros [Hx1 [Hy1 [Ha1 [c1 [Hl1 Hr1]]]]] [Hx2 [Hy2 [Ha2 [c2 [Hl2 Hr2]]]]].
  repeat split; try congruence.
  exists (c1 ++ c2). split.
  - rewrite Hl2, Hl1, app_assoc. reflexivity.
  - apply Forall_app. split; assumption.
Qed.

(** A register read, failed or not, keeps the device record and the
    persisted position, only reads, and yields a byte. *)
Lemma wp_read_byte_frame (bus : i2c_bus) (reg : Z)
  (Q : option Z -> gt911_world -> Prop) (w : gt911_world) :
  (forall r w1,
      gt911_dev w1 = gt911_dev w -> init_frame w w1 ->
      (forall v, r = Some v -> 0 <= v < 256) -> Q r w1) ->
  wp (gt911_read_byte bus reg) Q w.
Proof.
  intros H. unfold wp. rewrite gt911_read_byte_eq. cbv zeta.
  destruct (i2c_ret _ <? 0); [| destruct (i2c_ret _ <? 0)];
    cbn [fst snd]; apply H; try reflexivity;
    try (intros v Hv; first [discriminate Hv
                            | injection Hv as <-; apply uint8_range]);
    (repeat split; eexists; split;
     [reflexivity | repeat constructor]).
Qed.

Lemma init_pending_read (w0 w w1 : gt911_world) :
  init_pending w0 w -> gt911_dev w1 = gt911_dev w -> init_frame w w1 ->
  init_pending w0 w1.
Proof.
  intros [Hf Hi] Hd Hf1. split.
  - exact (init_frame_trans _ _ _ Hf Hf1).
  - rewrite Hd. exact Hi.
Qed.

Lemma init_pending_set (w0 w : gt911_world) (d : gt911_dev_t) :
  init_pending w0 w ->
  i2c_addr d = i2c_addr (gt911_dev w) -> initialized d = false ->
  init_pending w0 {| gt911_dev := d; last_x := last_x w; last_y := last_y w;
                     i2c_log := i2c_log w |}.
Proof.
  intros [[Hx [Hy [Ha Hc]]] Hi] Had Hid. split; [| exact Hid].
  unfold init_frame. cbn [last_x last_y gt911_dev i2c_log].
  split; [exact Hx |]. split; [exact Hy |]. split; [congruence | exact Hc].
Qed.

Ltac wp_state :=
  apply wp_bind; unfold wp at 1;
  cbn [get_dev set_dev get_last_x get_last_y set_last_x set_last_y fst snd].

(** One [expect data <- read ;; ...] step of [gt911_init]: the failing read
    ends the run, the other one goes on with [H'] for the new world. *)
Ltac init_read H H' :=
  apply wp_bind, wp_read_byte_frame;
  let r := fresh "data" in
  let w := fresh "w" in
  let Hd := fresh "Hd" in
  let Hf := fresh "Hf" in
  let Hv := fresh "Hv" in
  intros [r |] w Hd Hf Hv;
  [ pose proof (init_pending_read _ _ _ H Hd Hf) as H'; clear Hd Hf Hv
  | apply wp_ret; exact (init_pending_read _ _ _ H Hd Hf) ].

(** One [d <- get_dev ;; set_dev (...)] step that keeps the address and the
    flag. *)
Ltac init_set H H' :=
  wp_state; wp_state;
  match goal with
  | |- wp _ _ ?w2 =>
      match type of H with
      | init_pending ?w0 _ =>
          assert (H' : init_pending w0 w2)
            by (apply (init_pending_set _ _ _ H);
                [reflexivity | exact (proj2 H)])
      end
  end.

Lemma read_product_id_pending (bus : i2c_bus) (n : nat) :
  forall (i : Z) (w0 w : gt911_world),
    init_pending w0 w ->
    wp (read_product_id bus n i) (fun _ w' => init_pending w0 w') w.
Proof.
  induction n as [| n IH]; intros i w0 w H.
  - exact H.
  - cbn [read_product_id].
    apply wp_bind, wp_read_byte_frame. intros [data |] w1 Hd Hf Hv.
    + pose proof (init_pending_read _ _ _ H Hd Hf) as H1.
      wp_state. wp_state. apply IH.
      apply (init_pending_set _ _ _ H1); [reflexivity | exact (proj2 H1)].
    + apply wp_ret. exact (init_pending_read _ _ _ H Hd Hf).
Qed.

(** [gt911_init] from a driver that is not initialised: a [false] result
    leaves it pending, a [true] result leaves it initialised, and the frame
    holds either way. *)
Lemma gt911_init_pending (bus : i2c_bus) (actual_baudrate : Z)
  (w : gt911_world) :
  initialized (gt911_dev w) = false ->
  wp (gt911_init bus actual_baudrate)
     (fun ok w' => init_frame w w' /\ initialized (gt911_dev w') = ok) w.
Proof.
  intros Hinit.
  assert (H0 : init_pending w w)
    by (split; [apply init_frame_refl | exact Hinit]).
  unfold gt911_init. wp_state. rewrite Hinit.
  apply wp_bind. unfold wp at 1, gt911_i2c_init.
  destruct (actual_baudrate =? 0); cbn [ret fst snd negb];
    [apply wp_ret; exact H0 |].
  init_read H0 H1.
  apply wp_bind.
  pose proof (read_product_id_pending bus (Z.to_nat GT911_PRODUCT_ID_LEN)
                0 w _ H1) as H2.
  unfold wp in H2 |- *.
  destruct (read_product_id bus (Z.to_nat GT911_PRODUCT_ID_LEN) 0 _)
    as [ok w2]. cbn [fst snd] in H2 |- *.
  destruct ok; cbn [negb]; [| apply wp_ret; exact H2].
  init_set H2 H3.
  init_read H3 H4.
  init_read H4 H5. init_set H5 H6.
  init_read H6 H7. init_set H7 H8.
  init_read H8 H9. init_set H9 H10.
  init_read H10 H11. init_set H11 H12.
  wp_state. wp_state. apply wp_ret.
  destruct H12 as [[Hx [Hy [Ha Hc]]] _].
  split; [| reflexivity].
  unfold init_frame. cbn [last_x last_y gt911_dev i2c_log] in *.
  split; [exact Hx |]. split; [exact Hy |]. split; [exact Ha | exact Hc].
Qed.

(** A register read on a bus that answers it with [v]. *)
Lemma wp_read_byte_as (bus : i2c_bus) (reg v : Z)
  (Q : option Z -> gt911_world -> Prop) (w : gt911_world) :
  reads_as bus reg v ->
  Q (Some v) (log_calls w (reg_read_calls (i2c_addr (gt911_dev w)) reg)) ->
  wp (gt911_read_byte bus reg) Q w.
Proof.
  intros H HQ. unfold wp. rewrite (reads_as_read_byte _ _ _ _ H). exact HQ.
Qed.

(** Steps of a run whose world is kept as a record of explicit fields. *)
Ltac world_fields :=
  cbn [fst snd get_dev set_dev get_last_x get_last_y set_last_x set_last_y
       gt911_dev last_x last_y i2c_log log_calls set_product_id
       set_max_x set_max_y set_initialized initialized product_id max_x
       max_y i2c_addr].

Ltac run_state :=
  apply wp_bind; unfold wp at 1; world_fields.

Ltac run_read H :=
  apply wp_bind; apply (wp_read_byte_as _ _ _ _ _ H); world_fields.

(** The five bytes of [product_id] after the four identification bytes and
    the terminator are stored. *)
Lemma product_id_stored (l : list Z) (p0 p1 p2 p3 : Z) :
  length l = 5%nat ->
  list_set 4 0 (list_set 3 p3 (list_set 2 p2 (list_set 1 p1 (list_set 0 p0 l))))
  = [p0; p1; p2; p3; 0].
Proof.
  intros H.
  destruct l as [| a0 [| a1 [| a2 [| a3 [| a4 [| a5 l]]]]]]; try discriminate H.
  reflexivity.
Qed.

(** A register read ends in one of three ways: the address is not
    acknowledged, the read itself fails, or a byte arrives. *)
Lemma wp_read_byte_cases (bus : i2c_bus) (reg : Z)
  (Q : option Z -> gt911_world -> Prop) (w : gt911_world) :
  let a := i2c_addr (gt911_dev w) in
  Q None (log_calls w [I2cWrite a [Z.land (Z.shiftr reg 8) 0xFF;
                                   Z.land reg 0xFF] true]) ->
  Q None (log_calls w (reg_read_calls a reg)) ->
  (forall v, Q (Some v) (log_calls w (reg_read_calls a reg))) ->
  wp (gt911_read_byte bus reg) Q w.
Proof.
  intros a H1 H2 H3. unfold wp. rewrite gt911_read_byte_eq. cbv zeta.
  destruct (i2c_ret _ <? 0); [exact H1 |].
  destruct (i2c_ret _ <? 0); [exact H2 | apply H3].
Qed.

(** The end of a run of [gt911_init]: the flag is as it was at the start,
    or just set, and the log is the start's log and then a known list. *)
Ltac init_end Hinit :=
  apply wp_ret; cbv beta; cbn [negb]; cbv iota;
  lazymatch goal with
  | |- wp (ret _) _ _ => apply wp_ret
  | _ => idtac
  end;
  unfold init_outcome; world_fields;
  split; [first [exact Hinit | reflexivity] |];
  eexists; split; [rewrite <- ?app_assoc; reflexivity |];
  split; [reflexivity | first [discriminate | reflexivity]].

(** One [expect data <- read ;; ...] step of [gt911_init]: the two failing
    outcomes end the run. *)
Ltac init_step Hinit :=
  apply wp_bind; apply wp_read_byte_cases; world_fields;
  [ cbv beta iota; init_end Hinit
  | cbv beta iota; init_end Hinit
  | intros ?; cbv beta iota ].

(** [gt911_init] from a driver that is not initialised, whatever the bus
    does. *)
Lemma gt911_init_trace (bus : i2c_bus) (actual_baudrate : Z)
  (w : gt911_world) :
  initialized (gt911_dev w) = false ->
  wp (gt911_init bus actual_baudrate) (init_outcome w) w.
Proof.
  intros Hinit. unfold gt911_init, gt911_i2c_init. run_state.
  rewrite Hinit. apply wp_bind. unfold wp at 1.
  destruct (actual_baudrate =? 0); cbn [ret fst snd negb].
  { apply wp_ret. split; [exact Hinit |]. exists [].
    rewrite app_nil_r. repeat split. discriminate. }
  init_step Hinit.
  change (Z.to_nat GT911_PRODUCT_ID_LEN) with 4%nat.
  cbn [read_product_id].
  change (GT911_REG_PRODUCT_ID1 + 0) with GT911_REG_PRODUCT_ID1.
  change (0 + 1) with 1. change (1 + 1) with 2. change (2 + 1) with 3.
  apply wp_bind.
  init_step Hinit. run_state. run_state.
  init_step Hinit. run_state. run_state.
  init_step Hinit. run_state. run_state.
  init_step Hinit. run_state. run_state.
  unfold wp at 1. cbn [ret fst snd negb].
  run_state. run_state.
  init_step Hinit.
  init_step Hinit. run_state. run_state.
  init_step Hinit. run_state. run_state.
  init_step Hinit. run_state. run_state.
  init_step Hinit. run_state. run_state.
  run_state. run_state.
  init_end Hinit.
Qed.

Lemma init_reads_are_reads (addr : Z) (n : nat) :
  Forall (fun c => is_reg_read c = true) (firstn n (gt911_init_reads addr)).
Proof.
  assert (Hall : Forall (fun c => is_reg_read c = true)
                   (gt911_init_reads addr)) by (repeat constructor).
  revert n. induction Hall as [| c l Hc _ IH]; intros [| n];
    cbn [firstn]; constructor; [exact Hc | apply IH].
Qed.

(** X1. [gt911_init] returns exactly the flag it leaves in the device
    record and never changes the persisted position or the bus address. On
    the bus it only reads registers, one byte each, in a fixed order: the
    first identification byte as a probe, the four identification bytes,
    the vendor byte, then the X and the Y resolution, low byte first. The
    transactions of a run are the first ones of that sequence (each read
    is the two address bytes written without STOP, then the one-byte read;
    a run that fails stops where it failed), and a run that succeeds on a
    driver that was not initialised has issued all of them. On a driver
    that is already initialised, or when the bus cannot be set up, it does
    nothing at all. *)
Theorem gt911_init_returns_flag :
  forall (bus : i2c_bus) (actual_baudrate : Z) (w : gt911_world),
    let r := gt911_init bus actual_baudrate w in
    let reads := gt911_init_reads (i2c_addr (gt911_dev w)) in
    initialized (gt911_dev (snd r)) = fst r /\
    last_x (snd r) = last_x w /\ last_y (snd r) = last_y w /\
    i2c_addr (gt911_dev (snd r)) = i2c_addr (gt911_dev w) /\
    Forall (fun c => is_reg_read c = true) (new_calls w (snd r)) /\
    (if initialized (gt911_dev w) then r = (true, w)
     else actual_baudrate = 0 -> r = (false, w)) /\
    (exists n : nat, new_calls w (snd r) = firstn n reads) /\
    (initialized (gt911_dev w) = false -> fst r = true ->
     new_calls w (snd r) = reads) /\
    reads
      = [I2cWrite (i2c_addr (gt911_dev w)) [0x81; 0x40] true;
         I2cRead (i2c_addr (gt911_dev w)) 1 false;
         I2cWrite (i2c_addr (gt911_dev w)) [0x81; 0x40] true;
         I2cRead (i2c_addr (gt911_dev w)) 1 false;
         I2cWrite (i2c_addr (gt911_dev w)) [0x81; 0x41] true;
         I2cRead (i2c_addr (gt911_dev w)) 1 false;
         I2cWrite (i2c_addr (gt911_dev w)) [0x81; 0x42] true;
         I2cRead (i2c_addr (gt911_dev w)) 1 false;
         I2cWrite (i2c_addr (gt911_dev w)) [0x81; 0x43] true;
         I2cRead (i2c_addr (gt911_dev w)) 1 false;
         I2cWrite (i2c_addr (gt911_dev w)) [0x81; 0x4A] true;
         I2cRead (i2c_addr (gt911_dev w)) 1 false;
         I2cWrite (i2c_addr (gt911_dev w)) [0x81; 0x46] true;
         I2cRead (i2c_addr (gt911_dev w)) 1 false;
         I2cWrite (i2c_addr (gt911_dev w)) [0x81; 0x47] true;
         I2cRead (i2c_addr (gt911_dev w)) 1 false;
         I2cWrite (i2c_addr (gt911_dev w)) [0x81; 0x48] true;
         I2cRead (i2c_addr (gt911_dev w)) 1 false;
         I2cWrite (i2c_addr (gt911_dev w)) [0x81; 0x49] true;
         I2cRead (i2c_addr (gt911_dev w)) 1 false].
Proof.
  intros bus baud w r reads. subst r.
  destruct (initialized (gt911_dev w)) eqn:Hinit.
  - assert (Hrun : gt911_init bus baud w = (true, w))
      by (unfold gt911_init, bind, get_dev; rewrite Hinit; reflexivity).
    rewrite Hrun. cbn [fst snd].
    assert (Hnone : new_calls w w = [])
      by (unfold new_calls; apply skipn_all).
    rewrite Hnone.
    repeat split; try assumption; try constructor.
    + exists 0%nat. reflexivity.
    + discriminate.
  - pose proof (gt911_init_pending bus baud w Hinit) as H.
    pose proof (gt911_init_trace bus baud w Hinit) as Ht.
    unfold wp in H, Ht.
    destruct H as [[Hx [Hy [Ha [calls [Hl Hr]]]]] Hflag].
    destruct Ht as [_ [calls' [Hl' [Hpre Hall]]]].
    rewrite (new_calls_log_calls _ _ _ Hl').
    split; [exact Hflag |]. split; [exact Hx |]. split; [exact Hy |].
    split; [exact Ha |].
    split; [rewrite Hpre; apply init_reads_are_reads |].
    split.
    { intros ->. unfold gt911_init, bind, get_dev. rewrite Hinit.
      reflexivity. }
    split; [exists (length calls'); exact Hpre |].
    split; [intros _ Hok; exact (Hall Hok) | reflexivity].
Qed.

(** X2. A successful [gt911_init]: when the bus can be set up and the ten
    register reads succeed, the driver is initialised, [product_id] holds
    the four identification bytes and a terminating zero, [max_x] and
    [max_y] are the values of the resolution registers read low byte
    first, and the transactions issued are exactly the ten register reads
    of [gt911_init_registers], in that order (twenty transactions: the
    first identification byte is read twice, once as a probe). *)
Theorem gt911_init_reads_identity :
  forall (bus : i2c_bus) (actual_baudrate : Z) (w : gt911_world)
         (p0 p1 p2 p3 vendor xl xh yl yh : Z),
    initialized (gt911_dev w) = false ->
    actual_baudrate <> 0 ->
    length (product_id (gt911_dev w)) = 5%nat ->
    reads_as bus GT911_REG_PRODUCT_ID1 p0 ->
    reads_as bus (GT911_REG_PRODUCT_ID1 + 1) p1 ->
    reads_as bus (GT911_REG_PRODUCT_ID1 + 2) p2 ->
    reads_as bus (GT911_REG_PRODUCT_ID1 + 3) p3 ->
    reads_as bus GT911_REG_VENDOR_ID vendor ->
    reads_as bus GT911_REG_X_RES_L xl ->
    reads_as bus GT911_REG_X_RES_H xh ->
    reads_as bus GT911_REG_Y_RES_L yl ->
    reads_as bus GT911_REG_Y_RES_H yh ->
    let r := gt911_init bus actual_baudrate w in
    fst r = true /\
    gt911_dev (snd r)
      = {| initialized := true; product_id := [p0; p1; p2; p3; 0];
           max_x := xl + 256 * xh; max_y := yl + 256 * yh;
           i2c_addr := i2c_addr (gt911_dev w) |} /\
    length (new_calls w (snd r)) = 20%nat /\
    new_calls w (snd r)
      = flat_map (reg_read_calls (i2c_addr (gt911_dev w)))
          [GT911_REG_PRODUCT_ID1;
           GT911_REG_PRODUCT_ID1; GT911_REG_PRODUCT_ID1 + 1;
           GT911_REG_PRODUCT_ID1 + 2; GT911_REG_PRODUCT_ID1 + 3;
           GT911_REG_VENDOR_ID;
           GT911_REG_X_RES_L; GT911_REG_X_RES_H;
           GT911_REG_Y_RES_L; GT911_REG_Y_RES_H].
Proof.
  intros bus baud w p0 p1 p2 p3 vendor xl xh yl yh
         Hinit Hbaud Hlen H0 H1 H2 H3 Hv Hxl Hxh Hyl Hyh r. subst r.
  pose proof (reads_as_byte _ _ _ Hxl). pose proof (reads_as_byte _ _ _ Hxh).
  pose proof (reads_as_byte _ _ _ Hyl). pose proof (reads_as_byte _ _ _ Hyh).
  set (a := i2c_addr (gt911_dev w)).
  assert (Hrun : wp (gt911_init bus baud)
            (fun ok w' =>
               ok = true /\
               gt911_dev w'
                 = {| initialized := true; product_id := [p0; p1; p2; p3; 0];
                      max_x := xl + 256 * xh; max_y := yl + 256 * yh;
                      i2c_addr := a |} /\
               exists calls, i2c_log w' = i2c_log w ++ calls /\
                             length calls = 20%nat /\
                             calls = gt911_init_reads a) w).
  { unfold gt911_init, gt911_i2c_init. run_state. rewrite Hinit.
    apply wp_bind. unfold wp at 1.
    destruct (Z.eqb_spec baud 0) as [E | _]; [contradiction |].
    cbn [ret fst snd negb].
    run_read H0.
    change (Z.to_nat GT911_PRODUCT_ID_LEN) with 4%nat.
    cbn [read_product_id].
    change (GT911_REG_PRODUCT_ID1 + 0) with GT911_REG_PRODUCT_ID1.
    change (0 + 1) with 1. change (1 + 1) with 2. change (2 + 1) with 3.
    change (Z.to_nat 0) with 0%nat. change (Z.to_nat 1) with 1%nat.
    change (Z.to_nat 2) with 2%nat. change (Z.to_nat 3) with 3%nat.
    apply wp_bind.
    run_read H0. run_state. run_state.
    run_read H1. run_state. run_state.
    run_read H2. run_state. run_state.
    run_read H3. run_state. run_state.
    unfold wp at 1. cbn [ret fst snd negb].
    run_state. run_state.
    run_read Hv.
    run_read Hxl. run_state. run_state.
    run_read Hxh. run_state. run_state.
    run_read Hyl. run_state. run_state.
    run_read Hyh. run_state. run_state.
    run_state. run_state.
    apply wp_ret. split; [reflexivity |]. split.
    - rewrite (product_id_stored _ p0 p1 p2 p3 Hlen).
      rewrite !le16_bytes by assumption. reflexivity.
    - eexists. split; [rewrite <- !app_assoc; reflexivity |].
      split; reflexivity. }
  unfold wp in Hrun.
  destruct Hrun as [Hok [Hdev [calls [Hlog [Hcount Hcalls]]]]].
  split; [exact Hok |]. split; [exact Hdev |].
  rewrite (new_calls_log_calls _ _ _ Hlog).
  split; [exact Hcount | exact Hcalls].
Qed.

(** ** More on [gt911_read_touch] *)

(** X3. A single-touch read puts each coordinate together from its two
    registers, low byte first: x = X_L + 256 * X_H and y = Y_L + 256 * Y_H,
    whatever position was persisted before; the result is reported as
    pressed and persisted. *)
Theorem gt911_read_touch_little_endian :
  forall (bus : i2c_bus) (w : gt911_world) (s xl xh yl yh : Z),
    initialized (gt911_dev w) = true ->
    reads_as bus GT911_REG_STATUS s ->
    status_point_count s = 1 ->
    reads_as bus GT911_REG_PT1_X_L xl ->
    reads_as bus GT911_REG_PT1_X_H xh ->
    reads_as bus GT911_REG_PT1_Y_L yl ->
    reads_as bus GT911_REG_PT1_Y_H yh ->
    let r := gt911_read_touch bus w in
    fst r = Some {| ts_x := xl + 256 * xh; ts_y := yl + 256 * yh;
                    ts_pressed := true |} /\
    last_x (snd r) = xl + 256 * xh /\
    last_y (snd r) = yl + 256 * yh.
Proof.
  intros bus w s xl xh yl yh Hinit Hs Hcount Hxl Hxh Hyl Hyh r. subst r.
  pose proof (reads_as_byte _ _ _ Hxl). pose proof (reads_as_byte _ _ _ Hxh).
  pose proof (reads_as_byte _ _ _ Hyl). pose proof (reads_as_byte _ _ _ Hyh).
  rewrite (gt911_read_touch_single bus w s xl xh yl yh
             Hinit Hs Hcount Hxl Hxh Hyl Hyh).
  cbn [fst snd last_x last_y]. rewrite !le16_bytes by assumption.
  repeat split; reflexivity.
Qed.

(** X3 on the controller that reports one point at (356,200). *)
Lemma gt911_read_touch_little_endian_witness :
  fst (gt911_read_touch (gt911_device far_touch_regs 3) gt911_ready)
  = Some {| ts_x := 0x64 + 256 * 0x01; ts_y := 0xC8 + 256 * 0x00;
            ts_pressed := true |}.
Proof.
  apply (gt911_read_touch_little_endian
           (gt911_device far_touch_regs 3) gt911_ready 0x81
           0x64 0x01 0xC8 0x00 eq_refl
           (gt911_device_reads_as far_touch_regs 3 GT911_REG_STATUS
              ltac:(in_range))
           eq_refl
           (gt911_device_reads_as far_touch_regs 3 GT911_REG_PT1_X_L
              ltac:(in_range))
           (gt911_device_reads_as far_touch_regs 3 GT911_REG_PT1_X_H
              ltac:(in_range))
           (gt911_device_reads_as far_touch_regs 3 GT911_REG_PT1_Y_L
              ltac:(in_range))
           (gt911_device_reads_as far_touch_regs 3 GT911_REG_PT1_Y_H
              ltac:(in_range))).
Defined.

(** Facts about the persisted position along a run, from the frames of the
    steps taken so far. *)
Ltac range_facts :=
  repeat match goal with
         | H : forall v, Some ?d = Some v -> _ |- _ =>
             specialize (H d eq_refl)
         | H : init_frame _ _ |- _ =>
             destruct H as [? [? _]]
         | H : position_in_range _ |- _ =>
             destruct H as [? ?]
         end;
  cbn [last_x last_y] in *.

(** Every [uint16] value in sight is in range. *)
Ltac uint16_facts :=
  repeat match goal with
         | |- context [uint16 ?z] =>
             pose proof (uint16_range z);
             generalize dependent (uint16 z); intros
         | H : context [uint16 ?z] |- _ =>
             pose proof (uint16_range z);
             generalize dependent (uint16 z); intros
         end.

Ltac range_exit :=
  apply wp_ret; range_facts;
  split;
  [ unfold position_in_range; cbn [last_x last_y]; uint16_facts; lia
  | first [ discriminate
          | let s := fresh "s" in
            let E := fresh "E" in
            intros s E; injection E as <-; cbn [ts_x ts_y];
            uint16_facts; lia ] ].

(** X4. The persisted position stays a pair of 16-bit values through any
    call of [gt911_read_touch], successful or not, and every sample the call
    returns has both coordinates in 0..65535. *)
Theorem gt911_read_touch_keeps_range :
  forall (bus : i2c_bus) (w : gt911_world),
    position_in_range w ->
    let r := gt911_read_touch bus w in
    position_in_range (snd r) /\
    (forall s, fst r = Some s ->
               0 <= ts_x s < 65536 /\ 0 <= ts_y s < 65536).
Proof.
  intros bus w Hr r. subst r.
  change (wp (gt911_read_touch bus)
            (fun r w' => position_in_range w' /\
                         (forall s, r = Some s ->
                                    0 <= ts_x s < 65536 /\
                                    0 <= ts_y s < 65536)) w).
  unfold gt911_read_touch. wp_state.
  destruct (initialized (gt911_dev w)); cbn [negb]; [| range_exit].
  apply wp_bind, wp_read_byte_frame. intros [s |] w1 _ Hf1 _; [| range_exit].
  apply wp_bind, wp_clear_guard. intros w2 _ Hx2 Hy2.
  assert (Hr2 : position_in_range w2)
    by (range_facts; unfold position_in_range; lia).
  clear Hr Hf1 Hx2 Hy2.
  destruct (_ =? 1).
  - apply wp_bind, wp_read_byte_frame.
    intros [d1 |] w3 _ Hf3 Hv3; [| range_exit].
    wp_state.
    apply wp_bind, wp_read_byte_frame.
    intros [d2 |] w4 _ Hf4 Hv4; [| range_exit].
    wp_state. wp_state.
    apply wp_bind, wp_read_byte_frame.
    intros [d3 |] w5 _ Hf5 Hv5; [| range_exit].
    wp_state.
    apply wp_bind, wp_read_byte_frame.
    intros [d4 |] w6 _ Hf6 Hv6; [| range_exit].
    wp_state. wp_state. wp_state. wp_state.
    range_exit.
  - wp_state. wp_state. range_exit.
Qed.

Lemma gt911_read_touch_keeps_range_witness :
  position_in_range
    (snd (gt911_read_touch (gt911_device far_touch_regs 3) gt911_ready)).
Proof.
  apply (gt911_read_touch_keeps_range (gt911_device far_touch_regs 3)
           gt911_ready).
  split; vm_compute; intuition discriminate.
Defined.

(** ** [gt911_i2c_write_reg] *)

(** X5. [gt911_i2c_write_reg] refuses a null buffer, an empty payload and a
    payload of more than 30 bytes (the 32-byte buffer less the two address
    bytes) without touching the bus or the state. Otherwise it issues
    exactly one write with STOP whose payload is the register address, high
    byte first, followed by the first [len] bytes of the data, [len + 2]
    bytes in all, and it succeeds exactly when the bus returns a positive
    count. *)
Theorem gt911_i2c_write_reg_bounds :
  forall (bus : i2c_bus) (reg : Z) (data : option (list Z)) (len : Z)
         (w : gt911_world),
    let r := gt911_i2c_write_reg bus reg data len w in
    (data = None \/ len = 0 \/ 30 < len -> r = (false, w)) /\
    (forall bytes,
        data = Some bytes -> 0 < len <= 30 ->
        len <= Z.of_nat (length bytes) ->
        let payload := [Z.land (Z.shiftr reg 8) 0xFF; Z.land reg 0xFF]
                         ++ firstn (Z.to_nat len) bytes in
        let call := I2cWrite (i2c_addr (gt911_dev w)) payload false in
        snd r = log_calls w [call] /\
        Z.of_nat (length payload) = len + 2 /\
        fst r = (0 <? i2c_ret (bus (i2c_log w) call))).
Proof.
  intros bus reg data len w r. subst r. unfold gt911_i2c_write_reg. split.
  - intros [-> | [-> | Hlong]]; [reflexivity | destruct data; reflexivity |].
    destruct data as [bytes |]; [| reflexivity].
    destruct (Z.eqb_spec len 0); [reflexivity |].
    rewrite Z.gtb_ltb. destruct (Z.ltb_spec 32 (len + 2)); [reflexivity | lia].
  - intros bytes Hdata Hlen Hbytes. subst data.
    set (payload := [Z.land (Z.shiftr reg 8) 255; Z.land reg 255]
                      ++ firstn (Z.to_nat len) bytes).
    set (call := I2cWrite (i2c_addr (gt911_dev w)) payload false).
    destruct (Z.eqb_spec len 0); [lia |].
    rewrite Z.gtb_ltb. destruct (Z.ltb_spec 32 (len + 2)); [lia |].
    unfold bind, get_dev, i2c_write_blocking, i2c_transact, ret.
    cbn [fst snd].
    split; [reflexivity |]. split; [| apply Z.gtb_ltb].
    subst payload. rewrite length_app, firstn_length_le by lia.
    cbn [length]. lia.
Qed.

Lemma gt911_i2c_write_reg_bounds_witness :
  gt911_i2c_write_reg (gt911_device touch_regs 3) GT911_REG_STATUS
    (Some (repeat 0 31)) 31 gt911_ready = (false, gt911_ready) /\
  new_calls gt911_ready
    (snd (gt911_i2c_write_reg (gt911_device touch_regs 3) 0x8040
            (Some [0x05; 0x06; 0x07]) 2 gt911_ready))
  = [I2cWrite GT911_I2C_ADDR [0x80; 0x40; 0x05; 0x06] false].
Proof.
  split.
  - apply (proj1 (gt911_i2c_write_reg_bounds (gt911_device touch_regs 3)
                    GT911_REG_STATUS (Some (repeat 0 31)) 31 gt911_ready)).
    right. right. reflexivity.
  - rewrite (proj1 (proj2 (gt911_i2c_write_reg_bounds
                             (gt911_device touch_regs 3) 0x8040
                             (Some [0x05; 0x06; 0x07]) 2 gt911_ready)
                      [0x05; 0x06; 0x07] eq_refl
                      ltac:(vm_compute; intuition discriminate)
                      ltac:(vm_compute; discriminate))).
    reflexivity.
Defined.

(** X6. The direct three-byte send of [gt911_clear_status] is the same
    transaction, and leaves the same state, as the wrapped call
    [gt911_i2c_write_reg(GT911_REG_STATUS, &clear_data, 1)] that the source
    keeps as its first method; only the result of the write is dropped. *)
Theorem gt911_clear_status_is_write_reg :
  forall (bus : i2c_bus) (w : gt911_world),
    snd (gt911_clear_status bus w)
    = snd (gt911_i2c_write_reg bus GT911_REG_STATUS (Some [0x00]) 1 w) /\
    new_calls w (snd (gt911_clear_status bus w))
    = [I2cWrite (i2c_addr (gt911_dev w)) [0x81; 0x4E; 0x00] false].
Proof.
  intros bus w. split; [reflexivity |].
  rewrite gt911_clear_status_eq. cbn [snd].
  apply new_calls_log_calls. reflexivity.
Qed.

(** ** The input bridge *)

Lemma gt911_read_touch_uninit (bus : i2c_bus) (w : gt911_world) :
  initialized (gt911_dev w) = false ->
  gt911_read_touch bus w = (None, w).
Proof.
  intros H. unfold gt911_read_touch, bind, get_dev. rewrite H. reflexivity.
Qed.

(** One call of [touchpad_read]: either the driver reported a press, which
    is passed on and cached, or the cached point is reported as released
    and kept. *)
Lemma touchpad_read_cases (bus : i2c_bus) (w : indev_world) :
  let d := fst (touchpad_read bus w) in
  let w' := snd (touchpad_read bus w) in
  continue_reading d = false /\
  indev_gt911 w' = snd (gt911_read_touch bus (indev_gt911 w)) /\
  ((indev_state d = LV_INDEV_STATE_PR /\
    indev_last_x w' = point_x d /\ indev_last_y w' = point_y d /\
    exists s, fst (gt911_read_touch bus (indev_gt911 w)) = Some s /\
              ts_pressed s = true /\
              point_x d = int16 (ts_x s) /\ point_y d = int16 (ts_y s))
   \/
   (indev_state d = LV_INDEV_STATE_REL /\
    point_x d = indev_last_x w /\ point_y d = indev_last_y w /\
    indev_last_x w' = indev_last_x w /\ indev_last_y w' = indev_last_y w /\
    forall s, fst (gt911_read_touch bus (indev_gt911 w)) = Some s ->
              ts_pressed s = false)).
Proof.
  unfold touchpad_read.
  destruct (gt911_read_touch bus (indev_gt911 w)) as [[s |] g].
  - destruct (ts_pressed s) eqn:Hp; cbn [fst snd].
    + split; [reflexivity |]. split; [reflexivity |]. left.
      repeat split. exists s. repeat split. exact Hp.
    + split; [reflexivity |]. split; [reflexivity |]. right.
      repeat split. intros s' E. injection E as <-. exact Hp.
  - cbn [fst snd]. split; [reflexivity |]. split; [reflexivity |]. right.
    repeat split. intros s' E. discriminate E.
Qed.

Lemma last_pressed_app (start : Z * Z) (pre post : list lv_indev_data_t) :
  last_pressed start (pre ++ post) = last_pressed (last_pressed start pre) post.
Proof.
  revert start. induction pre as [| d pre IH]; intros start; [reflexivity |].
  cbn [app last_pressed]. destruct (indev_state d); apply IH.
Qed.

(** X7. Over any run of polls, whatever the bus does (failed reads
    included), every sample that [touchpad_read] reports as released carries
    the point of the most recent sample it reported as pressed (the cached
    point of the start when there is none), no sample asks to continue
    reading, and at the end the cache holds the point of the last press
    reported. *)
Theorem touchpad_poll_reports_last_press :
  forall (buses : list i2c_bus) (w : indev_world),
    let r := touchpad_poll buses w in
    let start := (indev_last_x w, indev_last_y w) in
    (indev_last_x (snd r), indev_last_y (snd r)) = last_pressed start (fst r) /\
    length (fst r) = length buses /\
    (forall pre d post,
        fst r = pre ++ d :: post ->
        continue_reading d = false /\
        (indev_state d = LV_INDEV_STATE_REL ->
         (point_x d, point_y d) = last_pressed start pre)).
Proof.
  induction buses as [| b tl IH]; intros w r start; subst r start.
  - cbn [touchpad_poll fst snd last_pressed length].
    split; [reflexivity |]. split; [reflexivity |].
    intros pre d post E. destruct pre; discriminate E.
  - cbn [touchpad_poll].
    pose proof (touchpad_read_cases b w) as Hc. cbv zeta in Hc.
    destruct (touchpad_read b w) as [d0 w1]. cbn [fst snd] in Hc.
    specialize (IH w1). cbv zeta in IH.
    destruct (touchpad_poll tl w1) as [ds w2]. cbn [fst snd] in IH |- *.
    destruct IH as [IHc [IHl IHs]].
    destruct Hc as [Hcr [_ Hcase]].
    assert (Hstart : last_pressed (indev_last_x w, indev_last_y w) [d0]
                     = (indev_last_x w1, indev_last_y w1)).
    { cbn [last_pressed].
      destruct Hcase as [[Hst [Hx [Hy _]]] | [Hst [_ [_ [Hx [Hy _]]]]]];
        rewrite Hst, Hx, Hy; reflexivity. }
    split; [| split].
    + change (d0 :: ds) with ([d0] ++ ds).
      rewrite last_pressed_app, Hstart. exact IHc.
    + cbn [length]. rewrite IHl. reflexivity.
    + intros pre d post E. destruct pre as [| p pre].
      * cbn [app] in E. injection E as <- _. split; [exact Hcr |].
        intros Hrel. cbn [last_pressed].
        destruct Hcase as [[Hst _] | [_ [Hx [Hy _]]]];
          [congruence | rewrite Hx, Hy; reflexivity].
      * cbn [app] in E. injection E as <- E.
        destruct (IHs pre d post E) as [Hcr' Hrel'].
        split; [exact Hcr' |]. intros Hrel.
        change (d0 :: pre) with ([d0] ++ pre).
        rewrite last_pressed_app, Hstart. apply Hrel'. exact Hrel.
Qed.

(** X8. When [gt911_init] fails inside [touchpad_init], the bridge reports
    "released" at the cached point on every later poll, whatever the
    controller then does, and none of these polls issues a bus
    transaction. *)
Theorem touchpad_dead_after_failed_init :
  forall (bus : i2c_bus) (actual_baudrate : Z) (w : indev_world)
         (buses : list i2c_bus),
    fst (gt911_init bus actual_baudrate (indev_gt911 w)) = false ->
    let w1 := snd (touchpad_init bus actual_baudrate w) in
    let r := touchpad_poll buses w1 in
    fst r = map (fun _ => {| point_x := indev_last_x w;
                             point_y := indev_last_y w;
                             indev_state := LV_INDEV_STATE_REL;
                             continue_reading := false |}) buses /\
    snd r = w1.
Proof.
  intros bus baud w buses Hfail w1 r. subst r.
  assert (Hinit : initialized (gt911_dev (indev_gt911 w1)) = false).
  { subst w1. unfold touchpad_init.
    destruct (initialized (gt911_dev (indev_gt911 w))) eqn:Hi.
    - exfalso. revert Hfail. unfold gt911_init, bind, get_dev.
      rewrite Hi. discriminate.
    - pose proof (gt911_init_pending bus baud _ Hi) as H. unfold wp in H.
      destruct (gt911_init bus baud (indev_gt911 w)) as [ok g].
      cbn [fst snd indev_gt911] in *. destruct H as [_ H].
      rewrite H. exact Hfail. }
  assert (Hx : indev_last_x w1 = indev_last_x w)
    by (subst w1; unfold touchpad_init;
        destruct (gt911_init bus baud (indev_gt911 w)); reflexivity).
  assert (Hy : indev_last_y w1 = indev_last_y w)
    by (subst w1; unfold touchpad_init;
        destruct (gt911_init bus baud (indev_gt911 w)); reflexivity).
  rewrite <- Hx, <- Hy. clearbody w1. clear Hx Hy Hfail.
  induction buses as [| b tl IH]; [split; reflexivity |].
  cbn [touchpad_poll map].
  assert (Hread : touchpad_read b w1
                  = ({| point_x := indev_last_x w1; point_y := indev_last_y w1;
                        indev_state := LV_INDEV_STATE_REL;
                        continue_reading := false |}, w1)).
  { unfold touchpad_read. rewrite (gt911_read_touch_uninit b _ Hinit).
    destruct w1; reflexivity. }
  rewrite Hread. destruct (touchpad_poll tl w1) as [ds w2].
  cbn [fst snd] in IH |- *. destruct IH as [-> ->]. split; reflexivity.
Qed.

Lemma touchpad_dead_after_failed_init_witness :
  fst (touchpad_poll [gt911_device touch_regs 3; gt911_device touch_regs 3]
         (snd (touchpad_init (gt911_device (regs_of id_regs) 3) 0
                 indev_boot)))
  = [{| point_x := 0; point_y := 0; indev_state := LV_INDEV_STATE_REL;
        continue_reading := false |};
     {| point_x := 0; point_y := 0; indev_state := LV_INDEV_STATE_REL;
        continue_reading := false |}].
Proof.
  apply (proj1 (touchpad_dead_after_failed_init
                  (gt911_device (regs_of id_regs) 3) 0 indev_boot
                  [gt911_device touch_regs 3; gt911_device touch_regs 3]
                  eq_refl)).
Defined.

(** X2 on the controller behind a 320x480 panel. *)
Lemma gt911_init_reads_identity_witness :
  gt911_dev (snd (gt911_init (gt911_device (regs_of id_regs) 3) 100000
                    gt911_boot))
  = {| initialized := true; product_id := [57; 49; 49; 0; 0];
       max_x := 0x40 + 256 * 0x01; max_y := 0xE0 + 256 * 0x01;
       i2c_addr := GT911_I2C_ADDR |}.
Proof.
  apply (proj1 (proj2
    (gt911_init_reads_identity (gt911_device (regs_of id_regs) 3) 100000
       gt911_boot 57 49 49 0 0 0x40 0x01 0xE0 0x01
       eq_refl ltac:(discriminate) eq_refl
       (gt911_device_reads_as (regs_of id_regs) 3 GT911_REG_PRODUCT_ID1
          ltac:(in_range))
       (gt911_device_reads_as (regs_of id_regs) 3 (GT911_REG_PRODUCT_ID1 + 1)
          ltac:(in_range))
       (gt911_device_reads_as (regs_of id_regs) 3 (GT911_REG_PRODUCT_ID1 + 2)
          ltac:(in_range))
       (gt911_device_reads_as (regs_of id_regs) 3 (GT911_REG_PRODUCT_ID1 + 3)
          ltac:(in_range))
       (gt911_device_reads_as (regs_of id_regs) 3 GT911_REG_VENDOR_ID
          ltac:(in_range))
       (gt911_device_reads_as (regs_of id_regs) 3 GT911_REG_X_RES_L
          ltac:(in_range))
       (gt911_device_reads_as (regs_of id_regs) 3 GT911_REG_X_RES_H
          ltac:(in_range))
       (gt911_device_reads_as (regs_of id_regs) 3 GT911_REG_Y_RES_L
          ltac:(in_range))
       (gt911_device_reads_as (regs_of id_regs) 3 GT911_REG_Y_RES_H
          ltac:(in_range))))).
Defined.

(** ** The display driver: traces *)

Lemma emits_ret {A} (a : A) (w : lcd_world) : emits (ret a) w [].
Proof. split; [cbn; rewrite app_nil_r |]; reflexivity. Qed.

Lemma emits_bind {A B} (m : L A) (k : A -> L B) (w : lcd_world)
  (a b : list lcd_event) :
  emits m w a -> emits (k (fst (m w))) (snd (m w)) b ->
  emits (bind m k) w (a ++ b).
Proof.
  unfold emits. intros [Ha Ea] [Hb Eb]. rewrite snd_bind.
  rewrite Hb, Ha, Eb, Ea, app_assoc. split; reflexivity.
Qed.

Lemma emits_new_events {A} (m : L A) (w : lcd_world)
  (events : list lcd_event) :
  emits m w events -> new_events w (snd (m w)) = events.
Proof. intros [H _]. exact (new_events_app _ _ _ H). Qed.

Lemma emits_write_cmd (cmd : Z) (w : lcd_world) :
  emits (st7796_write_cmd cmd) w (write_cmd_events cmd).
Proof. exact (st7796_write_cmd_run cmd w). Qed.

Lemma emits_write_data (bytes : list Z) (len : Z) (w : lcd_world) :
  len <> 0 ->
  emits (st7796_write_data (Some bytes) len) w
    (write_data_events (firstn (Z.to_nat len) bytes)).
Proof.
  intros Hlen. unfold emits, st7796_write_data, write_data_events.
  destruct (Z.eqb_spec len 0) as [E | _]; [contradiction |].
  run_lcd. split; reflexivity.
Qed.

Lemma emits_sleep_us (us : Z) (w : lcd_world) :
  emits (sleep_us us) w [SleepUs us].
Proof. split; reflexivity. Qed.

Lemma emits_gpio_put (pin : Z) (value : bool) (w : lcd_world) :
  emits (gpio_put pin value) w [GpioPut pin value].
Proof. split; reflexivity. Qed.

Lemma emits_set_window (wx1 wy1 wx2 wy2 : Z) (w : lcd_world) :
  emits (st7796_set_window wx1 wy1 wx2 wy2) w
    (set_window_events wx1 wy1 wx2 wy2).
Proof. exact (st7796_set_window_run wx1 wy1 wx2 wy2 w). Qed.

Lemma emits_hw_reset (w : lcd_world) :
  emits st7796_hw_reset w hw_reset_events.
Proof.
  unfold st7796_hw_reset, LCD_RST_HIGH, LCD_RST_LOW, sleep_ms.
  change (100 * 1000) with 100000.
  repeat (eapply (emits_bind _ _ _ [_]);
          [first [apply emits_gpio_put | apply emits_sleep_us] |]).
  apply emits_sleep_us.
Qed.

Lemma emits_gpio_init (w : lcd_world) :
  emits st7796_gpio_init w gpio_init_events.
Proof.
  unfold st7796_gpio_init.
  repeat (eapply (emits_bind _ _ _ [_]); [apply emits_gpio_put |]).
  apply emits_gpio_put.
Qed.

Lemma emits_send_init_cmds (table : list lcd_init_cmd_t) :
  forall w : lcd_world,
    emits (send_init_cmds table) w
      (flat_map entry_events (before_marker table)).
Proof.
  induction table as [| e rest IH]; intros w;
    cbn [send_init_cmds before_marker].
  - apply emits_ret.
  - destruct (init_databytes e =? 0xFF); [apply emits_ret |].
    cbn [flat_map]. unfold entry_events. cbv zeta.
    rewrite <- !app_assoc.
    apply emits_bind; [apply emits_write_cmd |].
    apply emits_bind.
    { destruct (Z.land (init_databytes e) 31 >? 0) eqn:Hlen;
        [apply emits_write_data; lia | apply emits_ret]. }
    apply emits_bind; [| apply IH].
    destruct (negb (Z.land (init_databytes e) 128 =? 0));
      [apply emits_sleep_us | apply emits_ret].
Qed.

(** ** The display driver: framing *)

Lemma framed_from_app (a b : list lcd_event) :
  forall cs_low sent,
    (cs_low = false -> sent = false) ->
    framed_from cs_low sent a = true -> framed b = true ->
    framed_from cs_low sent (a ++ b) = true.
Proof.
  induction a as [| e a IH]; intros cs_low sent Hst Ha Hb.
  - cbn [app]. cbn [framed_from] in Ha.
    destruct cs_low; [discriminate Ha |].
    rewrite (Hst eq_refl). exact Hb.
  - cbn [app]. destruct e as [pin value | cs dc bytes | us |];
      cbn [framed_from] in Ha |- *.
    + destruct (pin =? ST7796_PIN_CS).
      * destruct value.
        -- apply andb_true_iff in Ha as [H1 H2]. rewrite H1.
           apply IH; [reflexivity | exact H2 | exact Hb].
        -- apply andb_true_iff in Ha as [H1 H2]. rewrite H1.
           apply IH; [discriminate | exact H2 | exact Hb].
      * destruct (pin =? ST7796_PIN_DC).
        -- apply andb_true_iff in Ha as [H1 H2]. rewrite H1.
           apply IH; assumption.
        -- apply IH; assumption.
    + apply andb_true_iff in Ha as [H1 H2]. rewrite H1.
      apply andb_true_iff in H1 as [H1 _].
      apply andb_true_iff in H1 as [H1 _].
      apply IH; [rewrite H1; discriminate | exact H2 | exact Hb].
    + apply IH; assumption.
    + apply IH; assumption.
Qed.

Lemma framed_app (a b : list lcd_event) :
  framed a = true -> framed b = true -> framed (a ++ b) = true.
Proof. intros Ha Hb. apply framed_from_app; auto. Qed.

Lemma framed_write_cmd (cmd : Z) : framed (write_cmd_events cmd) = true.
Proof. reflexivity. Qed.

Lemma framed_write_data (payload : list Z) :
  framed (write_data_events payload) = true.
Proof. reflexivity. Qed.

Lemma framed_write_color (payload : list Z) :
  framed (write_color_events payload) = true.
Proof. reflexivity. Qed.

Lemma framed_set_window (wx1 wy1 wx2 wy2 : Z) :
  framed (set_window_events wx1 wy1 wx2 wy2) = true.
Proof. reflexivity. Qed.

Lemma framed_entry (e : lcd_init_cmd_t) : framed (entry_events e) = true.
Proof.
  unfold entry_events. cbv zeta.
  apply framed_app; [apply framed_write_cmd |].
  apply framed_app.
  - destruct (_ >? 0); [apply framed_write_data | reflexivity].
  - destruct (negb _); reflexivity.
Qed.

Lemma framed_table (entries : list lcd_init_cmd_t) :
  framed (flat_map entry_events entries) = true.
Proof.
  induction entries as [| e rest IH]; [reflexivity |].
  cbn [flat_map]. apply framed_app; [apply framed_entry | exact IH].
Qed.

(** ** The display driver: reading a trace *)

Lemma bursts_app (a b : list lcd_event) :
  bursts (a ++ b) = bursts a ++ bursts b.
Proof.
  induction a as [| e a IH]; [reflexivity |].
  destruct e; cbn [app bursts]; rewrite IH; reflexivity.
Qed.

Lemma commands_app (a b : list lcd_event) :
  commands (a ++ b) = commands a ++ commands b.
Proof.
  induction a as [| e a IH]; [reflexivity |].
  destruct e as [pin value | cs [|] [| c [| c' bytes]] | us |];
    cbn [app commands]; rewrite IH; reflexivity.
Qed.

Lemma bursts_entry (e : lcd_init_cmd_t) :
  bursts (entry_events e) = entry_bursts e.
Proof.
  unfold entry_events, entry_bursts. cbv zeta.
  destruct (_ >? 0); destruct (negb _); reflexivity.
Qed.

Lemma commands_bursts (events : list lcd_event) :
  commands events
  = flat_map (fun b => match b with
                       | (false, [c]) => [c]
                       | _ => []
                       end) (bursts events).
Proof.
  induction events as [| e tl IH]; [reflexivity |].
  destruct e as [pin value | cs [|] [| c [| c' bytes]] | us |];
    cbn [commands bursts flat_map app]; rewrite IH; reflexivity.
Qed.

Lemma pauses_entry (e : lcd_init_cmd_t) (last : option Z)
  (rest : list lcd_event) :
  pauses_from last (entry_events e ++ rest)
  = (if init_delayed e then [(Some (init_cmd e), 100000)] else [])
    ++ pauses_from (Some (init_cmd e)) rest.
Proof.
  unfold entry_events, init_delayed. cbv zeta.
  destruct (_ >? 0); destruct (negb _); reflexivity.
Qed.

Lemma pauses_table (entries : list lcd_init_cmd_t) :
  forall (last : option Z) (rest : list lcd_event),
    pauses_from last (flat_map entry_events entries ++ rest)
    = map (fun e => (Some (init_cmd e), 100000))
          (filter init_delayed entries)
      ++ pauses_from (match rev entries with
                      | e :: _ => Some (init_cmd e)
                      | [] => last
                      end) rest.
Proof.
  induction entries as [| e tl IH]; intros last rest; [reflexivity |].
  cbn [flat_map filter rev]. rewrite <- app_assoc, pauses_entry, IH.
  destruct (init_delayed e); cbn [map app];
    destruct (rev tl) as [| e' tl'] eqn:E; reflexivity.
Qed.

Lemma data_sizes_table (entries : list lcd_init_cmd_t) :
  Forall (fun e => Z.land (init_databytes e) 0x1F
                   <= Z.of_nat (length (init_data e))) entries ->
  map (fun b => Z.of_nat (length (snd b)))
      (filter fst (flat_map entry_bursts entries))
  = filter (fun n => n >? 0)
      (map (fun e => Z.land (init_databytes e) 0x1F) entries).
Proof.
  induction 1 as [| e tl He _ IH]; [reflexivity |].
  cbn [flat_map map filter]. unfold entry_bursts at 1. cbv zeta.
  destruct (Z.land (init_databytes e) 31 >? 0) eqn:Hlen;
    cbn [app filter fst snd map]; rewrite IH; [| reflexivity].
  rewrite length_firstn, Nat2Z.inj_min, Z2Nat.id by lia.
  rewrite Z.min_l by exact He. reflexivity.
Qed.

(** X9. The table walk of [st7796_init]: for a table whose entries before
    the end marker ask for no more parameter bytes than their [data] array
    holds, the loop sends, for each entry before the first one whose
    [databytes] is 0xFF and for none after it, the command byte in command
    mode and then, when the low five bits of [databytes] are not zero, that
    many bytes of [data] in one data burst; the only long delays are 100 ms
    after each entry with bit 7 set; every burst is framed by chip-select
    and the output switch is left alone. *)
Theorem send_init_cmds_walks_table :
  forall (table : list lcd_init_cmd_t) (w : lcd_world),
    table_fits table ->
    let sent := before_marker table in
    let w' := snd (send_init_cmds table w) in
    let events := new_events w w' in
    bursts events = flat_map entry_bursts sent /\
    commands events = map init_cmd sent /\
    data_sizes events
      = filter (fun n => n >? 0)
          (map (fun e => Z.land (init_databytes e) 0x1F) sent) /\
    pauses events
      = map (fun e => (Some (init_cmd e), 100000))
            (filter init_delayed sent) /\
    framed events = true /\
    disp_flush_enabled w' = disp_flush_enabled w.
Proof.
  intros table w Hfit sent w' events.
  pose proof (emits_send_init_cmds table w) as Hrun.
  assert (Hev : events = flat_map entry_events sent)
    by exact (emits_new_events _ _ _ Hrun).
  assert (Hb : bursts events = flat_map entry_bursts sent).
  { rewrite Hev. clear. induction sent as [| e tl IH]; [reflexivity |].
    cbn [flat_map]. rewrite bursts_app, bursts_entry, IH. reflexivity. }
  split; [exact Hb |].
  split.
  { rewrite commands_bursts, Hb. clear.
    induction sent as [| e tl IH]; [reflexivity |].
    cbn [flat_map map]. rewrite flat_map_app, IH.
    unfold entry_bursts. cbv zeta. destruct (_ >? 0); reflexivity. }
  split; [unfold data_sizes; rewrite Hb; exact (data_sizes_table _ Hfit) |].
  split.
  { unfold pauses. rewrite Hev, <- (app_nil_r (flat_map _ _)), pauses_table.
    apply app_nil_r. }
  split; [rewrite Hev; apply framed_table | exact (proj2 Hrun)].
Qed.

(** X9 on the table of [st7796_init]. *)
Lemma send_init_cmds_walks_table_witness :
  commands (new_events lcd_boot (snd (send_init_cmds init_cmds lcd_boot)))
  = [0xCF; 0xED; 0xE8; 0xCB; 0xF7; 0xEA; 0xC0; 0xC1; 0xC5; 0xC7; 0x36; 0x3A;
     0xB1; 0xF2; 0x26; 0xE0; 0xE1; 0x2A; 0x2B; 0x2C; 0xB7; 0xB6; 0x11; 0x29].
Proof.
  apply (proj1 (proj2 (send_init_cmds_walks_table init_cmds lcd_boot
    ltac:(unfold table_fits; repeat constructor; vm_compute;
          discriminate)))).
Defined.

(** ** The display driver's own state *)

Lemma snd_on_lcd {A} (m : L A) (s : st7796_world) :
  snd (on_lcd m s)
  = {| st_lcd := snd (m (st_lcd s));
       current_orientation := current_orientation s |}.
Proof. unfold on_lcd. destruct (m (st_lcd s)). reflexivity. Qed.

Lemma emits_orientation_data (value : Z) (w : lcd_world) :
  emits (LCD_CS_LOW ;; LCD_DC_DATA ;; spi_write_blocking [value] 1 ;;
         LCD_CS_HIGH) w
    [GpioPut ST7796_PIN_CS false; GpioPut ST7796_PIN_DC true;
     SpiWrite false true [value]; GpioPut ST7796_PIN_CS true].
Proof. unfold emits. run_lcd. split; reflexivity. Qed.

Lemma st7796_set_orientation_run (orientation : Z) (s : st7796_world) :
  let s' := snd (st7796_set_orientation orientation s) in
  lcd_trace (st_lcd s')
    = lcd_trace (st_lcd s) ++ orientation_events orientation /\
  disp_flush_enabled (st_lcd s') = disp_flush_enabled (st_lcd s) /\
  current_orientation s' = orientation.
Proof.
  unfold st7796_set_orientation. rewrite !snd_bind, !snd_on_lcd.
  cbn [set_current_orientation snd fst st_lcd current_orientation].
  destruct (emits_write_cmd ST7796_CMD_MADCTL (st_lcd s)) as [T1 E1].
  destruct (emits_orientation_data (madctl_value orientation)
              (snd (st7796_write_cmd ST7796_CMD_MADCTL (st_lcd s))))
    as [T2 E2].
  split; [| split; [| reflexivity]].
  - rewrite T2, T1. unfold orientation_events.
    rewrite <- app_assoc. reflexivity.
  - rewrite E2, E1. reflexivity.
Qed.

Lemma st7796_init_run (s : st7796_world) :
  let s' := snd (st7796_init s) in
  lcd_trace (st_lcd s') = lcd_trace (st_lcd s) ++ init_events /\
  disp_flush_enabled (st_lcd s') = disp_flush_enabled (st_lcd s) /\
  current_orientation s' = ST7796_PORTRAIT.
Proof.
  unfold st7796_init. rewrite !snd_bind, !snd_on_lcd.
  cbn [st_lcd current_orientation st7796_spi_init ret snd fst].
  set (w1 := snd (st7796_gpio_init (st_lcd s))).
  set (w2 := snd (st7796_hw_reset w1)).
  set (w3 := snd (send_init_cmds init_cmds w2)).
  set (s3 := {| st_lcd := w3 |}).
  destruct (emits_gpio_init (st_lcd s)) as [T1 E1]. fold w1 in T1, E1.
  destruct (emits_hw_reset w1) as [T2 E2]. fold w2 in T2, E2.
  destruct (emits_send_init_cmds init_cmds w2) as [T3 E3]. fold w3 in T3, E3.
  destruct (st7796_set_orientation_run ST7796_PORTRAIT s3) as [T4 [E4 O4]].
  set (s4 := snd (st7796_set_orientation ST7796_PORTRAIT s3)) in *.
  destruct (emits_write_cmd ST7796_CMD_INVON (st_lcd s4)) as [T5 E5].
  split; [| split; [| reflexivity]].
  - rewrite T5, T4. cbn [s3 st_lcd]. rewrite T3, T2, T1.
    unfold init_events. rewrite <- !app_assoc. reflexivity.
  - rewrite E5, E4. cbn [s3 st_lcd]. rewrite E3, E2, E1. reflexivity.
Qed.

(** X10. [st7796_init], from any state: it drives the three control lines
    high, pulses reset (high, low, high, 100 ms after each), sends the 24
    commands of the table in order, then memory-access-control and
    inversion-on; the only long delays are the three of the reset pulse and
    100 ms after sleep-out (0x11) and after display-on (0x29); the table's
    own memory-access-control parameter 0x28 is overwritten by 0x48, the
    portrait value, which is the last one the panel receives; every burst
    is framed by chip-select; it leaves chip-select and reset high, the
    recorded orientation portrait and the output switch as it was. *)
Theorem st7796_init_sequence :
  forall s : st7796_world,
    let s' := snd (st7796_init s) in
    let events := new_events (st_lcd s) (st_lcd s') in
    firstn 9 events
      = [GpioPut ST7796_PIN_CS true; GpioPut ST7796_PIN_DC true;
         GpioPut ST7796_PIN_RST true;
         GpioPut ST7796_PIN_RST true; SleepUs 100000;
         GpioPut ST7796_PIN_RST false; SleepUs 100000;
         GpioPut ST7796_PIN_RST true; SleepUs 100000] /\
    commands events
      = [0xCF; 0xED; 0xE8; 0xCB; 0xF7; 0xEA; 0xC0; 0xC1; 0xC5; 0xC7; 0x36;
         0x3A; 0xB1; 0xF2; 0x26; 0xE0; 0xE1; 0x2A; 0x2B; 0x2C; 0xB7; 0xB6;
         0x11; 0x29; 0x36; 0x21] /\
    pauses events
      = [(None, 100000); (None, 100000); (None, 100000);
         (Some 0x11, 100000); (Some 0x29, 100000)] /\
    params_of ST7796_CMD_MADCTL (bursts events) = [[0x28]; [0x48]] /\
    framed events = true /\
    gpio_level (st_lcd s') ST7796_PIN_CS = true /\
    gpio_level (st_lcd s') ST7796_PIN_RST = true /\
    current_orientation s' = ST7796_PORTRAIT /\
    disp_flush_enabled (st_lcd s') = disp_flush_enabled (st_lcd s).
Proof.
  intros s s' events.
  destruct (st7796_init_run s) as [Ht [He Ho]]. fold s' in Ht, He, Ho.
  assert (Hev : events = init_events) by exact (new_events_app _ _ _ Ht).
  rewrite Hev.
  do 5 (split; [vm_compute; reflexivity |]).
  split; [subst s'; vm_compute; reflexivity |].
  split; [subst s'; vm_compute; reflexivity |].
  split; assumption.
Qed.

Lemma madctl_value_cases (orientation : Z) :
  (orientation = ST7796_PORTRAIT /\ madctl_value orientation = 0x48) \/
  (orientation = ST7796_LANDSCAPE /\ madctl_value orientation = 0x28) \/
  (orientation = ST7796_PORTRAIT_INV /\ madctl_value orientation = 0x88) \/
  (orientation = ST7796_LANDSCAPE_INV /\ madctl_value orientation = 0xE8) \/
  (~ 0 <= orientation <= 3 /\ madctl_value orientation = 0x48).
Proof.
  unfold madctl_value, ST7796_PORTRAIT, ST7796_LANDSCAPE,
    ST7796_PORTRAIT_INV, ST7796_LANDSCAPE_INV.
  destruct (Z.eqb_spec orientation 0); [auto |].
  destruct (Z.eqb_spec orientation 1); [auto |].
  destruct (Z.eqb_spec orientation 2); [auto 6 |].
  destruct (Z.eqb_spec orientation 3); [auto 6 |].
  right. right. right. right. split; [lia | reflexivity].
Qed.

(** X11. [st7796_set_orientation]: the panel receives the
    memory-access-control command followed by one parameter byte, framed by
    chip-select, and the orientation is recorded. The byte always has the
    BGR bit (bit 3) set, exchanges rows and columns (bit 5) exactly in the
    two landscape orientations, and tells the four orientations apart. For
    a value outside the enumeration the panel gets the portrait byte while
    the record keeps the value given. *)
Theorem st7796_set_orientation_madctl :
  forall (orientation : Z) (s : st7796_world),
    let s' := snd (st7796_set_orientation orientation s) in
    let events := new_events (st_lcd s) (st_lcd s') in
    bursts events
      = [(false, [ST7796_CMD_MADCTL]); (true, [madctl_value orientation])] /\
    framed events = true /\
    current_orientation s' = orientation /\
    Z.testbit (madctl_value orientation) 3 = true /\
    Z.testbit (madctl_value orientation) 5
      = (orientation =? ST7796_LANDSCAPE)
        || (orientation =? ST7796_LANDSCAPE_INV) /\
    (forall other : Z,
        0 <= orientation <= 3 -> 0 <= other <= 3 ->
        madctl_value orientation = madctl_value other ->
        orientation = other) /\
    (~ 0 <= orientation <= 3 ->
     madctl_value orientation = madctl_value ST7796_PORTRAIT).
Proof.
  intros orientation s s' events.
  destruct (st7796_set_orientation_run orientation s) as [Ht [_ Ho]].
  fold s' in Ht, Ho.
  assert (Hev : events = orientation_events orientation)
    by exact (new_events_app _ _ _ Ht).
  rewrite Hev.
  split; [reflexivity |]. split; [reflexivity |]. split; [exact Ho |].
  pose proof (madctl_value_cases orientation) as Hc.
  split; [| split; [| split]].
  - destruct Hc as [[_ ->] | [[_ ->] | [[_ ->] | [[_ ->] | [_ ->]]]]];
      reflexivity.
  - unfold ST7796_PORTRAIT, ST7796_LANDSCAPE, ST7796_PORTRAIT_INV,
      ST7796_LANDSCAPE_INV in *.
    destruct Hc as [[-> ->] | [[-> ->] | [[-> ->] | [[-> ->] | [Ho' ->]]]]];
      try reflexivity.
    destruct (Z.eqb_spec orientation 1); [lia |].
    destruct (Z.eqb_spec orientation 3); [lia |]. reflexivity.
  - intros other Hr Hr' E.
    pose proof (madctl_value_cases other) as Hc'.
    unfold ST7796_PORTRAIT, ST7796_LANDSCAPE, ST7796_PORTRAIT_INV,
      ST7796_LANDSCAPE_INV in *.
    destruct Hc as [[-> Hv] | [[-> Hv] | [[-> Hv] | [[-> Hv] | [Hn _]]]]];
      [| | | | contradiction];
      destruct Hc' as [[-> Hv'] | [[-> Hv'] | [[-> Hv'] | [[-> Hv']
                        | [Hn' _]]]]];
      try contradiction; try reflexivity;
      rewrite Hv, Hv' in E; discriminate E.
  - intros Hout.
    destruct Hc as [[-> _] | [[-> _] | [[-> _] | [[-> _] | [_ ->]]]]];
      try (exfalso; apply Hout; vm_compute; intuition discriminate).
    reflexivity.
Qed.

Lemma be16_bytes (v : Z) :
  0 <= v < 65536 ->
  be16 (Z.land (Z.shiftr v 8) 0xFF) (Z.land v 0xFF) = v /\
  0 <= Z.land (Z.shiftr v 8) 0xFF < 256 /\
  0 <= Z.land v 0xFF < 256.
Proof.
  intros Hv. unfold be16.
  change 0xFF with (Z.ones 8). rewrite !Z.land_ones by lia.
  rewrite Z.shiftr_div_pow2 by lia. change (2 ^ 8) with 256.
  pose proof (Z.div_mod v 256 ltac:(lia)) as Hdm.
  pose proof (Z.mod_pos_bound v 256 ltac:(lia)) as Hm.
  assert (Hq : 0 <= v / 256 < 256)
    by (split; [apply Z.div_pos; lia | apply Z.div_lt_upper_bound; lia]).
  rewrite (Z.mod_small (v / 256) 256) by exact Hq. lia.
Qed.

(** X12. [st7796_set_window]: for 16-bit coordinates the panel receives
    column-address-set with the two X bounds, row-address-set with the two
    Y bounds, each bound as two bytes, high byte first, and then
    memory-write; decoding the bytes gives back the four coordinates; every
    burst is framed by chip-select and the output switch is left alone. *)
Theorem st7796_set_window_round_trip :
  forall (wx1 wy1 wx2 wy2 : Z) (w : lcd_world),
    0 <= wx1 < 65536 -> 0 <= wy1 < 65536 ->
    0 <= wx2 < 65536 -> 0 <= wy2 < 65536 ->
    let w' := snd (st7796_set_window wx1 wy1 wx2 wy2 w) in
    let events := new_events w w' in
    window_of_bursts (bursts events) = Some (wx1, wy1, wx2, wy2) /\
    commands events
      = [ST7796_CMD_CASET; ST7796_CMD_RASET; ST7796_CMD_RAMWR] /\
    Forall (fun b => Forall (fun v => 0 <= v < 256) (snd b))
           (bursts events) /\
    framed events = true /\
    disp_flush_enabled w' = disp_flush_enabled w.
Proof.
  intros wx1 wy1 wx2 wy2 w Hx1 Hy1 Hx2 Hy2 w' events.
  pose proof (emits_set_window wx1 wy1 wx2 wy2 w) as Hrun.
  assert (Hev : events = set_window_events wx1 wy1 wx2 wy2)
    by exact (emits_new_events _ _ _ Hrun).
  rewrite Hev.
  destruct (be16_bytes wx1 Hx1) as [Ex1 [Hx1h Hx1l]].
  destruct (be16_bytes wy1 Hy1) as [Ey1 [Hy1h Hy1l]].
  destruct (be16_bytes wx2 Hx2) as [Ex2 [Hx2h Hx2l]].
  destruct (be16_bytes wy2 Hy2) as [Ey2 [Hy2h Hy2l]].
  split; [| split; [reflexivity | split; [| split]]].
  - change (window_of_bursts (bursts (set_window_events wx1 wy1 wx2 wy2)))
      with (Some (be16 (Z.land (Z.shiftr wx1 8) 0xFF) (Z.land wx1 0xFF),
                  be16 (Z.land (Z.shiftr wy1 8) 0xFF) (Z.land wy1 0xFF),
                  be16 (Z.land (Z.shiftr wx2 8) 0xFF) (Z.land wx2 0xFF),
                  be16 (Z.land (Z.shiftr wy2 8) 0xFF) (Z.land wy2 0xFF))).
    rewrite Ex1, Ey1, Ex2, Ey2. reflexivity.
  - change (bursts (set_window_events wx1 wy1 wx2 wy2))
      with [(false, [ST7796_CMD_CASET]);
            (true, [Z.land (Z.shiftr wx1 8) 0xFF; Z.land wx1 0xFF;
                    Z.land (Z.shiftr wx2 8) 0xFF; Z.land wx2 0xFF]);
            (false, [ST7796_CMD_RASET]);
            (true, [Z.land (Z.shiftr wy1 8) 0xFF; Z.land wy1 0xFF;
                    Z.land (Z.shiftr wy2 8) 0xFF; Z.land wy2 0xFF]);
            (false, [ST7796_CMD_RAMWR])].
    repeat constructor; cbn [snd];
      try assumption; try (vm_compute; intuition discriminate);
      apply Hx1h || apply Hx1l || apply Hx2h || apply Hx2l
      || apply Hy1h || apply Hy1l || apply Hy2h || apply Hy2l.
  - apply framed_set_window.
  - exact (proj2 Hrun).
Qed.

(** X12 on the full 320x480 panel. *)
Lemma st7796_set_window_round_trip_witness :
  window_of_bursts
    (bursts (new_events lcd_boot
               (snd (st7796_set_window 0 0 319 479 lcd_boot))))
  = Some (0, 0, 319, 479).
Proof.
  apply (proj1 (st7796_set_window_round_trip 0 0 319 479 lcd_boot
                  ltac:(lia) ltac:(lia) ltac:(lia) ltac:(lia))).
Defined.

(** ** The flush callback *)

Lemma emits_write_color (color : option (list Z)) (len : Z) (w : lcd_world) :
  emits (st7796_write_color color len) w (pixel_events color len).
Proof.
  pose proof (st7796_write_color_run color len w) as Hrun.
  cbv zeta in Hrun. unfold emits, pixel_events.
  destruct color as [bytes |]; [destruct (len =? 0) |];
    try (rewrite Hrun, app_nil_r; split; reflexivity).
  destruct Hrun as [Ht [_ [_ He]]]. split; assumption.
Qed.

Lemma emits_disp_flush (width height : lv_area_t -> Z)
  (area : lv_area_t) (color_p : option (list Z)) (w : lcd_world) :
  emits (disp_flush width height area color_p) w
    (flush_events width height (disp_flush_enabled w) (area, color_p)).
Proof.
  unfold flush_events.
  destruct (disp_flush_enabled w) eqn:Hen.
  - assert (E : disp_flush width height area color_p w
                = (st7796_set_window (uint16 (x1 area)) (uint16 (y1 area))
                     (uint16 (x2 area)) (uint16 (y2 area)) ;;
                   st7796_write_color color_p
                     (uint32 (width area * height area)) ;;
                   lv_disp_flush_ready) w)
      by (unfold disp_flush; rewrite Hen; reflexivity).
    unfold emits. rewrite E.
    apply emits_bind; [apply emits_set_window |].
    apply emits_bind; [apply emits_write_color |].
    split; reflexivity.
  - assert (E : disp_flush width height area color_p w
                = lv_disp_flush_ready w)
      by (unfold disp_flush; rewrite Hen; reflexivity).
    unfold emits. rewrite E. split; reflexivity.
Qed.

Lemma emits_flush_run (width height : lv_area_t -> Z)
  (calls : list (lv_area_t * option (list Z))) :
  forall w : lcd_world,
    emits (flush_run width height calls) w
      (flat_map (flush_events width height (disp_flush_enabled w)) calls).
Proof.
  induction calls as [| [area color_p] tl IH]; intros w;
    cbn [flush_run flat_map].
  - apply emits_ret.
  - apply emits_bind; [apply emits_disp_flush |].
    rewrite <- (proj2 (emits_disp_flush width height area color_p w)).
    apply IH.
Qed.

Lemma framed_pixels (color_p : option (list Z)) (size : Z) :
  framed (pixel_events color_p size) = true.
Proof.
  unfold pixel_events.
  destruct color_p; [destruct (size =? 0) |]; reflexivity.
Qed.

Lemma framed_flush (width height : lv_area_t -> Z) (enabled : bool)
  (call : lv_area_t * option (list Z)) :
  framed (flush_events width height enabled call) = true.
Proof.
  destruct call as [area color_p]. unfold flush_events.
  destruct enabled; [| reflexivity].
  apply framed_app; [apply framed_set_window |].
  apply framed_app; [apply framed_pixels | reflexivity].
Qed.

Lemma commands_pixels (color_p : option (list Z)) (size : Z) :
  commands (pixel_events color_p size) = [].
Proof.
  unfold pixel_events.
  destruct color_p; [destruct (size =? 0) |]; reflexivity.
Qed.

Lemma bursts_pixels (color_p : option (list Z)) (size : Z) :
  bursts (pixel_events color_p size)
  = match color_p with
    | Some bytes =>
        if size =? 0 then []
        else [(true, firstn (Z.to_nat (uint32 (size * 2))) bytes)]
    | None => []
    end.
Proof.
  unfold pixel_events.
  destruct color_p; [destruct (size =? 0) |]; reflexivity.
Qed.

(** X13. An enabled [disp_flush] selects exactly the area it is given,
    with each coordinate taken as a 16-bit value (a negative coordinate
    wraps), whether or not there is anything to draw; the pixel data follow
    in at most one data burst, absent for a null buffer or an empty area,
    whose length is twice the 32-bit product of the area's width and
    height; every burst is framed by chip-select, and the output switch
    stays on. *)
Theorem disp_flush_selects_area :
  forall (lv_area_get_width lv_area_get_height : lv_area_t -> Z)
         (area : lv_area_t) (color_p : option (list Z)) (w : lcd_world),
    disp_flush_enabled w = true ->
    let w' := snd (disp_flush lv_area_get_width lv_area_get_height
                     area color_p w) in
    let events := new_events w w' in
    let size := uint32 (lv_area_get_width area * lv_area_get_height area) in
    window_of_bursts (firstn 5 (bursts events))
      = Some (uint16 (x1 area), uint16 (y1 area),
              uint16 (x2 area), uint16 (y2 area)) /\
    skipn 5 (bursts events)
      = match color_p with
        | Some bytes =>
            if size =? 0 then []
            else [(true, firstn (Z.to_nat (uint32 (size * 2))) bytes)]
        | None => []
        end /\
    commands events
      = [ST7796_CMD_CASET; ST7796_CMD_RASET; ST7796_CMD_RAMWR] /\
    framed events = true /\
    disp_flush_enabled w' = true.
Proof.
  intros gw gh area color_p w Hen w' events size.
  pose proof (emits_disp_flush gw gh area color_p w) as Hrun.
  rewrite Hen in Hrun.
  assert (Hev : events = flush_events gw gh true (area, color_p))
    by exact (emits_new_events _ _ _ Hrun).
  assert (Hb : bursts events
               = bursts (set_window_events
                           (uint16 (x1 area)) (uint16 (y1 area))
                           (uint16 (x2 area)) (uint16 (y2 area)))
                 ++ bursts (pixel_events color_p size)).
  { rewrite Hev. unfold flush_events.
    rewrite !bursts_app. cbn [bursts]. rewrite app_nil_r. reflexivity. }
  pose proof (fun v => be16_bytes (uint16 v) (uint16_range v)) as Hbe.
  destruct (Hbe (x1 area)) as [Ex1 _]. destruct (Hbe (y1 area)) as [Ey1 _].
  destruct (Hbe (x2 area)) as [Ex2 _]. destruct (Hbe (y2 area)) as [Ey2 _].
  split; [| split; [| split; [| split]]].
  - rewrite Hb.
    change (window_of_bursts (firstn 5 (bursts (set_window_events
              (uint16 (x1 area)) (uint16 (y1 area))
              (uint16 (x2 area)) (uint16 (y2 area))) ++ _)))
      with (Some (be16 (Z.land (Z.shiftr (uint16 (x1 area)) 8) 0xFF)
                       (Z.land (uint16 (x1 area)) 0xFF),
                  be16 (Z.land (Z.shiftr (uint16 (y1 area)) 8) 0xFF)
                       (Z.land (uint16 (y1 area)) 0xFF),
                  be16 (Z.land (Z.shiftr (uint16 (x2 area)) 8) 0xFF)
                       (Z.land (uint16 (x2 area)) 0xFF),
                  be16 (Z.land (Z.shiftr (uint16 (y2 area)) 8) 0xFF)
                       (Z.land (uint16 (y2 area)) 0xFF))).
    rewrite Ex1, Ey1, Ex2, Ey2. reflexivity.
  - rewrite Hb, <- bursts_pixels. reflexivity.
  - rewrite Hev. unfold flush_events.
    rewrite !commands_app, commands_pixels. reflexivity.
  - rewrite Hev. apply framed_flush.
  - rewrite <- Hen. exact (proj2 Hrun).
Qed.

(** X13 on an area that starts left of the screen: the column bound -1 is
    sent as 65535. *)
Lemma disp_flush_selects_area_witness :
  window_of_bursts
    (firstn 5
       (bursts (new_events lcd_boot
                  (snd (disp_flush (fun a => x2 a - x1 a + 1)
                          (fun a => y2 a - y1 a + 1)
                          {| x1 := -1; y1 := 0; x2 := 0; y2 := 0 |}
                          None lcd_boot)))))
  = Some (65535, 0, 0, 0).
Proof.
  apply (proj1 (disp_flush_selects_area
                  (fun a => x2 a - x1 a + 1) (fun a => y2 a - y1 a + 1)
                  {| x1 := -1; y1 := 0; x2 := 0; y2 := 0 |} None lcd_boot
                  eq_refl)).
Defined.

Lemma flush_run_levels (width height : lv_area_t -> Z)
  (calls : list (lv_area_t * option (list Z))) :
  forall w : lcd_world,
    disp_flush_enabled w = false ->
    gpio_level (snd (flush_run width height calls w)) = gpio_level w.
Proof.
  induction calls as [| [area color_p] tl IH]; intros w Hen;
    cbn [flush_run]; [reflexivity |].
  rewrite snd_bind.
  assert (E : disp_flush width height area color_p w
              = lv_disp_flush_ready w)
    by (unfold disp_flush; rewrite Hen; reflexivity).
  rewrite E, IH; [reflexivity | exact Hen].
Qed.

(** X14. The output switch gates a whole run of flushes, and only
    [disp_enable_update] and [disp_disable_update] move it. After
    [disp_disable_update], any number of [disp_flush] calls gives exactly
    one completion signal per call and nothing else: no level driven, no
    burst sent, the switch still off. With the switch on, a run of flushes
    gives one completion signal and one window selection per call, every
    burst framed by chip-select, and the switch still on. *)
Theorem flush_run_gate :
  forall (lv_area_get_width lv_area_get_height : lv_area_t -> Z)
         (calls : list (lv_area_t * option (list Z))) (w : lcd_world),
    let run := flush_run lv_area_get_width lv_area_get_height calls in
    let off := snd (run (snd (disp_disable_update w))) in
    let on := snd (run (snd (disp_enable_update w))) in
    (new_events w off = repeat FlushReady (length calls) /\
     gpio_level off = gpio_level w /\
     disp_flush_enabled off = false) /\
    (length (filter is_flush_ready (new_events w on)) = length calls /\
     commands (new_events w on)
       = flat_map (fun _ => [ST7796_CMD_CASET; ST7796_CMD_RASET;
                             ST7796_CMD_RAMWR]) calls /\
     framed (new_events w on) = true /\
     disp_flush_enabled on = true).
Proof.
  intros gw gh calls w run off on. split.
  - pose proof (emits_flush_run gw gh calls (snd (disp_disable_update w)))
      as [Ht He].
    fold run in Ht, He. fold off in Ht, He.
    cbn [disp_disable_update snd disp_flush_enabled lcd_trace] in Ht, He.
    split; [| split; [| exact He]].
    + rewrite (new_events_app _ _ _ Ht). clear.
      induction calls as [| [area color_p] tl IH]; [reflexivity |].
      cbn [flat_map flush_events app length repeat]. rewrite IH.
      reflexivity.
    + subst off run. rewrite flush_run_levels; reflexivity.
  - pose proof (emits_flush_run gw gh calls (snd (disp_enable_update w)))
      as [Ht He].
    fold run in Ht, He. fold on in Ht, He.
    cbn [disp_enable_update snd disp_flush_enabled lcd_trace] in Ht, He.
    rewrite (new_events_app _ _ _ Ht).
    split; [| split; [| split; [| exact He]]]; clear.
    + induction calls as [| [area color_p] tl IH]; [reflexivity |].
      cbn [flat_map flush_events length].
      rewrite !filter_app, !length_app, IH.
      unfold pixel_events.
      destruct color_p; [destruct (_ =? 0) |]; reflexivity.
    + induction calls as [| [area color_p] tl IH]; [reflexivity |].
      cbn [flat_map flush_events].
      rewrite !commands_app, commands_pixels, IH. reflexivity.
    + induction calls as [| call tl IH]; [reflexivity |].
      cbn [flat_map]. apply framed_app; [apply framed_flush | exact IH].
Qed.

(** ** main.c: the joystick mapping, continued *)

Lemma rescale_range (off half : Z) :
  0 <= half -> -2048 <= off <= 2047 ->
  (off <= - ADC_DEADZONE \/ ADC_DEADZONE <= off) ->
  rescale off half <= 2 * half /\
  (0 < half -> rescale off half < 2 * half) /\
  (off = -2048 -> rescale off half = 0).
Proof.
  unfold rescale, ADC_DEADZONE, ADC_CENTER. intros Hh Hoff Hout.
  change (2048 - 150) with 1898. rewrite Z.gtb_ltb.
  destruct (Z.ltb_spec 0 off) as [Hpos | Hneg].
  - assert (Hq : ((off - 150) * half) ÷ 1898 <= half).
    { apply Z.quot_le_upper_bound; [lia | nia]. }
    split; [lia |]. split; [| lia].
    intros Hhalf.
    assert (((off - 150) * half) ÷ 1898 < half); [| lia].
    apply Z.quot_lt_upper_bound; [nia | lia | nia].
  - assert (Hq : ((off + 150) * half) ÷ 1898 <= 0).
    { rewrite <- (Z.quot_0_l 1898) by lia.
      apply Z.quot_le_mono; [lia | nia]. }
    split; [lia |]. split; [lia |].
    intros ->. change (-2048 + 150) with (- (1898)).
    rewrite Z.mul_opp_l, Z.quot_opp_l by lia.
    rewrite Z.mul_comm, Z.quot_mul by lia. lia.
Qed.

(** X15. [map_adc_with_deadzone] over the whole 12-bit range, for a
    non-negative [max_pos] whose products stay within [int]: the result lies
    in [0, max_pos]; the lowest raw value maps to the end of the travel (0,
    or [max_pos] when inverted), but the other end is never reached: for
    [max_pos] above 1 the result stays below [max_pos], or above 0 when
    inverted. *)
Theorem map_adc_stays_in_range :
  forall (max_pos : Z) (invert : bool) (raw : Z),
    adc_product_fits max_pos ->
    0 <= max_pos ->
    0 <= raw <= ADC_MAX_VALUE ->
    let pos := map_adc_with_deadzone raw max_pos invert in
    0 <= pos <= max_pos /\
    (1 < max_pos -> if invert then 0 < pos else pos < max_pos) /\
    (raw = 0 -> pos = if invert then max_pos else 0).
Proof.
  intros max_pos invert raw Hfits Hmax Hraw pos.
  assert (Hhalf : 0 <= max_pos ÷ 2 /\ 2 * (max_pos ÷ 2) <= max_pos).
  { split; [apply Z.quot_pos; lia | apply Z.mul_quot_le; lia]. }
  assert (Hhalf' : 1 < max_pos -> 0 < max_pos ÷ 2 < max_pos).
  { intros H. split; [| apply Z.quot_lt; lia].
    apply Z.quot_str_pos. lia. }
  unfold ADC_MAX_VALUE in Hraw.
  destruct (Z.lt_ge_cases (Z.abs (raw - ADC_CENTER)) ADC_DEADZONE)
    as [Hin | Hout].
  - assert (E : pos = max_pos ÷ 2).
    { subst pos. unfold map_adc_with_deadzone.
      rewrite (int32_id raw) by (unfold INT_MIN, INT_MAX; lia).
      rewrite (int32_id (raw - ADC_CENTER))
        by (unfold INT_MIN, INT_MAX, ADC_CENTER; lia).
      destruct (Z.ltb_spec (Z.abs (raw - ADC_CENTER)) ADC_DEADZONE);
        [reflexivity | lia]. }
    unfold ADC_CENTER, ADC_DEADZONE in Hin.
    rewrite E. split; [lia |]. split; [| lia].
    intros Hpos. specialize (Hhalf' Hpos). destruct invert; lia.
  - pose proof (map_adc_outside raw max_pos invert Hfits
                  ltac:(unfold ADC_MAX_VALUE; lia) Hout) as E.
    cbv zeta in E. fold pos in E.
    unfold ADC_CENTER, ADC_DEADZONE in Hout.
    destruct (rescale_range (raw - ADC_CENTER) (max_pos ÷ 2)
                (proj1 Hhalf)
                ltac:(unfold ADC_CENTER; lia)
                ltac:(unfold ADC_CENTER, ADC_DEADZONE; lia))
      as [Hle [Hlt H0]].
    set (pre := rescale (raw - ADC_CENTER) (max_pos ÷ 2)) in *.
    destruct (clamp_range max_pos pre) as [Hc _]. specialize (Hc Hmax).
    assert (Hcl : clamp max_pos pre <= Z.max 0 pre).
    { unfold clamp. rewrite Z.gtb_ltb.
      destruct (Z.ltb_spec pre 0);
        repeat match goal with
               | |- context [?x <? ?y] => destruct (Z.ltb_spec x y)
               end; lia. }
    assert (Hzero : pre = 0 -> clamp max_pos pre = 0).
    { intros ->. unfold clamp. rewrite Z.gtb_ltb.
      change (0 <? 0) with false. cbv iota.
      destruct (Z.ltb_spec max_pos 0); lia. }
    split; [destruct invert; lia |]. split.
    + intros Hpos. specialize (Hhalf' Hpos).
      specialize (Hlt (proj1 Hhalf')). destruct invert; lia.
    + intros ->. specialize (H0 eq_refl). specialize (Hzero H0).
      destruct invert; lia.
Qed.

(** X15 at full deflection of the joystick's X axis on the 88-pixel
    travel. *)
Lemma map_adc_stays_in_range_witness :
  map_adc_with_deadzone 4095 88 false < 88.
Proof.
  apply (proj1 (proj2 (map_adc_stays_in_range 88 false 4095
    ltac:(vm_compute; intuition discriminate) ltac:(lia)
    ltac:(vm_compute; intuition discriminate))) ltac:(lia)).
Defined.

(** ** main.c: the RGB LED *)

Lemma uint32_small (z : Z) : 0 <= z < 4294967296 -> uint32 z = z.
Proof. intros H. unfold uint32. apply Z.mod_small. exact H. Qed.

Lemma ws2812_word (r g b : Z) :
  0 <= r < 256 -> 0 <= g < 256 -> 0 <= b < 256 ->
  ws2812_write r g b = ((g * 256 + r) * 256 + b) * 256.
Proof.
  intros Hr Hg Hb. unfold ws2812_write. cbv zeta.
  rewrite !Z.shiftl_mul_pow2 by lia.
  rewrite (uint32_small (g * 2 ^ 16)) by lia.
  rewrite (uint32_small (r * 2 ^ 8)) by lia.
  rewrite <- (Z.shiftl_mul_pow2 g 16), <- (Z.shiftl_mul_pow2 r 8) by lia.
  rewrite (Z.lor_comm (Z.shiftl g 16)).
  assert (Hs : Z.shiftl g 16 = Z.shiftl (Z.shiftl g 8) 8)
    by (rewrite Z.shiftl_shiftl by lia; reflexivity).
  rewrite Hs, <- Z.shiftl_lor.
  rewrite (Z.lor_comm (Z.shiftl _ 8) b).
  rewrite (lor_shiftl_add b _ 8) by lia.
  rewrite (lor_shiftl_add r g 8) by lia.
  rewrite uint32_small by lia. lia.
Qed.

(** X16. [ws2812_write] packs the three colour bytes into the word for the
    LED's state machine in the order green, red, blue from the top byte
    down, with the lowest byte zero; the word fits 32 bits and the three
    bytes can be read back from it, so different colours give different
    words. *)
Theorem ws2812_write_packs_grb :
  forall r g b : Z,
    0 <= r < 256 -> 0 <= g < 256 -> 0 <= b < 256 ->
    let word := ws2812_write r g b in
    0 <= word < 4294967296 /\
    Z.land (Z.shiftr word 24) 0xFF = g /\
    Z.land (Z.shiftr word 16) 0xFF = r /\
    Z.land (Z.shiftr word 8) 0xFF = b /\
    Z.land word 0xFF = 0.
Proof.
  intros r g b Hr Hg Hb word. subst word.
  rewrite (ws2812_word r g b Hr Hg Hb).
  change 0xFF with (Z.ones 8). rewrite !Z.land_ones by lia.
  rewrite !Z.shiftr_div_pow2 by lia.
  change (2 ^ 24) with 16777216. change (2 ^ 16) with 65536.
  change (2 ^ 8) with 256.
  split; [lia |].
  split; [| split; [| split]].
  - replace ((((g * 256 + r) * 256 + b) * 256) / 16777216) with g.
    + apply Z.mod_small. lia.
    + apply Z.div_unique with (((r * 256) + b) * 256); lia.
  - replace ((((g * 256 + r) * 256 + b) * 256) / 65536) with (g * 256 + r).
    + symmetry. apply Z.mod_unique with g; lia.
    + apply Z.div_unique with (b * 256); lia.
  - rewrite Z.div_mul by lia.
    symmetry. apply Z.mod_unique with (g * 256 + r); lia.
  - apply Z.mod_mul. lia.
Qed.

(** X16 on orange. *)
Lemma ws2812_write_packs_grb_witness :
  Z.land (Z.shiftr (ws2812_write 255 128 0) 24) 0xFF = 128.
Proof.
  apply (proj1 (proj2 (ws2812_write_packs_grb 255 128 0
                         ltac:(lia) ltac:(lia) ltac:(lia)))).
Defined.

(** ** main.c: the colour conversion *)

Lemma below_cases (n : nat) (P : Z -> Prop) :
  Forall P (map Z.of_nat (seq 0 n)) ->
  forall v : Z, 0 <= v < Z.of_nat n -> P v.
Proof.
  intros H v Hv. rewrite Forall_forall in H. apply H.
  apply in_map_iff. exists (Z.to_nat v).
  split; [lia | apply in_seq; lia].
Qed.

Ltac closed_fact :=
  vm_compute; repeat split; intros;
  solve [reflexivity | discriminate | congruence].

Lemma expand5 (v : Z) :
  0 <= v < 32 ->
  let r := uint8 ((v * 255) ÷ 31) in
  0 <= r <= 255 /\ Z.shiftr r 3 = v /\
  (v = 0 -> r = 0) /\ (v = 31 -> r = 255).
Proof.
  revert v. apply (below_cases 32). repeat constructor; closed_fact.
Qed.

Lemma expand6 (v : Z) :
  0 <= v < 64 ->
  let g := uint8 ((uint8 v * 255) ÷ 63) in
  0 <= g <= 255 /\ Z.shiftr g 2 = v /\
  (v = 0 -> g = 0) /\ (v = 63 -> g = 255).
Proof.
  revert v. apply (below_cases 64). repeat constructor; closed_fact.
Qed.

Lemma green_full_eq (c : lv_color_t) :
  lv_color_ok c ->
  Z.lor (Z.shiftl (ch_green_h c) 3) (ch_green_l c) = green6 c.
Proof.
  intros [Hh [_ [_ Hl]]]. unfold green6.
  rewrite Z.lor_comm, (lor_shiftl_add _ _ 3) by lia. lia.
Qed.

(** X17. [lvgl_color_to_rgb] stretches the 5-bit red and blue and the
    6-bit green (three high bits and three low bits put together) of a
    colour to full bytes: each result lies in 0..255, the darkest level
    gives 0 and the brightest 255, and the top five (six for green) bits of
    a result are the level it came from, so no two levels give the same
    byte. *)
Theorem lvgl_color_to_rgb_full_scale :
  forall c : lv_color_t,
    lv_color_ok c ->
    let '(r, g, b) := lvgl_color_to_rgb c in
    (0 <= r <= 255 /\ 0 <= g <= 255 /\ 0 <= b <= 255) /\
    (Z.shiftr r 3 = ch_red c /\ Z.shiftr g 2 = green6 c /\
     Z.shiftr b 3 = ch_blue c) /\
    (ch_red c = 0 -> r = 0) /\ (ch_red c = 31 -> r = 255) /\
    (green6 c = 0 -> g = 0) /\ (green6 c = 63 -> g = 255) /\
    (ch_blue c = 0 -> b = 0) /\ (ch_blue c = 31 -> b = 255).
Proof.
  intros c Hok. unfold lvgl_color_to_rgb. cbv zeta.
  rewrite (green_full_eq c Hok).
  destruct Hok as [Hgh [Hr [Hb Hgl]]].
  destruct (expand5 (ch_red c) Hr) as [R1 [R2 [R3 R4]]].
  destruct (expand5 (ch_blue c) Hb) as [B1 [B2 [B3 B4]]].
  destruct (expand6 (green6 c) ltac:(unfold green6; lia))
    as [G1 [G2 [G3 G4]]].
  repeat split; solve [assumption | apply R1 | apply G1 | apply B1].
Qed.

(** X17 on pure red. *)
Lemma lvgl_color_to_rgb_full_scale_witness :
  lvgl_color_to_rgb
    {| ch_green_h := 0; ch_red := 31; ch_blue := 0; ch_green_l := 0 |}
  = (255, 0, 0).
Proof.
  pose proof (lvgl_color_to_rgb_full_scale
                {| ch_green_h := 0; ch_red := 31; ch_blue := 0;
                   ch_green_l := 0 |}
                ltac:(unfold lv_color_ok; cbn; lia)) as H.
  destruct (lvgl_color_to_rgb _) as [[r g] b].
  destruct H as [_ [_ [_ [Hr [Hg [_ [Hb _]]]]]]].
  rewrite (Hr eq_refl), (Hg eq_refl), (Hb eq_refl). reflexivity.
Defined.

(** ** main.c: the buttons over time *)

Lemma on_button_interrupt_sync (now gpio_pin events : Z) (w : button_world) :
  leds_in_sync w -> leds_in_sync (on_button_interrupt now gpio_pin events w).
Proof.
  unfold leds_in_sync, on_button_interrupt. intros [H1 H2].
  destruct (_ =? 0); [split; assumption |].
  destruct (gpio_pin =? GPIO_BUTTON_1).
  - destruct (_ >? _); [| split; assumption].
    cbn [gpio_out led1 led2]. rewrite H1. split; [reflexivity | exact H2].
  - destruct (gpio_pin =? GPIO_BUTTON_2); [| split; assumption].
    destruct (_ >? _); [| split; assumption].
    cbn [gpio_out led1 led2]. rewrite H2. split; [exact H1 | reflexivity].
Qed.

Lemma on_button_interrupt_others (now gpio_pin events : Z)
  (w : button_world) (p : Z) :
  p <> GPIO_LED_1 -> p <> GPIO_LED_2 ->
  gpio_out (on_button_interrupt now gpio_pin events w) p = gpio_out w p.
Proof.
  intros Hp1 Hp2. unfold on_button_interrupt.
  destruct (_ =? 0); [reflexivity |].
  destruct (gpio_pin =? GPIO_BUTTON_1).
  - destruct (_ >? _); [| reflexivity]. cbn [gpio_out].
    destruct (Z.eqb_spec p GPIO_LED_1); [contradiction | reflexivity].
  - destruct (gpio_pin =? GPIO_BUTTON_2); [| reflexivity].
    destruct (_ >? _); [| reflexivity]. cbn [gpio_out].
    destruct (Z.eqb_spec p GPIO_LED_2); [contradiction | reflexivity].
Qed.

(** X18. Over any run of button interrupts, whatever their times, pins
    and edges: if each on-screen indicator shows what its LED pin drives
    before the run, it does so after it; and no output other than the two
    LED pins is ever driven. *)
Theorem button_run_keeps_leds_in_sync :
  forall (irqs : list (Z * Z * Z)) (w : button_world),
    leds_in_sync w ->
    leds_in_sync (button_run irqs w) /\
    (forall p : Z, p <> GPIO_LED_1 -> p <> GPIO_LED_2 ->
                   gpio_out (button_run irqs w) p = gpio_out w p).
Proof.
  induction irqs as [| [[now gpio_pin] events] tl IH]; intros w Hw.
  - split; [exact Hw | reflexivity].
  - change (button_run ((now, gpio_pin, events) :: tl) w)
      with (button_run tl (on_button_interrupt now gpio_pin events w)).
    destruct (IH _ (on_button_interrupt_sync now gpio_pin events w Hw))
      as [Hs Ho].
    split; [exact Hs |].
    intros p Hp1 Hp2. rewrite (Ho p Hp1 Hp2).
    apply on_button_interrupt_others; assumption.
Qed.

(** X18 from boot: a press of each button, a bounce and a release. *)
Lemma button_run_keeps_leds_in_sync_witness :
  leds_in_sync
    (button_run [(100, GPIO_BUTTON_1, GPIO_IRQ_EDGE_RISE);
                 (120, GPIO_BUTTON_1, GPIO_IRQ_EDGE_RISE);
                 (130, GPIO_BUTTON_2, GPIO_IRQ_EDGE_RISE);
                 (300, GPIO_BUTTON_1, GPIO_IRQ_EDGE_FALL)] button_boot).
Proof.
  apply (proj1 (button_run_keeps_leds_in_sync _ button_boot
                  (conj eq_refl eq_refl))).
Defined.

Lemma bounce_ignored (pin now events : Z) (w : button_world) :
  (pin = GPIO_BUTTON_1 /\ uint32 (now - btn1_last_time w) <= BTN_DEBOUNCE_MS)
  \/ (pin = GPIO_BUTTON_2
      /\ uint32 (now - btn2_last_time w) <= BTN_DEBOUNCE_MS) ->
  on_button_interrupt now pin events w = w.
Proof.
  unfold on_button_interrupt. intros H.
  destruct (_ =? 0); [reflexivity |].
  destruct H as [[-> H] | [-> H]].
  - change (GPIO_BUTTON_1 =? GPIO_BUTTON_1) with true. cbv iota.
    rewrite Z.gtb_ltb. destruct (Z.ltb_spec BTN_DEBOUNCE_MS
                                   (uint32 (now - btn1_last_time w)));
      [lia | reflexivity].
  - change (GPIO_BUTTON_2 =? GPIO_BUTTON_1) with false.
    change (GPIO_BUTTON_2 =? GPIO_BUTTON_2) with true. cbv iota.
    rewrite Z.gtb_ltb. destruct (Z.ltb_spec BTN_DEBOUNCE_MS
                                   (uint32 (now - btn2_last_time w)));
      [lia | reflexivity].
Qed.

(** X19. A bouncing contact counts once. When a rising edge of button 1 or
    button 2 at time [t] is accepted, any further interrupts of that button
    that are served within 50 ms of [t] (modulo 2^32), rising or falling,
    change nothing: after the whole burst the state is the one the first
    edge left, with the button's indicator and LED pin toggled once and [t]
    as the last accepted time. *)
Theorem button_burst_toggles_once :
  forall (pin t events : Z) (bounces : list (Z * Z)) (w : button_world),
    pin = GPIO_BUTTON_1 \/ pin = GPIO_BUTTON_2 ->
    Z.land events GPIO_IRQ_EDGE_RISE <> 0 ->
    BTN_DEBOUNCE_MS
      < uint32 (t - (if pin =? GPIO_BUTTON_1 then btn1_last_time w
                     else btn2_last_time w)) ->
    Forall (fun b => uint32 (fst b - t) <= BTN_DEBOUNCE_MS) bounces ->
    let burst := (t, pin, events)
                 :: map (fun b => (fst b, pin, snd b)) bounces in
    let w' := button_run burst w in
    w' = on_button_interrupt t pin events w /\
    (if pin =? GPIO_BUTTON_1
     then led1 w' = negb (led1 w) /\ btn1_last_time w' = t /\
          gpio_out w' GPIO_LED_1 = negb (gpio_out w GPIO_LED_1)
     else led2 w' = negb (led2 w) /\ btn2_last_time w' = t /\
          gpio_out w' GPIO_LED_2 = negb (gpio_out w GPIO_LED_2)).
Proof.
  intros pin t events bounces w Hpin Hrise Hfar Hnear burst w'.
  set (w1 := on_button_interrupt t pin events w).
  assert (Hfirst :
    if pin =? GPIO_BUTTON_1
    then led1 w1 = negb (led1 w) /\ btn1_last_time w1 = t /\
         gpio_out w1 GPIO_LED_1 = negb (gpio_out w GPIO_LED_1)
    else led2 w1 = negb (led2 w) /\ btn2_last_time w1 = t /\
         gpio_out w1 GPIO_LED_2 = negb (gpio_out w GPIO_LED_2)).
  { subst w1. unfold on_button_interrupt.
    destruct (Z.eqb_spec (Z.land events GPIO_IRQ_EDGE_RISE) 0);
      [contradiction |].
    destruct Hpin as [-> | ->].
    - change (GPIO_BUTTON_1 =? GPIO_BUTTON_1) with true in *. cbv iota in *.
      rewrite Z.gtb_ltb.
      destruct (Z.ltb_spec BTN_DEBOUNCE_MS (uint32 (t - btn1_last_time w)));
        [| lia].
      cbn [led1 btn1_last_time gpio_out].
      change (GPIO_LED_1 =? GPIO_LED_1) with true.
      repeat split; reflexivity.
    - change (GPIO_BUTTON_2 =? GPIO_BUTTON_1) with false in *.
      change (GPIO_BUTTON_2 =? GPIO_BUTTON_2) with true. cbv iota in *.
      rewrite Z.gtb_ltb.
      destruct (Z.ltb_spec BTN_DEBOUNCE_MS (uint32 (t - btn2_last_time w)));
        [| lia].
      cbn [led2 btn2_last_time gpio_out].
      change (GPIO_LED_2 =? GPIO_LED_2) with true.
      repeat split; reflexivity. }
  assert (Hrest : w' = w1).
  { subst w' burst.
    change (button_run ((t, pin, events) :: ?l) w) with (button_run l w1).
    clearbody w1. clear Hfar Hrise.
    induction Hnear as [| [now ev] tl Hb _ IH]; [reflexivity |].
    cbn [map fst snd].
    change (button_run ((now, pin, ev) :: ?l) w1)
      with (button_run l (on_button_interrupt now pin ev w1)).
    rewrite bounce_ignored; [exact IH |].
    cbn [fst] in Hb.
    destruct Hpin as [-> | ->].
    - left. change (GPIO_BUTTON_1 =? GPIO_BUTTON_1) with true in Hfirst.
      cbv iota in Hfirst. destruct Hfirst as [_ [-> _]]. auto.
    - right. change (GPIO_BUTTON_2 =? GPIO_BUTTON_1) with false in Hfirst.
      cbv iota in Hfirst. destruct Hfirst as [_ [-> _]]. auto. }
  rewrite Hrest. split; [reflexivity | exact Hfirst].
Qed.

(** X19 on a press of button 1 at 1000 ms that bounces three times. *)
Lemma button_burst_toggles_once_witness :
  led1 (button_run [(1000, GPIO_BUTTON_1, GPIO_IRQ_EDGE_RISE);
                    (1003, GPIO_BUTTON_1, GPIO_IRQ_EDGE_FALL);
                    (1004, GPIO_BUTTON_1, GPIO_IRQ_EDGE_RISE);
                    (1050, GPIO_BUTTON_1, GPIO_IRQ_EDGE_RISE)] button_boot)
  = true.
Proof.
  apply (proj1 (proj2 (button_burst_toggles_once GPIO_BUTTON_1 1000
    GPIO_IRQ_EDGE_RISE
    [(1003, GPIO_IRQ_EDGE_FALL); (1004, GPIO_IRQ_EDGE_RISE);
     (1050, GPIO_IRQ_EDGE_RISE)] button_boot
    (or_introl eq_refl) ltac:(discriminate) ltac:(vm_compute; reflexivity)
    ltac:(repeat constructor; vm_compute; discriminate)))).
Defined.

(** ** The bridge, end to end *)

Lemma int16_cases (v : Z) :
  0 <= v < 65536 ->
  (v < 32768 -> int16 v = v) /\ (32768 <= v -> int16 v = v - 65536).
Proof.
  intros Hv. unfold int16. split; intros H.
  - rewrite Z.mod_small by lia. lia.
  - replace (v + 32768) with (v - 32768 + 1 * 65536) by lia.
    rewrite Z.mod_add by lia. rewrite Z.mod_small by lia. lia.
Qed.

(** X20. From the controller's registers to the graphics engine: when the
    driver is initialised and the controller reports one point,
    [touchpad_read] reports "pressed" at x = X_L + 256 * X_H and
    y = Y_L + 256 * Y_H and caches that point, as long as the high bytes are
    below 128; a coordinate of 32768 or more does not fit the engine's
    16-bit signed coordinate and comes out 65536 lower, negative. *)
Theorem touchpad_read_single_touch :
  forall (bus : i2c_bus) (w : indev_world) (s xl xh yl yh : Z),
    initialized (gt911_dev (indev_gt911 w)) = true ->
    reads_as bus GT911_REG_STATUS s ->
    status_point_count s = 1 ->
    reads_as bus GT911_REG_PT1_X_L xl ->
    reads_as bus GT911_REG_PT1_X_H xh ->
    reads_as bus GT911_REG_PT1_Y_L yl ->
    reads_as bus GT911_REG_PT1_Y_H yh ->
    let d := fst (touchpad_read bus w) in
    let w' := snd (touchpad_read bus w) in
    indev_state d = LV_INDEV_STATE_PR /\
    point_x d = (if xh <? 128 then xl + 256 * xh
                 else xl + 256 * xh - 65536) /\
    point_y d = (if yh <? 128 then yl + 256 * yh
                 else yl + 256 * yh - 65536) /\
    indev_last_x w' = point_x d /\ indev_last_y w' = point_y d.
Proof.
  intros bus w s xl xh yl yh Hinit Hs Hcount Hxl Hxh Hyl Hyh d w'.
  subst d w'. unfold touchpad_read.
  pose proof (reads_as_byte _ _ _ Hxl) as Bxl.
  pose proof (reads_as_byte _ _ _ Hxh) as Bxh.
  pose proof (reads_as_byte _ _ _ Hyl) as Byl.
  pose proof (reads_as_byte _ _ _ Hyh) as Byh.
  rewrite (gt911_read_touch_single bus (indev_gt911 w) s xl xh yl yh
             Hinit Hs Hcount Hxl Hxh Hyl Hyh).
  cbn [ts_pressed ts_x ts_y fst snd point_x point_y indev_state
       indev_last_x indev_last_y].
  rewrite !le16_bytes by assumption.
  destruct (int16_cases (xl + 256 * xh) ltac:(lia)) as [Xs Xb].
  destruct (int16_cases (yl + 256 * yh) ltac:(lia)) as [Ys Yb].
  split; [reflexivity |].
  split; [destruct (Z.ltb_spec xh 128); [apply Xs | apply Xb]; lia |].
  split; [destruct (Z.ltb_spec yh 128); [apply Ys | apply Yb]; lia |].
  split; reflexivity.
Qed.

(** X20 on the controller that reports one point at (356,200). *)
Lemma touchpad_read_single_touch_witness :
  let d := fst (touchpad_read (gt911_device far_touch_regs 3)
                  {| indev_gt911 := gt911_ready; indev_last_x := 0;
                     indev_last_y := 0 |}) in
  (point_x d, point_y d) = (356, 200).
Proof.
  intros d.
  destruct (touchpad_read_single_touch
              (gt911_device far_touch_regs 3)
              {| indev_gt911 := gt911_ready; indev_last_x := 0;
                 indev_last_y := 0 |} 0x81 0x64 0x01 0xC8 0x00 eq_refl
              (gt911_device_reads_as far_touch_regs 3 GT911_REG_STATUS
                 ltac:(in_range))
              eq_refl
              (gt911_device_reads_as far_touch_regs 3 GT911_REG_PT1_X_L
                 ltac:(in_range))
              (gt911_device_reads_as far_touch_regs 3 GT911_REG_PT1_X_H
                 ltac:(in_range))
              (gt911_device_reads_as far_touch_regs 3 GT911_REG_PT1_Y_L
                 ltac:(in_range))
              (gt911_device_reads_as far_touch_regs 3 GT911_REG_PT1_Y_H
                 ltac:(in_range)))
    as [_ [Hx [Hy _]]].
  fold d in Hx, Hy. rewrite Hx, Hy. reflexivity.
Defined.
